(** * NYC weather data preparation: a shallow embedding of [data_preparation.py]

    The script reads a table of hourly weather observations, cleans it,
    and derives three tables: daily means per airport, monthly means
    pivoted by airport, and the windiest days of one airport.

    Modelling choices.
    - A [DataFrame] is a list of column labels and a list of typed rows.
      The columns the script touches are record fields of [Row]; the other
      weather fields of the file are never read and are left out.  A frame
      also records whether its number columns have a numeric dtype: they
      have not when the frame comes from a file without any data row.
    - Frames are Python objects: they live in a store and are passed by
      reference, so that the column assignments of the script
      ([df['date'] = ...]) are visible to whoever holds the reference.
    - Wind speeds are exact rationals ([Q]); a missing value (NaN) is
      [None].  Rounding of binary floating point is not modelled: the
      statements below name the products and the means, and rely on no law
      of exact arithmetic.
    - What a run depends on besides its arguments (the installed versions
      of pandas and NumPy, and the paths of the disk that can be written)
      is a parameter, [Library].
    - Exceptions are values of [Exn]; a computation is a function from the
      state to a result and a new state.
    - Console output ([print]) is not modelled. *)

From Stdlib Require Import List ZArith QArith String Ascii Bool Lia.
From Stdlib Require Import Sorted Permutation OrderedTypeEx.
Import ListNotations.

Local Open Scope string_scope.
Local Open Scope list_scope.

(** ** Exceptions and results *)

Inductive Exn : Type :=
| FileNotFoundError (path : string)
| KeyError (column : string)
| ValueError (msg : string)
| TypeError (msg : string)
| OSError (path : string)        (* OSError or one of its subclasses, from to_csv *)
| DanglingReference.  (* not a Python exception: a reference outside the store *)

Inductive Result (A : Type) : Type :=
| Ok (a : A)
| Raise (e : Exn).

Arguments Ok {A} a.
Arguments Raise {A} e.

(** ** Data model *)

(** A [Timestamp] at midnight is represented by the integer whose decimal
    writing is YYYYMMDD; on valid dates the order of these integers is the
    chronological order. *)
Definition Timestamp : Type := Z.

Record Row : Type := mkRow {
  origin : option string;        (* site code; None is a missing value *)
  year : Z;
  month : Z;
  day : Z;
  wind_speed : option Q;         (* miles per hour; None is NaN *)
  wind_speed_ms : option Q;      (* derived column, metres per second *)
  date : option Timestamp        (* derived column *)
}.

Record DataFrame : Type := mkDataFrame {
  columns : list string;
  rows : list Row;
  numeric : bool                 (* the number columns have a numeric dtype *)
}.

(** A frame as [read_csv] makes it from a file with data rows: the types of
    the columns are inferred from the values, and the number columns are
    numeric.  From a file that has a header and no data row there is
    nothing to infer, every column has dtype [object], and [numeric] is
    [false]. *)
Definition mkFrame (cs : list string) (rs : list Row) : DataFrame :=
  mkDataFrame cs rs true.

(** A column is a label with the accessors of the matching field. *)
Record Column (A : Type) : Type := mkColumn {
  label : string;
  get : Row -> A;
  set : A -> Row -> Row
}.

Arguments label {A} c.
Arguments get {A} c r.
Arguments set {A} c v r.

Definition origin_col : Column (option string) :=
  mkColumn _ "origin" origin
    (fun v r => mkRow v (year r) (month r) (day r) (wind_speed r) (wind_speed_ms r) (date r)).
Definition year_col : Column Z :=
  mkColumn _ "year" year
    (fun v r => mkRow (origin r) v (month r) (day r) (wind_speed r) (wind_speed_ms r) (date r)).
Definition month_col : Column Z :=
  mkColumn _ "month" month
    (fun v r => mkRow (origin r) (year r) v (day r) (wind_speed r) (wind_speed_ms r) (date r)).
Definition day_col : Column Z :=
  mkColumn _ "day" day
    (fun v r => mkRow (origin r) (year r) (month r) v (wind_speed r) (wind_speed_ms r) (date r)).
Definition wind_speed_col : Column (option Q) :=
  mkColumn _ "wind_speed" wind_speed
    (fun v r => mkRow (origin r) (year r) (month r) (day r) v (wind_speed_ms r) (date r)).
Definition wind_speed_ms_col : Column (option Q) :=
  mkColumn _ "wind_speed_ms" wind_speed_ms
    (fun v r => mkRow (origin r) (year r) (month r) (day r) (wind_speed r) v (date r)).
Definition date_col : Column (option Timestamp) :=
  mkColumn _ "date" date
    (fun v r => mkRow (origin r) (year r) (month r) (day r) (wind_speed r) (wind_speed_ms r) v).

(** ** Result tables *)

(** [daily]: columns Date, Airport, Wind_Speed_ms. *)
Definition DailyRecord : Type := (Timestamp * string * option Q)%type.

(** [monthly_pivot]: column Month, then one column per airport. *)
Record MonthlyFrame : Type := mkMonthly {
  airport_columns : list string;
  month_rows : list (Z * list (option Q))
}.

(** [top_days]: columns Date, Wind_Speed_ms, Airport. *)
Definition TopDayRecord : Type := (Timestamp * option Q * string)%type.

Inductive Table : Type :=
| DailyTable (t : list DailyRecord)
| MonthlyTable (t : MonthlyFrame)
| TopDaysTable (t : list TopDayRecord).

(** ** The store and the computation monad *)

Definition loc : Type := nat.

Record State : Type := mkState {
  heap : list DataFrame;                 (* the frames, addressed by position *)
  written : list (string * Table)        (* files written so far, oldest first *)
}.

Definition Py (A : Type) : Type := State -> Result A * State.

Definition ret {A} (a : A) : Py A := fun s => (Ok a, s).

Definition raise {A} (e : Exn) : Py A := fun s => (Raise e, s).

Definition bind {A B} (m : Py A) (k : A -> Py B) : Py B :=
  fun s => match m s with
           | (Ok a, s') => k a s'
           | (Raise e, s') => (Raise e, s')
           end.

Notation "x <- m ;; k" := (bind m (fun x => k))
  (at level 61, m at next level, right associativity).
Notation "m ;;; k" := (bind m (fun _ => k))
  (at level 61, right associativity).

Definition alloc (f : DataFrame) : Py loc :=
  fun s => (Ok (List.length (heap s)), mkState (heap s ++ [f]) (written s)).

Definition deref (l : loc) : Py DataFrame :=
  fun s => match nth_error (heap s) l with
           | Some f => (Ok f, s)
           | None => (Raise DanglingReference, s)
           end.

Fixpoint update {A} (n : nat) (x : A) (l : list A) : list A :=
  match l, n with
  | [], _ => []
  | _ :: t, O => x :: t
  | h :: t, S n' => h :: update n' x t
  end.

Definition store (l : loc) (f : DataFrame) : Py unit :=
  fun s => (Ok tt, mkState (update l f (heap s)) (written s)).

(** ** What a run depends on besides its arguments

    Two points of pandas and NumPy differ between versions, and whether a
    file can be written depends on the disk; the three are left open, and
    every result below holds for each way of filling them in.
    - [Series.sort_values] sorts with NumPy's default [quicksort], which is
      not stable: all that is known of [quicksort_desc] is that it returns
      its argument sorted by descending speed.
    - [to_datetime] on the columns year, month and day: pandas up to 3.0
      adds the three [int64] columns into [year * 10000 + month * 100 + day]
      (the sum can wrap, and a field out of range carries into the next)
      and parses the number with format [%Y%m%d]; later versions build the
      date field by field and hold years outside the nanosecond range.
      All versions agree on the triples spelled out in [assemble_date];
      [assemble_other] stands for what the installed one makes of any other
      triple.
    - [can_write] tells the paths at which [to_csv] can create its file (the
      directory exists, the path is not a directory, it may be written). *)

Definition by_speed_desc (a b : Timestamp * Q) : Prop := (snd b <= snd a)%Q.

Class Library : Type := mkLibrary {
  quicksort_desc : list (Timestamp * Q) -> list (Timestamp * Q);
  quicksort_desc_perm : forall l, Permutation (quicksort_desc l) l;
  quicksort_desc_sorted : forall l, StronglySorted by_speed_desc (quicksort_desc l);
  assemble_other : Z -> Z -> Z -> option Timestamp;
  can_write : string -> bool
}.

(** [table.to_csv(path, index=False)]: the file is created with the table
    in it, or [OSError] is raised and nothing is written. *)
Definition write_file `{Library} (path : string) (t : Table) : Py unit :=
  fun s => if can_write path
           then (Ok tt, mkState (heap s) (written s ++ [(path, t)]))
           else (Raise (OSError path), s).

(** ** Constants *)

Definition MPH_TO_MS : Q := 44704 # 100000.   (* 0.44704 *)
Definition AIRPORTS : list string := ["EWR"; "JFK"; "LGA"].

(** ** pandas operations used by the script *)

Definition has_column (f : DataFrame) (c : string) : bool :=
  existsb (String.eqb c) (columns f).

Definition add_column (c : string) (cs : list string) : list string :=
  if existsb (String.eqb c) cs then cs else cs ++ [c].

(** [df[c]]: the values of a column, in row order. *)
Definition getitem {A} (c : Column A) (df : loc) : Py (list A) :=
  f <- deref df ;;
  if has_column f (label c) then ret (map (get c) (rows f))
  else raise (KeyError (label c)).

Fixpoint zip_with {A B C} (g : A -> B -> C) (l : list A) (l' : list B) : list C :=
  match l, l' with
  | a :: t, b :: t' => g a b :: zip_with g t t'
  | _, _ => []
  end.

(** [df[c] = vals]: assignment of a column, in place. *)
Definition setitem {A} (c : Column A) (df : loc) (vals : list A) : Py unit :=
  f <- deref df ;;
  if Nat.eqb (List.length vals) (List.length (rows f))
  then store df (mkDataFrame (add_column (label c) (columns f))
                             (zip_with (set c) vals (rows f)) (numeric f))
  else raise (ValueError "Length of values does not match length of index").

Fixpoint select {A} (mask : list bool) (l : list A) : list A :=
  match mask, l with
  | true :: m, a :: t => a :: select m t
  | false :: m, _ :: t => select m t
  | _, _ => []
  end.

(** [df[mask]]: a new frame with the rows where the mask holds. *)
Definition getitem_mask (df : loc) (mask : list bool) : Py loc :=
  f <- deref df ;;
  alloc (mkDataFrame (columns f) (select mask (rows f)) (numeric f)).

(** [df.copy()]. *)
Definition copy (df : loc) : Py loc :=
  f <- deref df ;;
  alloc f.

Definition notna {A} (v : option A) : bool :=
  match v with Some _ => true | None => false end.

(** [df.dropna(subset=[c])]: a new frame without the rows where [c] is
    missing. *)
Definition dropna {A} (c : Column (option A)) (df : loc) : Py loc :=
  f <- deref df ;;
  if has_column f (label c)
  then alloc (mkDataFrame (columns f) (filter (fun r => notna (get c r)) (rows f))
                (numeric f))
  else raise (KeyError (label c)).

(** Whether the number columns of the frame have a numeric dtype; in pandas
    the dtype travels with the values of a column. *)
Definition is_numeric (df : loc) : Py bool :=
  f <- deref df ;;
  ret (numeric f).

(** [series.isin(values)]; a missing value is in no list. *)
Definition isin (vals : list (option string)) (values : list string) : list bool :=
  map (fun v => match v with
                | Some s => existsb (String.eqb s) values
                | None => false
                end) vals.

(** [series == scalar]; a missing value equals nothing. *)
Definition eq_scalar (vals : list (option string)) (x : string) : list bool :=
  map (fun v => match v with
                | Some s => String.eqb s x
                | None => false
                end) vals.

(** [series * scalar]; NaN stays NaN. *)
Definition mul_scalar (vals : list (option Q)) (c : Q) : list (option Q) :=
  map (option_map (fun w => (w * c)%Q)) vals.

(** [pd.read_csv(path)]: the parsed content of the file, with the dtypes
    inferred from it, as a new frame. *)
Definition read_csv (fs : string -> option DataFrame) (path : string) : Py loc :=
  match fs path with
  | Some f => alloc f
  | None => raise (FileNotFoundError path)
  end.

(** ** Dates *)

Definition is_leap_year (y : Z) : bool :=
  ((y mod 4 =? 0) && negb (y mod 100 =? 0) || (y mod 400 =? 0))%Z.

Definition days_in_month (y m : Z) : Z :=
  if (m =? 2)%Z then (if is_leap_year y then 29 else 28)%Z
  else if ((m =? 4) || (m =? 6) || (m =? 9) || (m =? 11))%Z then 30%Z
  else 31%Z.

(** The triple is a date of the calendar. *)
Definition valid_date (y m d : Z) : bool :=
  ((1 <=? m) && (m <=? 12) && (1 <=? d) && (d <=? days_in_month y m))%Z.

(** The timestamp of the date (y, m, d), in the representation of
    [Timestamp]. *)
Definition assemble (ymd : Z * Z * Z) : Z :=
  let '(y, m, d) := ymd in (y * 10000 + m * 100 + d)%Z.

(** [to_datetime] on one row of the columns year, month and day.  With a
    year of four digits, a month from 1 to 12 and a day from 1 to 31, every
    version of pandas gives the same: the triple must be a date of the
    calendar, and in the years 1678 to 2261, which a nanosecond timestamp
    holds in full, the result is that date.  A valid date in another year
    (an error up to pandas 2, a coarser timestamp from pandas 3) and a
    triple with a field out of these ranges are left to
    [assemble_other]. *)
Definition assemble_date `{Library} (t : Z * Z * Z) : option Timestamp :=
  let '(y, m, d) := t in
  if ((1000 <=? y) && (y <=? 9999) && (1 <=? m) && (m <=? 12)
      && (1 <=? d) && (d <=? 31))%Z then
    if valid_date y m d then
      if ((1678 <=? y) && (y <=? 2261))%Z then Some (assemble t)
      else assemble_other y m d
    else None
  else assemble_other y m d.

Fixpoint traverse {A B} (g : A -> option B) (l : list A) : option (list B) :=
  match l with
  | [] => Some []
  | a :: t =>
      match g a, traverse g t with
      | Some b, Some bs => Some (b :: bs)
      | _, _ => None
      end
  end.

(** [df[['year', 'month', 'day']]]. *)
Definition getitem_ymd (df : loc) : Py (list (Z * Z * Z)) :=
  y <- getitem year_col df ;;
  m <- getitem month_col df ;;
  d <- getitem day_col df ;;
  ret (zip_with pair (zip_with pair y m) d).

(** [pd.to_datetime(frame)] with the default [errors='raise']. *)
Definition to_datetime `{Library} (ymd : list (Z * Z * Z)) : Py (list Timestamp) :=
  match traverse assemble_date ymd with
  | Some ts => ret ts
  | None => raise (ValueError "cannot assemble the datetimes")
  end.

(** ** Grouping *)

Definition Qsum (l : list Q) : Q := fold_right Qplus 0%Q l.

Definition arithmetic_mean (l : list Q) : Q :=
  (Qsum l / inject_Z (Z.of_nat (List.length l)))%Q.

Fixpoint present {A} (l : list (option A)) : list A :=
  match l with
  | [] => []
  | Some a :: t => a :: present t
  | None :: t => present t
  end.

(** [mean()] of a group: missing values are skipped, and the mean of no
    value is NaN. *)
Definition mean (l : list (option Q)) : option Q :=
  match present l with
  | [] => None
  | vs => Some (arithmetic_mean vs)
  end.

Definition cmp_pair {A B} (ca : A -> A -> comparison) (cb : B -> B -> comparison)
    (x y : A * B) : comparison :=
  match ca (fst x) (fst y) with
  | Eq => cb (snd x) (snd y)
  | c => c
  end.

Definition key2 {A B} (a : option A) (b : option B) : option (A * B) :=
  match a, b with
  | Some x, Some y => Some (x, y)
  | _, _ => None
  end.

Section GroupBy.
Context {K : Type} (cmp : K -> K -> comparison).

Definition same_key (k k' : K) : bool :=
  match cmp k k' with Eq => true | _ => false end.

(** Insertion in an ascending list without repetition. *)
Fixpoint insert_key (k : K) (ks : list K) : list K :=
  match ks with
  | [] => [k]
  | k' :: t =>
      match cmp k k' with
      | Lt => k :: ks
      | Eq => ks
      | Gt => k' :: insert_key k t
      end
  end.

(** The distinct keys, ascending. *)
Definition group_keys (ks : list K) : list K :=
  fold_right insert_key [] ks.

(** The values of the rows of one group, in row order. *)
Definition group_values (k : K) (kv : list (option K * option Q)) : list (option Q) :=
  map snd (filter (fun p => match fst p with
                            | Some k' => same_key k k'
                            | None => false
                            end) kv).

(** [df.groupby(keys)[col].mean().reset_index()]: one row per distinct
    key, ascending by key; rows with a missing key belong to no group. *)
Definition groupby_mean (keys : list (option K)) (vals : list (option Q))
    : list (K * option Q) :=
  map (fun k => (k, mean (group_values k (combine keys vals))))
      (group_keys (present keys)).
End GroupBy.

(** ** Pivot *)

Definition same_cell (k k' : Z * string) : bool :=
  ((fst k =? fst k')%Z && String.eqb (snd k) (snd k'))%bool.

Fixpoint has_duplicates (ks : list (Z * string)) : bool :=
  match ks with
  | [] => false
  | k :: t => existsb (same_cell k) t || has_duplicates t
  end.

(** The value of the long table at (month, airport); NaN when there is no
    such row. *)
Definition lookup_cell (l : list (Z * string * option Q)) (m : Z) (a : string)
    : option Q :=
  match find (fun r => same_cell (m, a) (fst r)) l with
  | Some r => snd r
  | None => None
  end.

(** [long.pivot(index='Month', columns='Airport', values='Wind_Speed_ms')
    .reset_index()]: one row per distinct month, ascending, one column per
    distinct airport, ascending; pandas refuses to reshape when an
    (index, column) pair occurs twice. *)
Definition pivot (l : list (Z * string * option Q)) : Py MonthlyFrame :=
  if has_duplicates (map fst l)
  then raise (ValueError "Index contains duplicate entries, cannot reshape")
  else
    let airports := group_keys String.compare (map (fun r => snd (fst r)) l) in
    let months := group_keys Z.compare (map (fun r => fst (fst r)) l) in
    ret (mkMonthly airports
           (map (fun m => (m, map (lookup_cell l m) airports)) months)).

(** ** N largest *)

(** Insertion before the first row that is not strictly faster: rows of
    equal speed keep their order. *)
Fixpoint insert_desc (x : Timestamp * Q) (l : list (Timestamp * Q))
    : list (Timestamp * Q) :=
  match l with
  | [] => [x]
  | y :: t =>
      if Qle_bool (snd y) (snd x) then x :: l else y :: insert_desc x t
  end.

(** The stable sort by descending speed ([argsort(kind="mergesort")] on the
    negated values), written as an insertion sort: every stable sort
    returns the same list. *)
Definition mergesort_desc (l : list (Timestamp * Q)) : list (Timestamp * Q) :=
  fold_right insert_desc [] l.

Fixpoint dropna_rows (l : list (Timestamp * option Q)) : list (Timestamp * Q) :=
  match l with
  | [] => []
  | (d, Some v) :: t => (d, v) :: dropna_rows t
  | (_, None) :: t => dropna_rows t
  end.

Definition nan_rows (l : list (Timestamp * option Q)) : list (Timestamp * option Q) :=
  filter (fun r => negb (notna (snd r))) l.

Definition with_speed (r : Timestamp * Q) : Timestamp * option Q :=
  (fst r, Some (snd r)).

(** The rows that [nlargest] selects, with the default [keep='first'].
    Nothing for [n <= 0].  When [n] is at least the number of rows the
    whole column is sorted with [sort_values(ascending=False)]; otherwise
    the rows are selected with a stable sort.  Rows with NaN come last in
    both cases. *)
Definition nlargest_rows `{Library} (n : Z) (l : list (Timestamp * option Q))
    : list (Timestamp * option Q) :=
  if (n <=? 0)%Z then []
  else
    let sorted :=
      if (Z.of_nat (List.length l) <=? n)%Z
      then quicksort_desc (dropna_rows l)
      else mergesort_desc (dropna_rows l) in
    firstn (Z.to_nat n) (map with_speed sorted ++ nan_rows l).

(** [frame.nlargest(n, 'Wind_Speed_ms')]: the dtype of the column is
    checked first, whatever [n] and the number of rows, and a column of
    dtype [object] is refused. *)
Definition nlargest `{Library} (numeric_dtype : bool) (n : Z)
    (l : list (Timestamp * option Q)) : Py (list (Timestamp * option Q)) :=
  if numeric_dtype then ret (nlargest_rows n l)
  else raise (TypeError
    "Column 'Wind_Speed_ms' has dtype object, cannot use method 'nlargest' with this dtype").

(** ** The script *)

Section Script.
Context `{Library}.

(** [load_and_clean_data(filepath)]. *)
Definition load_and_clean_data (fs : string -> option DataFrame)
    (filepath : string) : Py loc :=
  df <- read_csv fs filepath ;;
  o <- getitem origin_col df ;;
  df <- getitem_mask df (isin o AIRPORTS) ;;
  df <- dropna wind_speed_col df ;;
  w <- getitem wind_speed_col df ;;
  setitem wind_speed_ms_col df (mul_scalar w MPH_TO_MS) ;;;
  ret df.

(** [calculate_daily_means(df)]. *)
Definition calculate_daily_means (df : loc) : Py (list DailyRecord) :=
  ymd <- getitem_ymd df ;;
  d <- to_datetime ymd ;;
  setitem date_col df (map Some d) ;;;
  dates <- getitem date_col df ;;
  origins <- getitem origin_col df ;;
  speeds <- getitem wind_speed_ms_col df ;;
  ret (map (fun g => (fst (fst g), snd (fst g), snd g))
         (groupby_mean (cmp_pair Z.compare String.compare)
            (zip_with key2 dates origins) speeds)).

(** [calculate_monthly_means(df)]. *)
Definition calculate_monthly_means (df : loc) : Py MonthlyFrame :=
  months <- getitem month_col df ;;
  origins <- getitem origin_col df ;;
  speeds <- getitem wind_speed_ms_col df ;;
  pivot (groupby_mean (cmp_pair Z.compare String.compare)
           (zip_with key2 (map Some months) origins) speeds).

(** [find_top_windiest_days(df, airport, top_n)]. *)
Definition find_top_windiest_days (df : loc) (airport : string) (top_n : Z)
    : Py (list TopDayRecord) :=
  o <- getitem origin_col df ;;
  selected <- getitem_mask df (eq_scalar o airport) ;;
  airport_df <- copy selected ;;
  ymd <- getitem_ymd airport_df ;;
  d <- to_datetime ymd ;;
  setitem date_col airport_df (map Some d) ;;;
  dates <- getitem date_col airport_df ;;
  speeds <- getitem wind_speed_ms_col airport_df ;;
  numeric_dtype <- is_numeric airport_df ;;
  top_days <- nlargest numeric_dtype top_n (groupby_mean Z.compare dates speeds) ;;
  ret (map (fun r => (fst r, snd r, airport)) top_days).

(** [export_for_tableau(daily, monthly, top_days, output_dir)]. *)
Definition export_for_tableau (daily : list DailyRecord) (monthly : MonthlyFrame)
    (top_days : list TopDayRecord) (output_dir : string) : Py unit :=
  write_file (output_dir ++ "/daily_wind_speeds.csv") (DailyTable daily) ;;;
  write_file (output_dir ++ "/monthly_wind_speeds.csv") (MonthlyTable monthly) ;;;
  write_file (output_dir ++ "/top_windiest_days.csv") (TopDaysTable top_days).

(** [prepare_data_for_tableau(input_file, output_dir)]. *)
Definition prepare_data_for_tableau (fs : string -> option DataFrame)
    (input_file output_dir : string) : Py unit :=
  df <- load_and_clean_data fs input_file ;;
  daily <- calculate_daily_means df ;;
  monthly <- calculate_monthly_means df ;;
  top_days <- find_top_windiest_days df "LGA" 20 ;;
  export_for_tableau daily monthly top_days output_dir.
End Script.

(** * Properties *)

(** ** The stable sort *)

Lemma Qle_bool_false (a b : Q) : Qle_bool a b = false -> (b < a)%Q.
Proof.
  intros E. apply Qnot_le_lt. intros L.
  apply Qle_bool_iff in L. congruence.
Qed.

Lemma insert_desc_perm (x : Timestamp * Q) (l : list (Timestamp * Q)) :
  Permutation (insert_desc x l) (x :: l).
Proof.
  induction l as [|y t IH]; simpl.
  - apply Permutation_refl.
  - destruct (Qle_bool (snd y) (snd x)).
    + apply Permutation_refl.
    + eapply perm_trans; [apply perm_skip, IH | apply perm_swap].
Qed.

Lemma mergesort_desc_perm (l : list (Timestamp * Q)) :
  Permutation (mergesort_desc l) l.
Proof.
  induction l as [|x t IH]; simpl.
  - constructor.
  - eapply perm_trans; [apply insert_desc_perm | apply perm_skip, IH].
Qed.

Lemma by_speed_desc_trans (a b c : Timestamp * Q) :
  by_speed_desc a b -> by_speed_desc b c -> by_speed_desc a c.
Proof. unfold by_speed_desc. intros. eapply Qle_trans; eassumption. Qed.

Lemma insert_desc_sorted (x : Timestamp * Q) (l : list (Timestamp * Q)) :
  StronglySorted by_speed_desc l -> StronglySorted by_speed_desc (insert_desc x l).
Proof.
  induction 1 as [|y t St IH Hy]; simpl.
  - repeat constructor.
  - destruct (Qle_bool (snd y) (snd x)) eqn:E.
    + apply Qle_bool_iff in E. constructor.
      * constructor; assumption.
      * constructor; [exact E|].
        eapply Forall_impl; [|exact Hy].
        intros c Hc. eapply by_speed_desc_trans; [exact E | exact Hc].
    + apply Qle_bool_false in E. constructor; [exact IH|].
      eapply Permutation_Forall; [apply Permutation_sym, insert_desc_perm|].
      constructor; [|exact Hy].
      unfold by_speed_desc. apply Qlt_le_weak, E.
Qed.

Lemma mergesort_desc_sorted (l : list (Timestamp * Q)) :
  StronglySorted by_speed_desc (mergesort_desc l).
Proof.
  induction l as [|x t IH]; simpl.
  - constructor.
  - apply insert_desc_sorted, IH.
Qed.

(** A library whose [sort_values] happens to be stable and whose
    [to_datetime] refuses every triple outside the cases spelled out, on a
    disk where every path can be written. *)
Definition strict_library : Library :=
  mkLibrary mergesort_desc mergesort_desc_perm mergesort_desc_sorted
    (fun _ _ _ => None) (fun _ => true).

(** ** Lists *)

Lemma select_map {A} (p : A -> bool) (l : list A) :
  select (map p l) l = filter p l.
Proof.
  induction l as [|a t IH]; simpl; [reflexivity|].
  destruct (p a); rewrite IH; reflexivity.
Qed.

Lemma zip_with_map {A B C D} (g : B -> C -> D) (f : A -> B) (f' : A -> C) (l : list A) :
  zip_with g (map f l) (map f' l) = map (fun a => g (f a) (f' a)) l.
Proof. induction l as [|a t IH]; simpl; [|rewrite IH]; reflexivity. Qed.

Lemma zip_with_map_l {A B C} (g : B -> A -> C) (f : A -> B) (l : list A) :
  zip_with g (map f l) l = map (fun a => g (f a) a) l.
Proof. induction l as [|a t IH]; simpl; [|rewrite IH]; reflexivity. Qed.

Lemma combine_map {A B C} (f : A -> B) (f' : A -> C) (l : list A) :
  combine (map f l) (map f' l) = map (fun a => (f a, f' a)) l.
Proof. induction l as [|a t IH]; simpl; [|rewrite IH]; reflexivity. Qed.

Lemma filter_map {A B} (p : B -> bool) (f : A -> B) (l : list A) :
  filter p (map f l) = map f (filter (fun a => p (f a)) l).
Proof.
  induction l as [|a t IH]; simpl; [reflexivity|].
  destruct (p (f a)); simpl; rewrite IH; reflexivity.
Qed.

Lemma traverse_length {A B} (g : A -> option B) (l : list A) (bs : list B) :
  traverse g l = Some bs -> List.length bs = List.length l.
Proof.
  revert bs. induction l as [|a t IH]; simpl; intros bs E.
  - injection E as <-. reflexivity.
  - destruct (g a); [|discriminate].
    destruct (traverse g t) as [bs'|]; [|discriminate].
    injection E as <-. simpl. rewrite (IH bs'); reflexivity.
Qed.

Lemma traverse_all {A B} (g : A -> option B) (h : A -> B) (l : list A) :
  Forall (fun a => g a = Some (h a)) l -> traverse g l = Some (map h l).
Proof.
  induction 1 as [|a t Ha _ IH]; simpl; [reflexivity|].
  rewrite Ha, IH. reflexivity.
Qed.


Lemma present_map_Some {A} (l : list A) : present (map Some l) = l.
Proof. induction l as [|a t IH]; simpl; [|rewrite IH]; reflexivity. Qed.

(** ** The store *)

Lemma length_update {A} (n : nat) (x : A) (l : list A) :
  List.length (update n x l) = List.length l.
Proof.
  revert n. induction l as [|a t IH]; intros [|n]; simpl; try reflexivity.
  rewrite IH. reflexivity.
Qed.

Lemma nth_error_update_eq {A} (n : nat) (x : A) (l : list A) :
  (n < List.length l)%nat -> nth_error (update n x l) n = Some x.
Proof.
  revert n. induction l as [|a t IH]; intros [|n]; simpl; intros Hn;
    try reflexivity; try lia.
  apply IH. lia.
Qed.

Lemma update_app_last {A} (x y : A) (l : list A) :
  update (List.length l) y (l ++ [x]) = l ++ [y].
Proof. induction l as [|a t IH]; simpl; [|rewrite IH]; reflexivity. Qed.

Lemma nth_error_app_last {A} (x : A) (l : list A) :
  nth_error (l ++ [x]) (List.length l) = Some x.
Proof. induction l as [|a t IH]; simpl; [reflexivity | exact IH]. Qed.

Lemma nth_error_Some_lt {A} (l : list A) (n : nat) (x : A) :
  nth_error l n = Some x -> (n < List.length l)%nat.
Proof. intros E. apply nth_error_Some. congruence. Qed.

(** ** Running the pandas operations *)

Lemma bind_run {A B} (m : Py A) (k : A -> Py B) (s s' : State) (a : A) :
  m s = (Ok a, s') -> bind m k s = k a s'.
Proof. unfold bind. intros ->. reflexivity. Qed.

Lemma getitem_run {A} (c : Column A) (df : loc) (s : State) (f : DataFrame) :
  nth_error (heap s) df = Some f ->
  has_column f (label c) = true ->
  getitem c df s = (Ok (map (get c) (rows f)), s).
Proof.
  intros Hf Hc. unfold getitem, bind, deref. rewrite Hf, Hc. reflexivity.
Qed.

Lemma setitem_run {A} (c : Column A) (df : loc) (vals : list A) (s : State)
    (f : DataFrame) :
  nth_error (heap s) df = Some f ->
  List.length vals = List.length (rows f) ->
  setitem c df vals s =
    (Ok tt, mkState (update df (mkDataFrame (add_column (label c) (columns f))
                                            (zip_with (set c) vals (rows f))
                                            (numeric f)) (heap s))
                    (written s)).
Proof.
  intros Hf Hl. unfold setitem, bind, deref. rewrite Hf, Hl, Nat.eqb_refl.
  reflexivity.
Qed.

Lemma getitem_mask_run (df : loc) (mask : list bool) (s : State) (f : DataFrame) :
  nth_error (heap s) df = Some f ->
  getitem_mask df mask s =
    (Ok (List.length (heap s)),
     mkState (heap s ++ [mkDataFrame (columns f) (select mask (rows f)) (numeric f)])
             (written s)).
Proof. intros Hf. unfold getitem_mask, bind, deref. rewrite Hf. reflexivity. Qed.

Lemma is_numeric_run (df : loc) (s : State) (f : DataFrame) :
  nth_error (heap s) df = Some f -> is_numeric df s = (Ok (numeric f), s).
Proof. intros Hf. unfold is_numeric, bind, deref. rewrite Hf. reflexivity. Qed.

Lemma copy_run (df : loc) (s : State) (f : DataFrame) :
  nth_error (heap s) df = Some f ->
  copy df s = (Ok (List.length (heap s)), mkState (heap s ++ [f]) (written s)).
Proof. intros Hf. unfold copy, bind, deref. rewrite Hf. reflexivity. Qed.

Lemma dropna_run {A} (c : Column (option A)) (df : loc) (s : State) (f : DataFrame) :
  nth_error (heap s) df = Some f ->
  has_column f (label c) = true ->
  dropna c df s =
    (Ok (List.length (heap s)),
     mkState (heap s ++ [mkDataFrame (columns f)
                           (filter (fun r => notna (get c r)) (rows f)) (numeric f)])
             (written s)).
Proof.
  intros Hf Hc. unfold dropna, bind, deref. rewrite Hf, Hc. reflexivity.
Qed.

Lemma has_column_add (f : DataFrame) (c c' : string) :
  has_column f c = true ->
  existsb (String.eqb c) (add_column c' (columns f)) = true.
Proof.
  unfold has_column, add_column. intros Hc.
  destruct (existsb (String.eqb c') (columns f)); [exact Hc|].
  rewrite existsb_app, Hc. reflexivity.
Qed.

Lemma has_column_added (cs : list string) (c : string) :
  existsb (String.eqb c) (add_column c cs) = true.
Proof.
  unfold add_column. destruct (existsb (String.eqb c) cs) eqn:E; [exact E|].
  rewrite existsb_app. simpl. rewrite String.eqb_refl, orb_true_r. reflexivity.
Qed.

(** ** Cleaning *)

(** The cleaning in the words of the specification: keep the rows of a
    known site that have a wind speed, and add the speed in metres per
    second. *)
Definition known_site (r : Row) : bool :=
  match origin r with
  | Some a => existsb (String.eqb a) AIRPORTS
  | None => false
  end.

Definition has_wind_speed (r : Row) : bool := notna (wind_speed r).

Definition with_speed_ms (r : Row) : Row :=
  set wind_speed_ms_col (option_map (fun w => (w * MPH_TO_MS)%Q) (wind_speed r)) r.

Definition cleaned_rows (rs : list Row) : list Row :=
  map with_speed_ms (filter (fun r => known_site r && has_wind_speed r) rs).

Definition cleaned_frame (raw : DataFrame) : DataFrame :=
  mkDataFrame (add_column "wind_speed_ms" (columns raw)) (cleaned_rows (rows raw))
    (numeric raw).

Lemma filter_filter {A} (p q : A -> bool) (l : list A) :
  filter q (filter p l) = filter (fun a => p a && q a) l.
Proof.
  induction l as [|a t IH]; simpl; [reflexivity|].
  destruct (p a); simpl; [destruct (q a)|]; rewrite IH; reflexivity.
Qed.

Lemma load_and_clean_data_run (fs : string -> option DataFrame) (path : string)
    (raw : DataFrame) (s : State) :
  fs path = Some raw ->
  has_column raw "origin" = true ->
  has_column raw "wind_speed" = true ->
  load_and_clean_data fs path s =
    (Ok (2 + List.length (heap s))%nat,
     mkState (heap s ++ [raw;
                         mkDataFrame (columns raw) (filter known_site (rows raw)) (numeric raw);
                         cleaned_frame raw])
             (written s)).
Proof.
  intros Hfs Ho Hw. unfold load_and_clean_data, read_csv. rewrite Hfs.
  set (f1 := mkDataFrame (columns raw) (filter known_site (rows raw)) (numeric raw)).
  set (f2 := mkDataFrame (columns raw)
               (filter (fun r => notna (wind_speed r)) (rows f1)) (numeric raw)).
  set (s1 := mkState (heap s ++ [raw]) (written s)).
  set (s2 := mkState (heap s1 ++ [f1]) (written s)).
  set (s3 := mkState (heap s2 ++ [f2]) (written s)).
  assert (H1 : nth_error (heap s1) (List.length (heap s)) = Some raw)
    by apply nth_error_app_last.
  assert (H2 : nth_error (heap s2) (List.length (heap s1)) = Some f1)
    by apply nth_error_app_last.
  assert (H3 : nth_error (heap s3) (List.length (heap s2)) = Some f2)
    by apply nth_error_app_last.
  rewrite (bind_run _ _ s s1 (List.length (heap s)) eq_refl).
  rewrite (bind_run _ _ _ _ _ (getitem_run origin_col _ _ _ H1 Ho)).
  rewrite (bind_run _ _ _ _ _ (getitem_mask_run _ _ _ _ H1)).
  unfold isin. rewrite map_map.
  change (fun x => match get origin_col x with
                   | Some s0 => existsb (String.eqb s0) AIRPORTS
                   | None => false
                   end) with known_site.
  rewrite select_map. fold f1. fold s2.
  rewrite (bind_run _ _ _ _ _ (dropna_run wind_speed_col _ _ _ H2 Hw)).
  fold f2. fold s3.
  rewrite (bind_run _ _ _ _ _ (getitem_run wind_speed_col _ _ _ H3 Hw)).
  erewrite bind_run.
  2:{ apply (setitem_run wind_speed_ms_col _ _ _ _ H3).
      unfold mul_scalar. rewrite !length_map. reflexivity. }
  unfold ret. f_equal.
  - f_equal. subst s1 s2. simpl. rewrite !length_app. simpl. lia.
  - f_equal. subst s3. simpl heap. rewrite update_app_last.
    subst s2 s1. simpl heap. rewrite <- !app_assoc. simpl. do 4 f_equal.
    unfold cleaned_frame, cleaned_rows, mul_scalar. simpl columns. f_equal.
    rewrite map_map, zip_with_map_l. subst f2 f1. simpl rows.
    rewrite filter_filter. reflexivity.
Qed.

Lemma known_site_In (r : Row) :
  known_site r = true -> exists a, origin r = Some a /\ In a AIRPORTS.
Proof.
  unfold known_site. destruct (origin r) as [a|]; [|discriminate].
  intros E. exists a. split; [reflexivity|].
  apply existsb_exists in E. destruct E as [b [Hb Eb]].
  apply String.eqb_eq in Eb. subst b. exact Hb.
Qed.

Lemma cleaned_rows_known (rs : list Row) :
  Forall (fun r => exists a w,
            origin r = Some a /\ In a AIRPORTS /\
            wind_speed r = Some w /\ wind_speed_ms r = Some (w * MPH_TO_MS)%Q)
         (cleaned_rows rs).
Proof.
  unfold cleaned_rows. apply Forall_forall. intros r' Hin.
  apply in_map_iff in Hin. destruct Hin as [r [<- Hr]].
  apply filter_In in Hr. destruct Hr as [_ Hr].
  apply andb_true_iff in Hr. destruct Hr as [Hk Hw].
  destruct (known_site_In r Hk) as [a [Ha Hin]].
  unfold has_wind_speed in Hw. destruct (wind_speed r) as [w|] eqn:Ew; [|discriminate].
  exists a, w. unfold with_speed_ms. simpl. rewrite Ew. auto.
Qed.

(** A small weather file used to run the statements below. *)
Definition observation (a : string) (y m d : Z) (w : option Q) : Row :=
  mkRow (Some a) y m d w None None.

Definition weather_columns : list string :=
  ["origin"; "year"; "month"; "day"; "hour"; "wind_speed"].

Definition sample_weather : DataFrame :=
  mkFrame weather_columns
    [observation "LGA" 2013 1 1 (Some 10%Q);
     observation "LGA" 2013 1 1 (Some 20%Q);
     observation "ORD" 2013 1 1 (Some 5%Q);
     observation "JFK" 2013 1 2 None;
     observation "EWR" 2013 2 1 (Some 3%Q);
     observation "LGA" 2013 1 2 (Some 15%Q);
     observation "LGA" 2013 1 3 (Some 15%Q)].

Definition sample_files (path : string) : option DataFrame :=
  if String.eqb path "nycflights13_weather.csv" then Some sample_weather else None.

Definition empty_state : State := mkState [] [].

Lemma nth_error_third {A} (l : list A) (a b c : A) :
  nth_error (l ++ [a; b; c]) (2 + List.length l) = Some c.
Proof. induction l as [|x t IH]; simpl; [reflexivity | exact IH]. Qed.

(** C1. For every raw table that has the columns [origin] and
    [wind_speed], [load_and_clean_data] returns a frame whose rows are
    exactly the rows of the table with a site in {EWR, JFK, LGA} and a
    wind speed that is present, in their order, each with
    [wind_speed_ms] set to the raw wind speed times 0.44704; so every
    returned row has a known site and a speed in metres per second that is
    not missing. *)
Theorem load_and_clean_data_spec (fs : string -> option DataFrame) (path : string)
    (raw : DataFrame) (s : State) :
  fs path = Some raw ->
  has_column raw "origin" = true ->
  has_column raw "wind_speed" = true ->
  exists (df : loc) (s' : State) (f : DataFrame),
    load_and_clean_data fs path s = (Ok df, s') /\
    nth_error (heap s') df = Some f /\
    rows f = map with_speed_ms
               (filter (fun r => known_site r && has_wind_speed r) (rows raw)) /\
    Forall (fun r => exists a w,
              origin r = Some a /\ In a AIRPORTS /\
              wind_speed r = Some w /\
              wind_speed_ms r = Some (w * MPH_TO_MS)%Q) (rows f).
Proof.
  intros Hfs Ho Hw.
  eexists _, _, (cleaned_frame raw).
  split; [apply (load_and_clean_data_run fs path raw s Hfs Ho Hw)|].
  split; [|split].
  - simpl heap. apply nth_error_third.
  - reflexivity.
  - apply cleaned_rows_known.
Qed.

Lemma load_and_clean_data_spec_witness :
  exists (df : loc) (s' : State) (f : DataFrame),
    load_and_clean_data sample_files "nycflights13_weather.csv" empty_state = (Ok df, s') /\
    nth_error (heap s') df = Some f /\
    rows f = map with_speed_ms
               (filter (fun r => known_site r && has_wind_speed r) (rows sample_weather)) /\
    Forall (fun r => exists a w,
              origin r = Some a /\ In a AIRPORTS /\
              wind_speed r = Some w /\
              wind_speed_ms r = Some (w * MPH_TO_MS)%Q) (rows f).
Proof.
  apply (load_and_clean_data_spec sample_files "nycflights13_weather.csv" sample_weather);
    reflexivity.
Defined.

(** ** The two filters in the other order *)

(** [load_and_clean_data] with the rows lacking a wind speed dropped first
    and the sites filtered second; the script has the other order. *)
Definition load_and_clean_data_swapped (fs : string -> option DataFrame)
    (filepath : string) : Py loc :=
  df <- read_csv fs filepath ;;
  df <- dropna wind_speed_col df ;;
  o <- getitem origin_col df ;;
  df <- getitem_mask df (isin o AIRPORTS) ;;
  w <- getitem wind_speed_col df ;;
  setitem wind_speed_ms_col df (mul_scalar w MPH_TO_MS) ;;;
  ret df.

Lemma filter_comm {A} (p q : A -> bool) (l : list A) :
  filter q (filter p l) = filter p (filter q l).
Proof.
  rewrite !filter_filter. apply filter_ext. intros a. apply andb_comm.
Qed.

Lemma load_and_clean_data_swapped_run (fs : string -> option DataFrame)
    (path : string) (raw : DataFrame) (s : State) :
  fs path = Some raw ->
  has_column raw "origin" = true ->
  has_column raw "wind_speed" = true ->
  load_and_clean_data_swapped fs path s =
    (Ok (2 + List.length (heap s))%nat,
     mkState (heap s ++ [raw;
                         mkDataFrame (columns raw) (filter has_wind_speed (rows raw)) (numeric raw);
                         cleaned_frame raw])
             (written s)).
Proof.
  intros Hfs Ho Hw. unfold load_and_clean_data_swapped, read_csv. rewrite Hfs.
  set (f1 := mkDataFrame (columns raw) (filter has_wind_speed (rows raw)) (numeric raw)).
  set (f2 := mkDataFrame (columns raw) (filter known_site (rows f1)) (numeric raw)).
  set (s1 := mkState (heap s ++ [raw]) (written s)).
  set (s2 := mkState (heap s1 ++ [f1]) (written s)).
  set (s3 := mkState (heap s2 ++ [f2]) (written s)).
  assert (H1 : nth_error (heap s1) (List.length (heap s)) = Some raw)
    by apply nth_error_app_last.
  assert (H2 : nth_error (heap s2) (List.length (heap s1)) = Some f1)
    by apply nth_error_app_last.
  assert (H3 : nth_error (heap s3) (List.length (heap s2)) = Some f2)
    by apply nth_error_app_last.
  rewrite (bind_run _ _ s s1 (List.length (heap s)) eq_refl).
  rewrite (bind_run _ _ _ _ _ (dropna_run wind_speed_col _ _ _ H1 Hw)).
  change (mkDataFrame (columns raw)
            (filter (fun r => notna (get wind_speed_col r)) (rows raw)) (numeric raw))
    with f1.
  fold s2.
  rewrite (bind_run _ _ _ _ _ (getitem_run origin_col _ _ _ H2 Ho)).
  rewrite (bind_run _ _ _ _ _ (getitem_mask_run _ _ _ _ H2)).
  unfold isin. rewrite map_map.
  change (fun x => match get origin_col x with
                   | Some s0 => existsb (String.eqb s0) AIRPORTS
                   | None => false
                   end) with known_site.
  rewrite select_map. change (columns f1) with (columns raw). fold f2. fold s3.
  rewrite (bind_run _ _ _ _ _ (getitem_run wind_speed_col _ _ _ H3 Hw)).
  erewrite bind_run.
  2:{ apply (setitem_run wind_speed_ms_col _ _ _ _ H3).
      unfold mul_scalar. rewrite !length_map. reflexivity. }
  unfold ret. f_equal.
  - f_equal. subst s1 s2. simpl. rewrite !length_app. simpl. lia.
  - f_equal. subst s3. simpl heap. rewrite update_app_last.
    subst s2 s1. simpl heap. rewrite <- !app_assoc. simpl. do 4 f_equal.
    unfold cleaned_frame, cleaned_rows, mul_scalar. simpl columns. f_equal.
    rewrite map_map, zip_with_map_l. subst f2 f1. simpl rows.
    rewrite filter_comm, filter_filter. reflexivity.
Qed.

(** C8. For every raw table that has the two columns, filtering the sites
    and then dropping the rows without a wind speed, as the script does,
    gives the same cleaned frame as dropping first and filtering second. *)
Theorem filters_commute (fs : string -> option DataFrame) (path : string)
    (raw : DataFrame) (s : State) :
  fs path = Some raw ->
  has_column raw "origin" = true ->
  has_column raw "wind_speed" = true ->
  exists (df df' : loc) (s1 s2 : State) (f : DataFrame),
    load_and_clean_data fs path s = (Ok df, s1) /\
    load_and_clean_data_swapped fs path s = (Ok df', s2) /\
    nth_error (heap s1) df = Some f /\
    nth_error (heap s2) df' = Some f.
Proof.
  intros Hfs Ho Hw.
  eexists _, _, _, _, (cleaned_frame raw).
  split; [apply (load_and_clean_data_run fs path raw s Hfs Ho Hw)|].
  split; [apply (load_and_clean_data_swapped_run fs path raw s Hfs Ho Hw)|].
  split; apply nth_error_third.
Qed.

Lemma filters_commute_witness :
  exists (df df' : loc) (s1 s2 : State) (f : DataFrame),
    load_and_clean_data sample_files "nycflights13_weather.csv" empty_state = (Ok df, s1) /\
    load_and_clean_data_swapped sample_files "nycflights13_weather.csv" empty_state
      = (Ok df', s2) /\
    nth_error (heap s1) df = Some f /\
    nth_error (heap s2) df' = Some f.
Proof.
  apply (filters_commute sample_files "nycflights13_weather.csv" sample_weather);
    reflexivity.
Defined.

(** ** Orders on grouping keys *)

Class KeyOrder {K : Type} (cmp : K -> K -> comparison) : Prop := {
  cmp_eq : forall a b, cmp a b = Eq <-> a = b;
  cmp_antisym : forall a b, cmp a b = CompOpp (cmp b a);
  cmp_trans : forall a b c, cmp a b = Lt -> cmp b c = Lt -> cmp a c = Lt
}.

#[export] Instance Z_KeyOrder : KeyOrder Z.compare.
Proof.
  split.
  - apply Z.compare_eq_iff.
  - intros a b. apply Z.compare_antisym.
  - intros a b c. rewrite !Z.compare_lt_iff. lia.
Qed.

#[export] Instance string_KeyOrder : KeyOrder String.compare.
Proof.
  split.
  - apply String_as_OT.cmp_eq.
  - apply String_as_OT.cmp_antisym.
  - intros a b c Hab Hbc. apply String_as_OT.cmp_lt.
    apply String_as_OT.lt_trans with b; apply String_as_OT.cmp_lt; assumption.
Qed.

#[export] Instance pair_KeyOrder {A B} (ca : A -> A -> comparison)
    (cb : B -> B -> comparison) `{!KeyOrder ca} `{!KeyOrder cb} :
  KeyOrder (cmp_pair ca cb).
Proof.
  split.
  - intros [a b] [a' b']. unfold cmp_pair. simpl. split.
    + destruct (ca a a') eqn:E; try discriminate.
      intros E'. apply (cmp_eq (cmp:=ca)) in E. apply (cmp_eq (cmp:=cb)) in E'.
      congruence.
    + intros [= -> ->]. rewrite (proj2 (cmp_eq (cmp:=ca) a' a') eq_refl).
      apply (cmp_eq (cmp:=cb)). reflexivity.
  - intros [a b] [a' b']. unfold cmp_pair. simpl.
    rewrite (cmp_antisym (cmp:=ca) a a'), (cmp_antisym (cmp:=cb) b b').
    destruct (ca a' a); reflexivity.
  - intros [a b] [a' b'] [a'' b'']. unfold cmp_pair. simpl.
    destruct (ca a a') eqn:E1; try discriminate;
      destruct (ca a' a'') eqn:E2; try discriminate; intros H1 H2.
    + apply (cmp_eq (cmp:=ca)) in E1, E2. subst.
      rewrite (proj2 (cmp_eq (cmp:=ca) a'' a'') eq_refl).
      eapply (cmp_trans (cmp:=cb)); eassumption.
    + apply (cmp_eq (cmp:=ca)) in E1. subst. rewrite E2. reflexivity.
    + apply (cmp_eq (cmp:=ca)) in E2. subst. rewrite E1. reflexivity.
    + rewrite (cmp_trans (cmp:=ca) _ _ _ E1 E2). reflexivity.
Qed.

Section GroupByFacts.
Context {K : Type} (cmp : K -> K -> comparison) `{!KeyOrder cmp}.

Definition key_lt (a b : K) : Prop := cmp a b = Lt.

Lemma cmp_refl (a : K) : cmp a a = Eq.
Proof. apply cmp_eq. reflexivity. Qed.

Lemma same_key_true (a b : K) : same_key cmp a b = true <-> a = b.
Proof.
  unfold same_key. rewrite <- cmp_eq.
  destruct (cmp a b); split; congruence.
Qed.

Lemma In_insert_key (x k : K) (ks : list K) :
  In x (insert_key cmp k ks) <-> x = k \/ In x ks.
Proof.
  induction ks as [|k' t IH]; simpl.
  - intuition.
  - destruct (cmp k k') eqn:E; simpl.
    + apply cmp_eq in E. subst k'. intuition.
    + intuition.
    + rewrite IH. intuition.
Qed.

Lemma In_group_keys (x : K) (ks : list K) :
  In x (group_keys cmp ks) <-> In x ks.
Proof.
  induction ks as [|k t IH]; simpl; [reflexivity|].
  rewrite In_insert_key, IH. intuition.
Qed.

Lemma insert_key_sorted (k : K) (ks : list K) :
  StronglySorted key_lt ks -> StronglySorted key_lt (insert_key cmp k ks).
Proof.
  induction 1 as [|k' t St IH Hk']; simpl.
  - repeat constructor.
  - destruct (cmp k k') eqn:E.
    + constructor; assumption.
    + constructor; [constructor; assumption|].
      constructor; [exact E|].
      eapply Forall_impl; [|exact Hk'].
      intros c Hc. eapply cmp_trans; eassumption.
    + constructor; [exact IH|].
      apply Forall_forall. intros x Hx. apply In_insert_key in Hx.
      destruct Hx as [->|Hx].
      * unfold key_lt. rewrite cmp_antisym, E. reflexivity.
      * rewrite Forall_forall in Hk'. apply Hk', Hx.
Qed.

Lemma group_keys_sorted (ks : list K) : StronglySorted key_lt (group_keys cmp ks).
Proof.
  induction ks as [|k t IH]; simpl; [constructor|].
  apply insert_key_sorted, IH.
Qed.

Lemma sorted_NoDup (ks : list K) : StronglySorted key_lt ks -> NoDup ks.
Proof.
  induction 1 as [|k t St IH Hk]; constructor; [|exact IH].
  intros Hin. rewrite Forall_forall in Hk. specialize (Hk k Hin).
  unfold key_lt in Hk. rewrite cmp_refl in Hk. discriminate.
Qed.

Lemma group_keys_NoDup (ks : list K) : NoDup (group_keys cmp ks).
Proof. apply sorted_NoDup, group_keys_sorted. Qed.

Lemma groupby_mean_keys (keys : list (option K)) (vals : list (option Q)) :
  map fst (groupby_mean cmp keys vals) = group_keys cmp (present keys).
Proof.
  unfold groupby_mean. rewrite map_map. simpl. apply map_id.
Qed.

(** The values of a group are the values of the rows with that key. *)
Lemma group_values_rows {R : Type} (kf : R -> option K) (vf : R -> option Q)
    (k : K) (rs : list R) :
  group_values cmp k (combine (map kf rs) (map vf rs)) =
  map vf (filter (fun r => match kf r with
                           | Some k' => same_key cmp k k'
                           | None => false
                           end) rs).
Proof.
  unfold group_values. rewrite combine_map, filter_map, map_map. reflexivity.
Qed.

(** The number of groups is the number of distinct keys. *)
Lemma group_keys_count (ks enum : list K) :
  NoDup enum -> (forall k, In k enum <-> In k ks) ->
  List.length (group_keys cmp ks) = List.length enum.
Proof.
  intros Hnd Hin. apply Permutation_length, NoDup_Permutation.
  - apply group_keys_NoDup.
  - exact Hnd.
  - intros k. rewrite In_group_keys, Hin. reflexivity.
Qed.
End GroupByFacts.

Lemma In_present {A} (a : A) (l : list (option A)) :
  In a (present l) <-> In (Some a) l.
Proof.
  induction l as [|[b|] t IH]; simpl.
  - reflexivity.
  - rewrite IH. split; intros [E|E]; auto; left; congruence.
  - rewrite IH. split; [auto|]. intros [E|E]; [discriminate | exact E].
Qed.

Lemma mean_values (vs : list Q) :
  vs <> [] -> mean (map Some vs) = Some (arithmetic_mean vs).
Proof.
  unfold mean. rewrite present_map_Some. destruct vs; congruence.
Qed.

(** ** Cleaned frames and their dates *)

Definition required_columns : list string :=
  ["origin"; "year"; "month"; "day"; "wind_speed_ms"].

Definition cleaned_row (r : Row) : bool :=
  known_site r && notna (wind_speed_ms r).

(** What the aggregators rely on in a cleaned frame: the columns are there,
    the speed is a column of numbers, and every row has a known site and a
    speed in metres per second. *)
Definition cleaned (f : DataFrame) : bool :=
  forallb (has_column f) required_columns && forallb cleaned_row (rows f)
  && numeric f.

Lemma cleaned_numeric (f : DataFrame) : cleaned f = true -> numeric f = true.
Proof. unfold cleaned. intros Hc. apply andb_true_iff in Hc. apply Hc. Qed.

Definition dated_row (r : Row) : bool :=
  (valid_date (year r) (month r) (day r) && (1678 <=? year r) && (year r <=? 2261))%Z.

(** Every row carries a date of the calendar, in the years that every
    version of pandas can hold. *)
Definition dated (f : DataFrame) : bool := forallb dated_row (rows f).

Definition ymd (r : Row) : Z * Z * Z := (year r, month r, day r).

Definition parse_dates `{Library} (f : DataFrame) : option (list Timestamp) :=
  traverse assemble_date (map ymd (rows f)).

Definition with_dates (ts : list Timestamp) (f : DataFrame) : DataFrame :=
  mkDataFrame (add_column "date" (columns f))
              (zip_with (set date_col) (map Some ts) (rows f)) (numeric f).

Definition daily_table (f : DataFrame) : list DailyRecord :=
  map (fun g => (fst (fst g), snd (fst g), snd g))
    (groupby_mean (cmp_pair Z.compare String.compare)
       (zip_with key2 (map date (rows f)) (map origin (rows f)))
       (map wind_speed_ms (rows f))).

Lemma cleaned_columns (f : DataFrame) (c : string) :
  cleaned f = true -> In c required_columns -> has_column f c = true.
Proof.
  unfold cleaned. intros Hc Hin. rewrite !andb_true_iff in Hc.
  destruct Hc as [[Hc _] _]. rewrite forallb_forall in Hc. apply Hc, Hin.
Qed.

Lemma cleaned_rows_In (f : DataFrame) (r : Row) :
  cleaned f = true -> In r (rows f) ->
  exists a v, origin r = Some a /\ In a AIRPORTS /\ wind_speed_ms r = Some v.
Proof.
  unfold cleaned. intros Hc Hin. rewrite !andb_true_iff in Hc.
  destruct Hc as [[_ Hc] _]. rewrite forallb_forall in Hc. specialize (Hc r Hin).
  unfold cleaned_row in Hc. apply andb_true_iff in Hc. destruct Hc as [Hk Hv].
  destruct (known_site_In r Hk) as [a [Ha Hin']].
  destruct (wind_speed_ms r) as [v|]; [|discriminate].
  exists a, v. auto.
Qed.

Lemma getitem_ymd_run (df : loc) (s : State) (f : DataFrame) :
  nth_error (heap s) df = Some f ->
  has_column f "year" = true -> has_column f "month" = true ->
  has_column f "day" = true ->
  getitem_ymd df s = (Ok (map ymd (rows f)), s).
Proof.
  intros Hf Hy Hm Hd. unfold getitem_ymd.
  rewrite (bind_run _ _ _ _ _ (getitem_run year_col _ _ _ Hf Hy)).
  rewrite (bind_run _ _ _ _ _ (getitem_run month_col _ _ _ Hf Hm)).
  rewrite (bind_run _ _ _ _ _ (getitem_run day_col _ _ _ Hf Hd)).
  rewrite zip_with_map, zip_with_map. reflexivity.
Qed.

Lemma to_datetime_run `{Library} (f : DataFrame) (s : State) :
  to_datetime (map ymd (rows f)) s =
  match parse_dates f with
  | Some ts => (Ok ts, s)
  | None => (Raise (ValueError "cannot assemble the datetimes"), s)
  end.
Proof. unfold to_datetime, parse_dates. destruct (traverse _ _); reflexivity. Qed.

Lemma parse_dates_length `{Library} (f : DataFrame) (ts : list Timestamp) :
  parse_dates f = Some ts -> List.length (map Some ts) = List.length (rows f).
Proof.
  intros E. apply traverse_length in E. rewrite !length_map in *. exact E.
Qed.

(** What [calculate_daily_means] does to a frame that has its columns:
    it raises when a date does not parse, and otherwise writes the column
    [date] into the frame it was given and returns the daily table. *)
Lemma calculate_daily_means_run `{Library} (df : loc) (s : State) (f : DataFrame) :
  nth_error (heap s) df = Some f ->
  cleaned f = true ->
  calculate_daily_means df s =
  match parse_dates f with
  | Some ts =>
      (Ok (daily_table (with_dates ts f)),
       mkState (update df (with_dates ts f) (heap s)) (written s))
  | None => (Raise (ValueError "cannot assemble the datetimes"), s)
  end.
Proof.
  intros Hf Hc. unfold calculate_daily_means.
  rewrite (bind_run _ _ _ _ _
             (getitem_ymd_run df s f Hf
                (cleaned_columns f "year" Hc ltac:(simpl; tauto))
                (cleaned_columns f "month" Hc ltac:(simpl; tauto))
                (cleaned_columns f "day" Hc ltac:(simpl; tauto)))).
  unfold bind at 1. rewrite to_datetime_run.
  destruct (parse_dates f) as [ts|] eqn:Ets; [|reflexivity].
  rewrite (bind_run _ _ _ _ _
             (setitem_run date_col df _ s f Hf (parse_dates_length f ts Ets))).
  fold (with_dates ts f).
  set (s' := mkState _ _).
  assert (Hf' : nth_error (heap s') df = Some (with_dates ts f)).
  { apply nth_error_update_eq. eapply nth_error_Some_lt, Hf. }
  rewrite (bind_run _ _ _ _ _
             (getitem_run date_col df s' _ Hf' (has_column_added _ _))).
  rewrite (bind_run _ _ _ _ _
             (getitem_run origin_col df s' _ Hf'
                (has_column_add f "origin" "date"
                   (cleaned_columns f "origin" Hc ltac:(simpl; tauto))))).
  rewrite (bind_run _ _ _ _ _
             (getitem_run wind_speed_ms_col df s' _ Hf'
                (has_column_add f "wind_speed_ms" "date"
                   (cleaned_columns f "wind_speed_ms" Hc ltac:(simpl; tauto))))).
  reflexivity.
Qed.

(** ** Dates that parse *)

Lemma days_in_month_le (y m : Z) : (28 <= days_in_month y m <= 31)%Z.
Proof.
  unfold days_in_month.
  destruct (m =? 2)%Z; [destruct (is_leap_year y); lia|].
  destruct ((m =? 4) || (m =? 6) || (m =? 9) || (m =? 11))%Z; lia.
Qed.

Lemma valid_date_range (y m d : Z) :
  valid_date y m d = true -> (1 <= m <= 12 /\ 1 <= d <= 31)%Z.
Proof.
  unfold valid_date. rewrite !andb_true_iff, !Z.leb_le.
  pose proof (days_in_month_le y m). lia.
Qed.

Lemma assemble_digits (y m d : Z) :
  (1 <= m <= 12)%Z -> (1 <= d <= 31)%Z ->
  let v := assemble (y, m, d) in
  (v / 10000 = y /\ (v / 100) mod 100 = m /\ v mod 100 = d)%Z.
Proof.
  intros Hm Hd. simpl.
  assert (E1 : ((y * 10000 + m * 100 + d) / 100 = y * 100 + m)%Z).
  { symmetry. apply (Z.div_unique _ _ _ d); lia. }
  split; [|split].
  - symmetry. apply (Z.div_unique _ _ _ (m * 100 + d)); lia.
  - rewrite E1. symmetry. apply (Z.mod_unique _ _ y); lia.
  - symmetry. apply (Z.mod_unique _ _ (y * 100 + m)); lia.
Qed.

Lemma assemble_inj (y m d y' m' d' : Z) :
  (1 <= m <= 12)%Z -> (1 <= d <= 31)%Z ->
  (1 <= m' <= 12)%Z -> (1 <= d' <= 31)%Z ->
  assemble (y, m, d) = assemble (y', m', d') ->
  (y, m, d) = (y', m', d').
Proof.
  intros Hm Hd Hm' Hd' E.
  destruct (assemble_digits y m d Hm Hd) as [Ey [Em Ed]].
  destruct (assemble_digits y' m' d' Hm' Hd') as [Ey' [Em' Ed']].
  rewrite E in Ey, Em, Ed. congruence.
Qed.

Lemma assemble_date_dated `{Library} (r : Row) :
  dated_row r = true -> assemble_date (ymd r) = Some (assemble (ymd r)).
Proof.
  unfold dated_row, ymd. rewrite !andb_true_iff, !Z.leb_le.
  intros [[Hv Hlo] Hhi].
  destruct (valid_date_range _ _ _ Hv) as [Hm Hd].
  unfold assemble_date. rewrite Hv.
  rewrite !(proj2 (Z.leb_le _ _)) by lia. reflexivity.
Qed.

Lemma parse_dates_dated `{Library} (f : DataFrame) :
  dated f = true -> parse_dates f = Some (map (fun r => assemble (ymd r)) (rows f)).
Proof.
  unfold dated, parse_dates. intros Hd. rewrite forallb_forall in Hd.
  rewrite <- (map_map ymd assemble). apply traverse_all.
  apply Forall_forall. intros t Ht. apply in_map_iff in Ht.
  destruct Ht as [r [<- Hr]]. apply assemble_date_dated, Hd, Hr.
Qed.

Definition stamp (r : Row) : Row := set date_col (Some (assemble (ymd r))) r.

Lemma with_dates_rows (f : DataFrame) :
  rows (with_dates (map (fun r => assemble (ymd r)) (rows f)) f) = map stamp (rows f).
Proof.
  unfold with_dates. simpl. rewrite map_map, zip_with_map_l. reflexivity.
Qed.

(** ** Daily means *)

Definition same_day (r r' : Row) : bool :=
  ((year r =? year r') && (month r =? month r') && (day r =? day r'))%Z.

Definition same_site (a : string) (r : Row) : bool :=
  match origin r with
  | Some b => String.eqb b a
  | None => false
  end.

Definition day_cmp : Timestamp * string -> Timestamp * string -> comparison :=
  cmp_pair Z.compare String.compare.

Definition day_key (r : Row) : option (Timestamp * string) :=
  key2 (Some (assemble (ymd r))) (origin r).

Definition in_day_group (k : Timestamp * string) (r : Row) : bool :=
  match day_key r with
  | Some k' => same_key day_cmp k k'
  | None => false
  end.

Lemma daily_table_stamped (f : DataFrame) :
  daily_table (with_dates (map (fun r => assemble (ymd r)) (rows f)) f) =
  map (fun k => (fst k, snd k,
                 mean (map wind_speed_ms (filter (in_day_group k) (rows f)))))
      (group_keys day_cmp (present (map day_key (rows f)))).
Proof.
  unfold daily_table. rewrite with_dates_rows, !map_map. simpl.
  rewrite zip_with_map.
  change (fun a => key2 (Some (assemble (ymd a))) (origin a)) with day_key.
  unfold groupby_mean. rewrite map_map. apply map_ext. intros k. simpl.
  rewrite (group_values_rows (cmp_pair Z.compare String.compare) day_key wind_speed_ms).
  reflexivity.
Qed.

Lemma dated_In (f : DataFrame) (r : Row) :
  dated f = true -> In r (rows f) ->
  (1 <= month r <= 12 /\ 1 <= day r <= 31)%Z.
Proof.
  unfold dated. intros Hd Hin. rewrite forallb_forall in Hd.
  specialize (Hd r Hin). unfold dated_row in Hd.
  rewrite !andb_true_iff in Hd. destruct Hd as [[Hv _] _].
  apply valid_date_range with (y := year r). exact Hv.
Qed.

Lemma same_day_ymd (r r' : Row) : same_day r r' = true <-> ymd r = ymd r'.
Proof.
  unfold same_day, ymd. rewrite !andb_true_iff, !Z.eqb_eq.
  split; [intros [[-> ->] ->]; reflexivity | intros [= -> -> ->]; auto].
Qed.

Lemma in_day_group_same (f : DataFrame) (r r' : Row) (a : string) :
  dated f = true -> In r (rows f) -> In r' (rows f) ->
  in_day_group (assemble (ymd r), a) r' = same_day r r' && same_site a r'.
Proof.
  intros Hd Hr Hr'.
  destruct (dated_In f r Hd Hr) as [Hm Hdd].
  destruct (dated_In f r' Hd Hr') as [Hm' Hdd'].
  unfold in_day_group, day_key, same_site, key2.
  destruct (origin r') as [b|]; [|rewrite andb_false_r; reflexivity].
  apply eq_true_iff_eq.
  rewrite (same_key_true day_cmp), andb_true_iff, same_day_ymd, String.eqb_eq.
  split.
  - intros [= E ->]. split; [|reflexivity].
    apply (assemble_inj _ _ _ _ _ _ Hm Hdd Hm' Hdd' E).
  - intros [-> ->]. reflexivity.
Qed.

Lemma all_present {R : Type} (vf : R -> option Q) (l : list R) :
  (forall r, In r l -> exists v, vf r = Some v) ->
  exists vs, map vf l = map Some vs.
Proof.
  induction l as [|r t IH]; intros Hall.
  - exists []. reflexivity.
  - destruct (Hall r (or_introl eq_refl)) as [v Ev].
    destruct IH as [vs Evs]; [intros r' Hr'; apply Hall; right; exact Hr'|].
    exists (v :: vs). simpl. rewrite Ev, Evs. reflexivity.
Qed.

Lemma In_day_keys (f : DataFrame) (k : Timestamp * string) :
  In k (group_keys day_cmp (present (map day_key (rows f)))) <->
  exists r, In r (rows f) /\ fst k = assemble (ymd r) /\ origin r = Some (snd k).
Proof.
  rewrite (In_group_keys day_cmp), In_present, in_map_iff.
  unfold day_key, key2. split.
  - intros [r [E Hr]]. exists r. split; [exact Hr|].
    destruct (origin r) as [a|]; [|discriminate]. injection E as <-. auto.
  - intros [r [Hr [E1 E2]]]. exists r. split; [|exact Hr].
    rewrite E2, <- E1. destruct k; reflexivity.
Qed.

Lemma day_keys_count (f : DataFrame) (pairs : list (Z * Z * Z * string)) :
  dated f = true ->
  NoDup pairs ->
  (forall p, In p pairs <->
             exists r, In r (rows f) /\ ymd r = fst p /\ origin r = Some (snd p)) ->
  List.length (group_keys day_cmp (present (map day_key (rows f)))) = List.length pairs.
Proof.
  intros Hd Hnd Hin.
  rewrite <- (length_map (fun p => (assemble (fst p), snd p)) pairs).
  apply (group_keys_count day_cmp).
  - apply NoDup_map_NoDup_ForallPairs; [|exact Hnd].
    intros p q Hp Hq E. injection E as E1 E2.
    apply Hin in Hp. destruct Hp as [r [Hr [Er _]]].
    apply Hin in Hq. destruct Hq as [r' [Hr' [Er' _]]].
    destruct (dated_In f r Hd Hr) as [Hm Hdd].
    destruct (dated_In f r' Hd Hr') as [Hm' Hdd'].
    rewrite <- Er, <- Er' in E1. unfold ymd in E1.
    apply (assemble_inj _ _ _ _ _ _ Hm Hdd Hm' Hdd') in E1.
    destruct p as [t a], q as [t' a']. simpl in *.
    unfold ymd in Er, Er'. congruence.
  - intros k.
    rewrite <- (In_group_keys day_cmp k (present (map day_key (rows f)))).
    rewrite In_day_keys, in_map_iff. split.
    + intros [p [<- Hp]]. apply Hin in Hp. destruct Hp as [r [Hr [E1 E2]]].
      exists r. cbn [fst snd]. rewrite <- E1. auto.
    + intros [r [Hr [E1 E2]]]. exists (ymd r, snd k). cbn [fst snd]. split.
      * rewrite <- E1. destruct k; reflexivity.
      * apply Hin. exists r. auto.
Qed.

(** C2. For every cleaned frame whose rows carry dates of the calendar,
    [calculate_daily_means] returns a table with one row for each distinct
    (date, site) pair of the input, no pair twice and none that is not in
    the input, and the value of the row of a pair is the arithmetic mean of
    [wind_speed_ms] over exactly the input rows of that date and site. *)
Theorem calculate_daily_means_spec `{Library} (df : loc) (s : State) (f : DataFrame) :
  nth_error (heap s) df = Some f ->
  cleaned f = true ->
  dated f = true ->
  exists (daily : list DailyRecord) (s' : State),
    calculate_daily_means df s = (Ok daily, s') /\
    NoDup (map fst daily) /\
    (forall rec, In rec daily ->
       exists r, In r (rows f) /\
                 fst (fst rec) = assemble (ymd r) /\
                 origin r = Some (snd (fst rec))) /\
    (forall r, In r (rows f) ->
       exists a vs,
         origin r = Some a /\
         map wind_speed_ms
             (filter (fun r' => same_day r r' && same_site a r') (rows f))
           = map Some vs /\
         In (assemble (ymd r), a, Some (arithmetic_mean vs)) daily) /\
    (forall pairs : list (Z * Z * Z * string),
       NoDup pairs ->
       (forall p, In p pairs <->
                  exists r, In r (rows f) /\ ymd r = fst p /\ origin r = Some (snd p)) ->
       List.length daily = List.length pairs).
Proof.
  intros Hf Hc Hd.
  rewrite (calculate_daily_means_run df s f Hf Hc), (parse_dates_dated f Hd).
  rewrite daily_table_stamped.
  set (keys := group_keys day_cmp (present (map day_key (rows f)))).
  eexists _, _. split; [reflexivity|]. split; [|split; [|split]].
  - rewrite map_map. simpl.
    rewrite (map_ext _ (fun k => k)) by (intros [d a]; reflexivity).
    rewrite map_id. apply (group_keys_NoDup day_cmp).
  - intros rec Hrec. apply in_map_iff in Hrec. destruct Hrec as [k [<- Hk]].
    simpl. apply In_day_keys in Hk. exact Hk.
  - intros r Hr.
    destruct (cleaned_rows_In f r Hc Hr) as [a [v [Ea [_ Ev]]]].
    destruct (all_present wind_speed_ms
                (filter (fun r' => same_day r r' && same_site a r') (rows f)))
      as [vs Evs].
    { intros r' Hr'. apply filter_In in Hr'. destruct Hr' as [Hr' _].
      destruct (cleaned_rows_In f r' Hc Hr') as [a' [v' [_ [_ Ev']]]].
      exists v'. exact Ev'. }
    exists a, vs. split; [exact Ea|]. split; [exact Evs|].
    apply in_map_iff. exists (assemble (ymd r), a). split.
    + simpl. f_equal.
      rewrite (filter_ext_in _ (fun r' => same_day r r' && same_site a r')).
      * rewrite Evs. apply mean_values. intros ->.
        assert (Hin : In r (filter (fun r' => same_day r r' && same_site a r') (rows f))).
        { apply filter_In. split; [exact Hr|].
          apply andb_true_iff. split.
          - apply same_day_ymd. reflexivity.
          - unfold same_site. rewrite Ea. apply String.eqb_refl. }
        apply (in_map wind_speed_ms) in Hin. rewrite Evs in Hin. exact Hin.
      * intros r' Hr'. apply (in_day_group_same f r r' a Hd Hr Hr').
    + apply In_day_keys. exists r. simpl. auto.
  - intros pairs Hnd Hin. rewrite length_map.
    apply (day_keys_count f pairs Hd Hnd Hin).
Qed.

Definition sample_cleaned : DataFrame := cleaned_frame sample_weather.

Definition sample_state : State := mkState [sample_cleaned] [].

Lemma calculate_daily_means_spec_witness :
  exists (daily : list DailyRecord) (s' : State),
    @calculate_daily_means strict_library 0%nat sample_state = (Ok daily, s') /\
    NoDup (map fst daily) /\
    (forall rec, In rec daily ->
       exists r, In r (rows sample_cleaned) /\
                 fst (fst rec) = assemble (ymd r) /\
                 origin r = Some (snd (fst rec))) /\
    (forall r, In r (rows sample_cleaned) ->
       exists a vs,
         origin r = Some a /\
         map wind_speed_ms
             (filter (fun r' => same_day r r' && same_site a r') (rows sample_cleaned))
           = map Some vs /\
         In (assemble (ymd r), a, Some (arithmetic_mean vs)) daily) /\
    (forall pairs : list (Z * Z * Z * string),
       NoDup pairs ->
       (forall p, In p pairs <->
                  exists r, In r (rows sample_cleaned) /\
                            ymd r = fst p /\ origin r = Some (snd p)) ->
       List.length daily = List.length pairs).
Proof.
  apply (@calculate_daily_means_spec strict_library 0%nat sample_state sample_cleaned);
    reflexivity.
Defined.

(** ** Dates that do not parse *)


(** A pandas that builds the date field by field, as the versions from 3.1
    do, refuses every triple that is not a date of the calendar. *)
Definition builds_field_by_field `{Library} : Prop :=
  forall y m d, valid_date y m d = false -> assemble_other y m d = None.





(** Outside these ranges the model says nothing of its own: a triple with
    a year that has not four digits, or a month or a day out of range, is
    handed to the installed pandas. *)
Lemma assemble_date_left_open `{Library} (y m d : Z) :
  (y < 1000 \/ 9999 < y \/ m < 1 \/ 12 < m \/ d < 1 \/ 31 < d)%Z ->
  assemble_date (y, m, d) = assemble_other y m d.
Proof.
  intros Hout. unfold assemble_date.
  destruct ((1000 <=? y) && (y <=? 9999) && (1 <=? m) && (m <=? 12)
            && (1 <=? d) && (d <=? 31))%Z eqn:E; [|reflexivity].
  rewrite !andb_true_iff, !Z.leb_le in E. lia.
Qed.

Definition day_101 : DataFrame :=
  cleaned_frame
    (mkFrame weather_columns [observation "LGA" 2013 1 101 (Some 10%Q)]).

(** A library that builds the date field by field and holds every year. *)
Definition field_by_field_library : Library :=
  mkLibrary mergesort_desc mergesort_desc_perm mergesort_desc_sorted
    (fun y m d => if valid_date y m d then Some (assemble (y, m, d)) else None)
    (fun _ => true).

Lemma field_by_field_library_builds : @builds_field_by_field field_by_field_library.
Proof.
  intros y m d Hv. cbn [assemble_other field_by_field_library].
  rewrite Hv. reflexivity.
Qed.

(** A month or a day outside the ranges of the input is another matter:
    what becomes of year 2013, month 1, day 101 is up to the installed
    pandas.  Where the columns are added up and the sum 20130201 is parsed,
    the row is taken for the first of February; where the date is built
    field by field, the call raises. *)
Lemma day_101_depends_on_the_library `{Library} :
  fst (calculate_daily_means 0%nat (mkState [day_101] [])) =
  match assemble_other 2013 1 101 with
  | Some t => Ok [(t, "LGA", Some ((10 * MPH_TO_MS + 0) / 1)%Q)]
  | None => Raise (ValueError "cannot assemble the datetimes")
  end.
Proof.
  assert (Hf : nth_error (heap (mkState [day_101] [])) 0%nat = Some day_101)
    by reflexivity.
  rewrite (calculate_daily_means_run 0%nat _ day_101 Hf eq_refl).
  change (parse_dates day_101) with
    (match assemble_other 2013 1 101 with
     | Some t => Some [t]
     | None => None
     end).
  destruct (assemble_other 2013 1 101) as [t|]; [|reflexivity].
  cbn [fst]. f_equal. unfold daily_table, groupby_mean, group_values, same_key, cmp_pair.
  simpl. rewrite Z.compare_refl. reflexivity.
Qed.

Lemma day_101_raises_field_by_field :
  @calculate_daily_means field_by_field_library 0%nat (mkState [day_101] []) =
  (Raise (ValueError "cannot assemble the datetimes"), mkState [day_101] []).
Proof. reflexivity. Qed.

(** ** Monthly means *)

Definition month_cmp : Z * string -> Z * string -> comparison :=
  cmp_pair Z.compare String.compare.

Definition month_key (r : Row) : option (Z * string) :=
  key2 (Some (month r)) (origin r).

Definition monthly_long (f : DataFrame) : list (Z * string * option Q) :=
  groupby_mean month_cmp (map month_key (rows f)) (map wind_speed_ms (rows f)).

(** The mean of the rows of a month and a site, NaN when there is none. *)
Definition monthly_cell (rs : list Row) (m : Z) (a : string) : option Q :=
  mean (map wind_speed_ms (filter (fun r => (month r =? m)%Z && same_site a r) rs)).

Lemma calculate_monthly_means_run (df : loc) (s : State) (f : DataFrame) :
  nth_error (heap s) df = Some f ->
  cleaned f = true ->
  calculate_monthly_means df s = pivot (monthly_long f) s.
Proof.
  intros Hf Hc. unfold calculate_monthly_means.
  rewrite (bind_run _ _ _ _ _
             (getitem_run month_col df s f Hf
                (cleaned_columns f "month" Hc ltac:(simpl; tauto)))).
  rewrite (bind_run _ _ _ _ _
             (getitem_run origin_col df s f Hf
                (cleaned_columns f "origin" Hc ltac:(simpl; tauto)))).
  rewrite (bind_run _ _ _ _ _
             (getitem_run wind_speed_ms_col df s f Hf
                (cleaned_columns f "wind_speed_ms" Hc ltac:(simpl; tauto)))).
  rewrite map_map, zip_with_map. reflexivity.
Qed.

Lemma same_cell_true (k k' : Z * string) : same_cell k k' = true <-> k = k'.
Proof.
  destruct k as [m a], k' as [m' a']. unfold same_cell. simpl.
  rewrite andb_true_iff, Z.eqb_eq, String.eqb_eq.
  split; [intros [-> ->]; reflexivity | intros [= -> ->]; auto].
Qed.

Lemma has_duplicates_NoDup (ks : list (Z * string)) :
  NoDup ks -> has_duplicates ks = false.
Proof.
  induction 1 as [|k t Hk Hnd IH]; simpl; [reflexivity|].
  rewrite IH, orb_false_r.
  destruct (existsb (same_cell k) t) eqn:E; [|reflexivity].
  apply existsb_exists in E. destruct E as [k' [Hin E]].
  apply same_cell_true in E. subst k'. contradiction.
Qed.

Lemma in_month_group (k : Z * string) (r : Row) :
  match month_key r with
  | Some k' => same_key month_cmp k k'
  | None => false
  end = ((month r =? fst k)%Z && same_site (snd k) r).
Proof.
  destruct k as [m a]. unfold month_key, key2, same_site. simpl.
  destruct (origin r) as [b|]; [|rewrite andb_false_r; reflexivity].
  apply eq_true_iff_eq.
  rewrite (same_key_true month_cmp), andb_true_iff, Z.eqb_eq, String.eqb_eq.
  split; [intros [= -> ->]; auto | intros [-> ->]; reflexivity].
Qed.

Lemma monthly_long_rows (f : DataFrame) :
  monthly_long f =
  map (fun k => (k, monthly_cell (rows f) (fst k) (snd k)))
      (group_keys month_cmp (present (map month_key (rows f)))).
Proof.
  unfold monthly_long, groupby_mean. apply map_ext. intros k.
  rewrite (group_values_rows month_cmp month_key wind_speed_ms).
  unfold monthly_cell. do 3 f_equal. apply filter_ext. intros r.
  apply in_month_group.
Qed.

Lemma In_month_keys (f : DataFrame) (k : Z * string) :
  In k (group_keys month_cmp (present (map month_key (rows f)))) <->
  exists r, In r (rows f) /\ month r = fst k /\ origin r = Some (snd k).
Proof.
  rewrite (In_group_keys month_cmp), In_present, in_map_iff.
  unfold month_key, key2. split.
  - intros [r [E Hr]]. exists r. split; [exact Hr|].
    destruct (origin r) as [a|]; [|discriminate]. injection E as <-. auto.
  - intros [r [Hr [E1 E2]]]. exists r. split; [|exact Hr].
    rewrite E2, E1. destruct k; reflexivity.
Qed.

Lemma monthly_cell_absent (rs : list Row) (m : Z) (a : string) :
  (forall r, In r rs -> ~ (month r = m /\ origin r = Some a)) ->
  monthly_cell rs m a = None.
Proof.
  intros Habs. unfold monthly_cell.
  destruct (filter _ rs) as [|r t] eqn:E; [reflexivity|].
  assert (Hin : In r (filter (fun r => (month r =? m)%Z && same_site a r) rs))
    by (rewrite E; left; reflexivity).
  apply filter_In in Hin. destruct Hin as [Hr Hm].
  apply andb_true_iff in Hm. destruct Hm as [Hm Ha].
  exfalso. apply (Habs r Hr). split; [apply Z.eqb_eq, Hm|].
  unfold same_site in Ha. destruct (origin r) as [b|]; [|discriminate].
  apply String.eqb_eq in Ha. congruence.
Qed.

Lemma lookup_cell_long (f : DataFrame) (m : Z) (a : string) :
  lookup_cell (monthly_long f) m a = monthly_cell (rows f) m a.
Proof.
  unfold lookup_cell.
  destruct (find _ (monthly_long f)) as [r|] eqn:E.
  - apply find_some in E. destruct E as [Hin Hk].
    apply same_cell_true in Hk.
    rewrite monthly_long_rows in Hin. apply in_map_iff in Hin.
    destruct Hin as [k [<- _]]. simpl in *. subst k. reflexivity.
  - symmetry. apply monthly_cell_absent. intros r Hr [Hm Ha].
    assert (Hin : In (m, a, monthly_cell (rows f) m a) (monthly_long f)).
    { rewrite monthly_long_rows. apply in_map_iff. exists (m, a).
      split; [reflexivity|]. apply In_month_keys. exists r. auto. }
    apply (find_none _ _ E) in Hin. simpl in Hin.
    assert (Ht : same_cell (m, a) (m, a) = true) by (apply same_cell_true; reflexivity).
    congruence.
Qed.

Lemma monthly_long_keys (f : DataFrame) :
  map fst (monthly_long f) = group_keys month_cmp (present (map month_key (rows f))).
Proof. apply groupby_mean_keys. Qed.

Lemma pivot_monthly_long (f : DataFrame) (s : State) :
  pivot (monthly_long f) s =
  (Ok (mkMonthly
         (group_keys String.compare (map (fun r => snd (fst r)) (monthly_long f)))
         (map (fun m => (m, map (monthly_cell (rows f) m)
                              (group_keys String.compare
                                 (map (fun r => snd (fst r)) (monthly_long f)))))
              (group_keys Z.compare (map (fun r => fst (fst r)) (monthly_long f))))),
   s).
Proof.
  unfold pivot.
  rewrite has_duplicates_NoDup
    by (rewrite monthly_long_keys; apply (group_keys_NoDup month_cmp)).
  unfold ret. do 3 f_equal. apply map_ext. intros m. f_equal.
  apply map_ext. intros a. apply lookup_cell_long.
Qed.

Lemma In_long_key (f : DataFrame) {A} (g : Z * string -> A) (x : A) :
  In x (map (fun r => g (fst r)) (monthly_long f)) <->
  exists r, In r (rows f) /\ exists a, origin r = Some a /\ g (month r, a) = x.
Proof.
  rewrite <- (map_map fst g), monthly_long_keys, in_map_iff. split.
  - intros [k [<- Hk]]. apply In_month_keys in Hk.
    destruct Hk as [r [Hr [E1 E2]]]. exists r. split; [exact Hr|].
    exists (snd k). split; [exact E2|]. rewrite E1. destruct k; reflexivity.
  - intros [r [Hr [a [Ea <-]]]]. exists (month r, a). split; [reflexivity|].
    apply In_month_keys. exists r. auto.
Qed.

(** C4. For every cleaned frame, [calculate_monthly_means] returns a table
    with one row per distinct month of the input, months ascending, and one
    column per site of the input; the cell of a month and a site is the
    arithmetic mean of [wind_speed_ms] over the input rows of that month
    and site when there is at least one, and is missing (NaN, not zero)
    when there is none. *)
Theorem calculate_monthly_means_spec (df : loc) (s : State) (f : DataFrame) :
  nth_error (heap s) df = Some f ->
  cleaned f = true ->
  exists monthly : MonthlyFrame,
    calculate_monthly_means df s = (Ok monthly, s) /\
    StronglySorted Z.lt (map fst (month_rows monthly)) /\
    (forall m, In m (map fst (month_rows monthly)) <->
               exists r, In r (rows f) /\ month r = m) /\
    NoDup (airport_columns monthly) /\
    (forall a, In a (airport_columns monthly) <->
               exists r, In r (rows f) /\ origin r = Some a) /\
    (forall m cells, In (m, cells) (month_rows monthly) ->
       cells = map (monthly_cell (rows f) m) (airport_columns monthly)) /\
    (forall m a r, In r (rows f) -> month r = m -> origin r = Some a ->
       exists vs,
         map wind_speed_ms
             (filter (fun r' => (month r' =? m)%Z && same_site a r') (rows f))
           = map Some vs /\
         monthly_cell (rows f) m a = Some (arithmetic_mean vs)) /\
    (forall m a, (forall r, In r (rows f) -> ~ (month r = m /\ origin r = Some a)) ->
       monthly_cell (rows f) m a = None /\ monthly_cell (rows f) m a <> Some 0%Q).
Proof.
  intros Hf Hc.
  rewrite (calculate_monthly_means_run df s f Hf Hc), pivot_monthly_long.
  eexists. split; [reflexivity|]. simpl.
  rewrite map_map. simpl. rewrite map_id.
  split; [|split; [|split; [|split; [|split; [|split]]]]].
  - apply (group_keys_sorted Z.compare).
  - intros m. rewrite (In_group_keys Z.compare), (In_long_key f fst). split.
    + intros [r [Hr [a [_ E]]]]. exists r. auto.
    + intros [r [Hr E]].
      destruct (cleaned_rows_In f r Hc Hr) as [a [v [Ea _]]].
      exists r. split; [exact Hr|]. exists a. auto.
  - apply (group_keys_NoDup String.compare).
  - intros a. rewrite (In_group_keys String.compare), (In_long_key f snd). split.
    + intros [r [Hr [b [Eb E]]]]. exists r. simpl in E. subst b. auto.
    + intros [r [Hr E]]. exists r. split; [exact Hr|]. exists a. auto.
  - intros m cells Hin. apply in_map_iff in Hin.
    destruct Hin as [m' [E _]]. injection E as -> <-. reflexivity.
  - intros m a r Hr Em Ea.
    destruct (all_present wind_speed_ms
                (filter (fun r' => (month r' =? m)%Z && same_site a r') (rows f)))
      as [vs Evs].
    { intros r' Hr'. apply filter_In in Hr'. destruct Hr' as [Hr' _].
      destruct (cleaned_rows_In f r' Hc Hr') as [a' [v' [_ [_ Ev']]]].
      exists v'. exact Ev'. }
    exists vs. split; [exact Evs|].
    unfold monthly_cell. rewrite Evs. apply mean_values. intros ->.
    assert (Hin : In r (filter (fun r' => (month r' =? m)%Z && same_site a r') (rows f))).
    { apply filter_In. split; [exact Hr|].
      apply andb_true_iff. split; [apply Z.eqb_eq, Em|].
      unfold same_site. rewrite Ea. apply String.eqb_refl. }
    apply (in_map wind_speed_ms) in Hin. rewrite Evs in Hin. exact Hin.
  - intros m a Habs. rewrite (monthly_cell_absent _ m a Habs).
    split; [reflexivity | discriminate].
Qed.

Lemma calculate_monthly_means_spec_witness :
  exists monthly : MonthlyFrame,
    calculate_monthly_means 0%nat sample_state = (Ok monthly, sample_state) /\
    StronglySorted Z.lt (map fst (month_rows monthly)) /\
    (forall m, In m (map fst (month_rows monthly)) <->
               exists r, In r (rows sample_cleaned) /\ month r = m) /\
    NoDup (airport_columns monthly) /\
    (forall a, In a (airport_columns monthly) <->
               exists r, In r (rows sample_cleaned) /\ origin r = Some a) /\
    (forall m cells, In (m, cells) (month_rows monthly) ->
       cells = map (monthly_cell (rows sample_cleaned) m) (airport_columns monthly)) /\
    (forall m a r, In r (rows sample_cleaned) -> month r = m -> origin r = Some a ->
       exists vs,
         map wind_speed_ms
             (filter (fun r' => (month r' =? m)%Z && same_site a r') (rows sample_cleaned))
           = map Some vs /\
         monthly_cell (rows sample_cleaned) m a = Some (arithmetic_mean vs)) /\
    (forall m a,
       (forall r, In r (rows sample_cleaned) -> ~ (month r = m /\ origin r = Some a)) ->
       monthly_cell (rows sample_cleaned) m a = None /\
       monthly_cell (rows sample_cleaned) m a <> Some 0%Q).
Proof.
  apply (calculate_monthly_means_spec 0%nat sample_state sample_cleaned); reflexivity.
Defined.

(** ** The windiest days *)

Definition selected (airport : string) (f : DataFrame) : DataFrame :=
  mkDataFrame (columns f) (filter (same_site airport) (rows f)) (numeric f).

Definition site_daily (f : DataFrame) : list (Timestamp * option Q) :=
  groupby_mean Z.compare (map date (rows f)) (map wind_speed_ms (rows f)).

Definition top_table `{Library} (airport : string) (top_n : Z) (f : DataFrame)
    : list TopDayRecord :=
  map (fun r => (fst r, snd r, airport)) (nlargest_rows top_n (site_daily f)).

Lemma cleaned_selected (airport : string) (f : DataFrame) :
  cleaned f = true -> cleaned (selected airport f) = true.
Proof.
  unfold cleaned. rewrite !andb_true_iff. intros [[Hc Hr] Hn].
  split; [split; [exact Hc|] | exact Hn].
  simpl. rewrite forallb_forall in *. intros r Hin.
  apply filter_In in Hin. apply Hr, Hin.
Qed.

Lemma update_second {A} (l : list A) (a b c : A) :
  update (S (List.length l)) c (l ++ [a; b]) = l ++ [a; c].
Proof.
  induction l as [|x t IH]; [reflexivity|].
  change (x :: update (S (List.length t)) c (t ++ [a; b]) = x :: (t ++ [a; c])).
  rewrite IH. reflexivity.
Qed.

(** What [find_top_windiest_days] does to a frame that has its columns:
    two new frames are made, the selection and its copy; the dates go into
    the copy. *)
Lemma find_top_windiest_days_run `{Library} (df : loc) (airport : string) (top_n : Z)
    (s : State) (f : DataFrame) :
  nth_error (heap s) df = Some f ->
  cleaned f = true ->
  find_top_windiest_days df airport top_n s =
  match parse_dates (selected airport f) with
  | Some ts =>
      (Ok (top_table airport top_n (with_dates ts (selected airport f))),
       mkState (heap s ++ [selected airport f; with_dates ts (selected airport f)])
               (written s))
  | None =>
      (Raise (ValueError "cannot assemble the datetimes"),
       mkState (heap s ++ [selected airport f; selected airport f]) (written s))
  end.
Proof.
  intros Hf Hc. unfold find_top_windiest_days.
  pose proof (cleaned_selected airport f Hc) as Hc'.
  set (g := selected airport f) in *.
  rewrite (bind_run _ _ _ _ _
             (getitem_run origin_col df s f Hf
                (cleaned_columns f "origin" Hc ltac:(simpl; tauto)))).
  rewrite (bind_run _ _ _ _ _ (getitem_mask_run df _ s f Hf)).
  unfold eq_scalar. rewrite map_map.
  change (fun x => match get origin_col x with
                   | Some s0 => String.eqb s0 airport
                   | None => false
                   end) with (same_site airport).
  rewrite select_map. fold (selected airport f). fold g.
  set (s1 := mkState (heap s ++ [g]) (written s)).
  assert (H1 : nth_error (heap s1) (List.length (heap s)) = Some g)
    by apply nth_error_app_last.
  rewrite (bind_run _ _ _ _ _ (copy_run _ s1 g H1)).
  set (s2 := mkState (heap s1 ++ [g]) (written s1)).
  assert (H2 : nth_error (heap s2) (List.length (heap s1)) = Some g)
    by apply nth_error_app_last.
  rewrite (bind_run _ _ _ _ _
             (getitem_ymd_run _ s2 g H2
                (cleaned_columns g "year" Hc' ltac:(simpl; tauto))
                (cleaned_columns g "month" Hc' ltac:(simpl; tauto))
                (cleaned_columns g "day" Hc' ltac:(simpl; tauto)))).
  unfold bind at 1. rewrite to_datetime_run.
  assert (Eh : heap s2 = heap s ++ [g; g])
    by (simpl; rewrite <- app_assoc; reflexivity).
  assert (El : List.length (heap s1) = S (List.length (heap s)))
    by (simpl; rewrite length_app; simpl; lia).
  destruct (parse_dates g) as [ts|] eqn:Ets.
  2:{ f_equal. unfold s2. f_equal. exact Eh. }
  rewrite (bind_run _ _ _ _ _
             (setitem_run date_col _ _ s2 g H2 (parse_dates_length g ts Ets))).
  fold (with_dates ts g).
  set (s3 := mkState _ _).
  assert (H3 : nth_error (heap s3) (List.length (heap s1)) = Some (with_dates ts g)).
  { apply nth_error_update_eq. eapply nth_error_Some_lt, H2. }
  rewrite (bind_run _ _ _ _ _
             (getitem_run date_col _ s3 _ H3 (has_column_added _ _))).
  rewrite (bind_run _ _ _ _ _
             (getitem_run wind_speed_ms_col _ s3 _ H3
                (has_column_add g "wind_speed_ms" "date"
                   (cleaned_columns g "wind_speed_ms" Hc' ltac:(simpl; tauto))))).
  rewrite (bind_run _ _ _ _ _ (is_numeric_run _ s3 _ H3)).
  change (numeric (with_dates ts g)) with (numeric f).
  rewrite (cleaned_numeric f Hc).
  unfold nlargest, bind, ret. f_equal. unfold s3. f_equal.
  rewrite Eh, El. apply update_second.
Qed.

Definition on_date (d : Timestamp) (r : Row) : bool :=
  same_key Z.compare d (assemble (ymd r)).

(** The mean speed of the rows of one date. *)
Definition date_mean (rs : list Row) (d : Timestamp) : Q :=
  arithmetic_mean (present (map wind_speed_ms (filter (on_date d) rs))).

(** The dates of a frame, ascending, each with its mean. *)
Definition date_means (f : DataFrame) : list (Timestamp * Q) :=
  map (fun d => (d, date_mean (rows f) d))
      (group_keys Z.compare (map (fun r => assemble (ymd r)) (rows f))).

(** The order in which [nlargest_rows] ranks rows that all have a speed. *)
Definition ranking `{Library} (n : Z) (l : list (Timestamp * Q)) : list (Timestamp * Q) :=
  if (Z.of_nat (List.length l) <=? n)%Z then quicksort_desc l else mergesort_desc l.

Definition attach (airport : string) (r : Timestamp * Q) : TopDayRecord :=
  (fst r, Some (snd r), airport).

Lemma site_daily_stamped (f : DataFrame) :
  cleaned f = true ->
  site_daily (with_dates (map (fun r => assemble (ymd r)) (rows f)) f) =
  map with_speed (date_means f).
Proof.
  intros Hc. unfold site_daily, date_means. rewrite with_dates_rows, !map_map.
  change (fun x => date (stamp x)) with (fun x => Some (assemble (ymd x))).
  change (fun x => wind_speed_ms (stamp x)) with wind_speed_ms.
  unfold Timestamp.
  assert (E : map (fun x => Some (assemble (ymd x))) (rows f) =
              map Some (map (fun r => assemble (ymd r)) (rows f)))
    by (rewrite map_map; reflexivity).
  rewrite E. unfold groupby_mean. rewrite present_map_Some, map_map.
  apply map_ext_in. intros d Hd. unfold with_speed. cbn [fst snd].
  apply (f_equal (pair d)).
  rewrite (group_values_rows Z.compare (fun r => Some (assemble (ymd r))) wind_speed_ms).
  fold (on_date d).
  apply (proj1 (In_group_keys Z.compare d _)) in Hd. apply in_map_iff in Hd.
  destruct Hd as [r [Er Hr]].
  destruct (all_present wind_speed_ms (filter (on_date d) (rows f))) as [vs Evs].
  { intros r' Hr'. apply filter_In in Hr'. destruct Hr' as [Hr' _].
    destruct (cleaned_rows_In f r' Hc Hr') as [a' [v' [_ [_ Ev']]]].
    exists v'. exact Ev'. }
  unfold date_mean. rewrite Evs, present_map_Some. apply mean_values.
  intros ->.
  assert (Hin : In r (filter (on_date d) (rows f))).
  { apply filter_In. split; [exact Hr|].
    unfold on_date. apply (same_key_true Z.compare). congruence. }
  apply (in_map wind_speed_ms) in Hin. rewrite Evs in Hin. exact Hin.
Qed.

Lemma dropna_rows_with_speed (l : list (Timestamp * Q)) :
  dropna_rows (map with_speed l) = l.
Proof.
  induction l as [|[d v] t IH]; simpl; [|rewrite IH]; reflexivity.
Qed.

Lemma nan_rows_with_speed (l : list (Timestamp * Q)) :
  nan_rows (map with_speed l) = [].
Proof. induction l as [|[d v] t IH]; simpl; [reflexivity | exact IH]. Qed.

Lemma nlargest_rows_with_speed `{Library} (n : Z) (l : list (Timestamp * Q)) :
  (0 < n)%Z ->
  nlargest_rows n (map with_speed l) = map with_speed (firstn (Z.to_nat n) (ranking n l)).
Proof.
  intros Hn. unfold nlargest_rows, ranking.
  replace (n <=? 0)%Z with false by (symmetry; apply Z.leb_gt; exact Hn).
  rewrite dropna_rows_with_speed, nan_rows_with_speed, app_nil_r, length_map.
  rewrite firstn_map. reflexivity.
Qed.

Lemma ranking_perm `{Library} (n : Z) (l : list (Timestamp * Q)) :
  Permutation (ranking n l) l.
Proof.
  unfold ranking. destruct (_ <=? n)%Z;
    [apply quicksort_desc_perm | apply mergesort_desc_perm].
Qed.

Lemma ranking_sorted `{Library} (n : Z) (l : list (Timestamp * Q)) :
  StronglySorted by_speed_desc (ranking n l).
Proof.
  unfold ranking. destruct (_ <=? n)%Z;
    [apply quicksort_desc_sorted | apply mergesort_desc_sorted].
Qed.

Lemma nlargest_rows_nil `{Library} (n : Z) : nlargest_rows n [] = [].
Proof.
  unfold nlargest_rows. destruct (n <=? 0)%Z; [reflexivity|]. simpl.
  destruct (0 <=? n)%Z.
  - rewrite (Permutation_nil (Permutation_sym (quicksort_desc_perm []))).
    apply firstn_nil.
  - apply firstn_nil.
Qed.

(** The table of a site whose rows carry dates of the calendar. *)
Lemma find_top_windiest_days_dated `{Library} (df : loc) (airport : string) (top_n : Z)
    (s : State) (f : DataFrame) :
  nth_error (heap s) df = Some f ->
  cleaned f = true ->
  dated (selected airport f) = true ->
  (0 < top_n)%Z ->
  fst (find_top_windiest_days df airport top_n s) =
  Ok (map (attach airport)
        (firstn (Z.to_nat top_n) (ranking top_n (date_means (selected airport f))))).
Proof.
  intros Hf Hc Hd Hn.
  rewrite (find_top_windiest_days_run df airport top_n s f Hf Hc).
  rewrite (parse_dates_dated _ Hd). cbn [fst]. f_equal.
  unfold top_table.
  rewrite (site_daily_stamped _ (cleaned_selected airport f Hc)).
  rewrite (nlargest_rows_with_speed _ _ Hn), map_map. reflexivity.
Qed.

Lemma filter_none {A} (p : A -> bool) (l : list A) :
  existsb p l = false -> filter p l = [].
Proof.
  induction l as [|a t IH]; simpl; [reflexivity|].
  destruct (p a); simpl; [discriminate | exact IH].
Qed.

(** C7, as the code has it.  For every cleaned frame, whose speeds are a
    column of numbers, and every site that no row of the frame has,
    [find_top_windiest_days] returns the empty table, and raises nothing,
    whatever the number of days asked for. *)
Theorem find_top_windiest_days_no_rows `{Library} (df : loc) (airport : string)
    (top_n : Z) (s : State) (f : DataFrame) :
  nth_error (heap s) df = Some f ->
  cleaned f = true ->
  existsb (same_site airport) (rows f) = false ->
  exists s' : State, find_top_windiest_days df airport top_n s = (Ok [], s').
Proof.
  intros Hf Hc Hnone.
  rewrite (find_top_windiest_days_run df airport top_n s f Hf Hc).
  unfold parse_dates, selected. cbn [rows]. rewrite (filter_none _ _ Hnone).
  cbn [map traverse]. eexists. f_equal. f_equal.
  unfold top_table, site_daily, with_dates. cbn [rows map zip_with].
  unfold groupby_mean. cbn [present group_keys fold_right map].
  rewrite nlargest_rows_nil. reflexivity.
Qed.

Lemma find_top_windiest_days_no_rows_witness :
  exists s' : State,
    @find_top_windiest_days strict_library 0%nat "BOS" 20 sample_state = (Ok [], s').
Proof.
  apply (@find_top_windiest_days_no_rows strict_library 0%nat "BOS" 20%Z
           sample_state sample_cleaned); reflexivity.
Defined.

(** A weather file with its header and no data row: every column is read
    with dtype [object]. *)
Definition header_only : DataFrame := mkDataFrame weather_columns [] false.

(** C7, as the claim has it, fails on the table cleaned from such a file.
    The cleaning succeeds and returns a table without rows, so no row has
    the site; its speed column has dtype [object], and [nlargest] refuses
    it: the ranker raises [TypeError] instead of returning the empty
    table. *)
Lemma header_only_file_raises :
  load_and_clean_data (fun _ => Some header_only) "weather.csv" empty_state =
    (Ok 2%nat, mkState [header_only; header_only; cleaned_frame header_only] []) /\
  rows (cleaned_frame header_only) = [] /\
  existsb (same_site "LGA") (rows (cleaned_frame header_only)) = false /\
  forall L : Library,
    fst (@find_top_windiest_days L 2%nat "LGA" 20
           (mkState [header_only; header_only; cleaned_frame header_only] [])) =
    Raise (TypeError
      "Column 'Wind_Speed_ms' has dtype object, cannot use method 'nlargest' with this dtype").
Proof. repeat split. Qed.

(** ** Ranking *)

Lemma StronglySorted_firstn {A} (R : A -> A -> Prop) (n : nat) (l : list A) :
  StronglySorted R l -> StronglySorted R (firstn n l).
Proof.
  intros St. revert n. induction St as [|a t St IH Ha]; intros [|n]; simpl;
    try constructor.
  - apply IH.
  - rewrite Forall_forall in *. intros x Hx. apply Ha.
    rewrite <- (firstn_skipn n t). apply in_or_app. left. exact Hx.
Qed.

Lemma StronglySorted_map {A B} (R : B -> B -> Prop) (g : A -> B) (l : list A) :
  StronglySorted (fun a b => R (g a) (g b)) l -> StronglySorted R (map g l).
Proof.
  induction 1 as [|a t St IH Ha]; simpl; constructor; [exact IH|].
  rewrite Forall_forall in *. intros y Hy. apply in_map_iff in Hy.
  destruct Hy as [x [<- Hx]]. apply Ha, Hx.
Qed.

Lemma NoDup_firstn {A} (n : nat) (l : list A) : NoDup l -> NoDup (firstn n l).
Proof.
  intros Hnd. revert n. induction Hnd as [|a t Ha Hnd IH]; intros [|n]; simpl;
    try constructor.
  - intros Hin. apply Ha. rewrite <- (firstn_skipn n t).
    apply in_or_app. left. exact Hin.
  - apply IH.
Qed.

Lemma In_firstn {A} (n : nat) (l : list A) (x : A) : In x (firstn n l) -> In x l.
Proof.
  intros Hin. rewrite <- (firstn_skipn n l). apply in_or_app. left. exact Hin.
Qed.

(** Rows are compared by their speed; a row without a speed is not ranked. *)
Definition not_slower (a b : TopDayRecord) : Prop :=
  match snd (fst a), snd (fst b) with
  | Some x, Some y => (y <= x)%Q
  | _, _ => False
  end.

Lemma date_means_dates (f : DataFrame) :
  map fst (date_means f) = group_keys Z.compare (map (fun r => assemble (ymd r)) (rows f)).
Proof. unfold date_means. rewrite map_map. apply map_id. Qed.

Lemma In_date_means (f : DataFrame) (p : Timestamp * Q) :
  In p (date_means f) <->
  (exists r, In r (rows f) /\ fst p = assemble (ymd r)) /\
  snd p = date_mean (rows f) (fst p).
Proof.
  unfold date_means. rewrite in_map_iff. split.
  - intros [d [<- Hd]]. simpl. split; [|reflexivity].
    apply (proj1 (In_group_keys Z.compare d _)) in Hd. apply in_map_iff in Hd.
    destruct Hd as [r [<- Hr]]. exists r. auto.
  - intros [[r [Hr E]] Ev]. exists (fst p). split.
    + rewrite <- Ev. destruct p; reflexivity.
    + apply (In_group_keys Z.compare). rewrite E. apply in_map_iff.
      exists r. auto.
Qed.

Lemma In_selected (airport : string) (f : DataFrame) (r : Row) :
  In r (rows (selected airport f)) <-> In r (rows f) /\ origin r = Some airport.
Proof.
  unfold selected. cbn [rows]. rewrite filter_In. unfold same_site.
  destruct (origin r) as [b|].
  - rewrite String.eqb_eq. split; intros [Hr E]; split; congruence.
  - split; intros [Hr E]; discriminate.
Qed.

Lemma on_date_same_day (f : DataFrame) (r r' : Row) :
  dated f = true -> In r (rows f) -> In r' (rows f) ->
  on_date (assemble (ymd r)) r' = same_day r r'.
Proof.
  intros Hd Hr Hr'.
  destruct (dated_In f r Hd Hr) as [Hm Hdd].
  destruct (dated_In f r' Hd Hr') as [Hm' Hdd'].
  unfold on_date. apply eq_true_iff_eq.
  rewrite (same_key_true Z.compare), same_day_ymd. split.
  - apply (assemble_inj _ _ _ _ _ _ Hm Hdd Hm' Hdd').
  - intros ->. reflexivity.
Qed.

(** The rows of a date among the rows of a site. *)
Lemma filter_site_date (airport : string) (f : DataFrame) (r : Row) :
  dated (selected airport f) = true ->
  In r (rows (selected airport f)) ->
  filter (on_date (assemble (ymd r))) (rows (selected airport f)) =
  filter (fun r' => same_day r r' && same_site airport r') (rows f).
Proof.
  intros Hd Hr. unfold selected. cbn [rows]. rewrite filter_filter.
  apply filter_ext_in. intros r' Hr'.
  destruct (same_site airport r') eqn:Es.
  - rewrite andb_true_r. simpl. apply (on_date_same_day _ r r' Hd Hr).
    unfold selected. cbn [rows]. apply filter_In. auto.
  - rewrite andb_false_r. reflexivity.
Qed.

Lemma site_dates_count (airport : string) (f : DataFrame) (dates : list (Z * Z * Z)) :
  dated (selected airport f) = true ->
  NoDup dates ->
  (forall d, In d dates <->
             exists r, In r (rows f) /\ origin r = Some airport /\ ymd r = d) ->
  List.length (date_means (selected airport f)) = List.length dates.
Proof.
  intros Hd Hnd Hin. unfold date_means. rewrite length_map.
  rewrite <- (length_map assemble dates).
  apply (group_keys_count Z.compare).
  - apply NoDup_map_NoDup_ForallPairs; [|exact Hnd].
    intros d d' Hd1 Hd2 E.
    apply Hin in Hd1. destruct Hd1 as [r [Hr [Ea <-]]].
    apply Hin in Hd2. destruct Hd2 as [r' [Hr' [Ea' <-]]].
    assert (Hs : In r (rows (selected airport f))) by (apply In_selected; auto).
    assert (Hs' : In r' (rows (selected airport f))) by (apply In_selected; auto).
    destruct (dated_In _ r Hd Hs) as [Hm Hdd].
    destruct (dated_In _ r' Hd Hs') as [Hm' Hdd'].
    apply (assemble_inj _ _ _ _ _ _ Hm Hdd Hm' Hdd' E).
  - intros k. rewrite !in_map_iff. split.
    + intros [d [<- Hdin]]. apply Hin in Hdin. destruct Hdin as [r [Hr [Ea <-]]].
      exists r. split; [reflexivity|]. apply In_selected. auto.
    + intros [r [<- Hr]]. apply In_selected in Hr. destruct Hr as [Hr Ea].
      exists (ymd r). split; [reflexivity|]. apply Hin. exists r. auto.
Qed.

(** C3. For every cleaned frame, site and [top_n > 0], when the rows of the
    site carry dates of the calendar, [find_top_windiest_days] returns as
    many rows as the smaller of [top_n] and the number of distinct dates of
    the site, sorted by descending mean speed, no date twice, each with the
    site attached; the speed of a row is the mean of [wind_speed_ms] over
    the rows of the site at that date. *)
Theorem find_top_windiest_days_spec `{Library} (df : loc) (airport : string)
    (top_n : Z) (s : State) (f : DataFrame) :
  nth_error (heap s) df = Some f ->
  cleaned f = true ->
  dated (selected airport f) = true ->
  (0 < top_n)%Z ->
  exists top : list TopDayRecord,
    fst (find_top_windiest_days df airport top_n s) = Ok top /\
    (forall dates : list (Z * Z * Z),
       NoDup dates ->
       (forall d, In d dates <->
                  exists r, In r (rows f) /\ origin r = Some airport /\ ymd r = d) ->
       List.length top = Nat.min (Z.to_nat top_n) (List.length dates)) /\
    StronglySorted not_slower top /\
    NoDup (map (fun rec => fst (fst rec)) top) /\
    Forall (fun rec => snd rec = airport) top /\
    (forall rec, In rec top ->
       exists r vs,
         In r (rows f) /\ origin r = Some airport /\
         fst (fst rec) = assemble (ymd r) /\
         map wind_speed_ms
             (filter (fun r' => same_day r r' && same_site airport r') (rows f))
           = map Some vs /\
         snd (fst rec) = Some (arithmetic_mean vs)).
Proof.
  intros Hf Hc Hd Hn.
  rewrite (find_top_windiest_days_dated df airport top_n s f Hf Hc Hd Hn).
  set (S := ranking top_n (date_means (selected airport f))).
  assert (HP : Permutation S (date_means (selected airport f)))
    by apply ranking_perm.
  eexists. split; [reflexivity|]. split; [|split; [|split; [|split]]].
  - intros dates Hnd Hin. rewrite length_map, length_firstn.
    rewrite (Permutation_length HP).
    rewrite (site_dates_count airport f dates Hd Hnd Hin). reflexivity.
  - apply StronglySorted_map, StronglySorted_firstn.
    exact (ranking_sorted top_n (date_means (selected airport f))).
  - rewrite map_map. cbn [attach fst].
    rewrite <- firstn_map. apply NoDup_firstn.
    apply (Permutation_NoDup (Permutation_sym (Permutation_map fst HP))).
    rewrite date_means_dates. apply (group_keys_NoDup Z.compare).
  - apply Forall_forall. intros rec Hrec. apply in_map_iff in Hrec.
    destruct Hrec as [p [<- _]]. reflexivity.
  - intros rec Hrec. apply in_map_iff in Hrec. destruct Hrec as [p [<- Hp]].
    apply In_firstn in Hp. apply (Permutation_in _ HP) in Hp.
    apply In_date_means in Hp. destruct Hp as [[r [Hr Ep]] Ev].
    pose proof (proj1 (In_selected airport f r) Hr) as [Hrf Ea].
    destruct (all_present wind_speed_ms
                (filter (fun r' => same_day r r' && same_site airport r') (rows f)))
      as [vs Evs].
    { intros r' Hr'. apply filter_In in Hr'. destruct Hr' as [Hr' _].
      destruct (cleaned_rows_In f r' Hc Hr') as [a' [v' [_ [_ Ev']]]].
      exists v'. exact Ev'. }
    exists r, vs. cbn [attach fst snd].
    repeat split; try assumption.
    rewrite Ev, Ep. unfold date_mean.
    rewrite (filter_site_date airport f r Hd Hr), Evs, present_map_Some.
    reflexivity.
Qed.

Lemma find_top_windiest_days_spec_witness :
  exists top : list TopDayRecord,
    fst (@find_top_windiest_days strict_library 0%nat "LGA" 2 sample_state) = Ok top /\
    (forall dates : list (Z * Z * Z),
       NoDup dates ->
       (forall d, In d dates <->
                  exists r, In r (rows sample_cleaned) /\
                            origin r = Some "LGA" /\ ymd r = d) ->
       List.length top = Nat.min (Z.to_nat 2) (List.length dates)) /\
    StronglySorted not_slower top /\
    NoDup (map (fun rec => fst (fst rec)) top) /\
    Forall (fun rec => snd rec = "LGA") top /\
    (forall rec, In rec top ->
       exists r vs,
         In r (rows sample_cleaned) /\ origin r = Some "LGA" /\
         fst (fst rec) = assemble (ymd r) /\
         map wind_speed_ms
             (filter (fun r' => same_day r r' && same_site "LGA" r') (rows sample_cleaned))
           = map Some vs /\
         snd (fst rec) = Some (arithmetic_mean vs)).
Proof.
  apply (@find_top_windiest_days_spec strict_library 0%nat "LGA" 2%Z
           sample_state sample_cleaned); reflexivity.
Defined.

(** ** Ties *)








Lemma date_means_ascending (f : DataFrame) :
  StronglySorted (fun a b => (fst a < fst b)%Z) (date_means f).
Proof.
  unfold date_means. apply StronglySorted_map.
  apply (group_keys_sorted Z.compare).
Qed.

Definition ymd_eq_dec (a b : Z * Z * Z) : {a = b} + {a <> b}.
Proof. repeat decide equality. Defined.

(** The distinct (year, month, day) triples of the rows of a site. *)
Definition distinct_dates (airport : string) (f : DataFrame) : list (Z * Z * Z) :=
  nodup ymd_eq_dec (map ymd (filter (same_site airport) (rows f))).

(** The mean speed of a site on the day of row [r]. *)
Definition site_day_mean (airport : string) (f : DataFrame) (r : Row) : Q :=
  arithmetic_mean
    (present (map wind_speed_ms
                (filter (fun r' => same_day r r' && same_site airport r') (rows f)))).

Definition date_of (rec : TopDayRecord) : Timestamp := fst (fst rec).

Lemma distinct_dates_count (airport : string) (f : DataFrame) :
  dated (selected airport f) = true ->
  List.length (date_means (selected airport f)) =
  List.length (distinct_dates airport f).
Proof.
  intros Hd. apply (site_dates_count airport f _ Hd).
  - apply NoDup_nodup.
  - intros d. unfold distinct_dates. rewrite nodup_In, in_map_iff. split.
    + intros [r [<- Hr]]. apply (In_selected airport f) in Hr.
      exists r. tauto.
    + intros [r [Hr [Ea <-]]]. exists r. split; [reflexivity|].
      apply (In_selected airport f). auto.
Qed.

Lemma date_mean_site (airport : string) (f : DataFrame) (r : Row) :
  dated (selected airport f) = true ->
  In r (rows f) -> origin r = Some airport ->
  In (assemble (ymd r), site_day_mean airport f r) (date_means (selected airport f)).
Proof.
  intros Hd Hr Ea.
  assert (Hs : In r (rows (selected airport f))) by (apply In_selected; auto).
  apply In_date_means. cbn [fst snd]. split.
  - exists r. auto.
  - unfold date_mean, site_day_mean.
    rewrite (filter_site_date airport f r Hd Hs). reflexivity.
Qed.






(** ** Two runs from different states

    Two states are related when they agree beyond a private prefix of the
    store and of the list of written files: the prefixes stand for whatever
    was left in memory and on disk before each run.  Related references
    point at the same place counted from the end of the prefixes.  Every
    operation of the script takes related states to related states and
    gives related results. *)

Section Simulation.
Variables n1 n2 m1 m2 : nat.

Definition sim_state (s1 s2 : State) : Prop :=
  (n1 <= List.length (heap s1))%nat /\ (n2 <= List.length (heap s2))%nat /\
  skipn n1 (heap s1) = skipn n2 (heap s2) /\
  (m1 <= List.length (written s1))%nat /\ (m2 <= List.length (written s2))%nat /\
  skipn m1 (written s1) = skipn m2 (written s2).

Definition sim_loc (l1 l2 : loc) : Prop :=
  exists k : nat, l1 = (n1 + k)%nat /\ l2 = (n2 + k)%nat.

Definition sim_result {A} (RA : A -> A -> Prop) (r1 r2 : Result A) : Prop :=
  match r1, r2 with
  | Ok a, Ok b => RA a b
  | Raise e, Raise e' => e = e'
  | _, _ => False
  end.

Definition sim {A} (RA : A -> A -> Prop) (c1 c2 : Py A) : Prop :=
  forall s1 s2, sim_state s1 s2 ->
    sim_result RA (fst (c1 s1)) (fst (c2 s2)) /\
    sim_state (snd (c1 s1)) (snd (c2 s2)).

Lemma sim_ret {A} (RA : A -> A -> Prop) (a b : A) :
  RA a b -> sim RA (ret a) (ret b).
Proof. intros Hab s1 s2 Hs. split; [exact Hab | exact Hs]. Qed.

Lemma sim_raise {A} (RA : A -> A -> Prop) (e : Exn) :
  sim RA (raise e) (raise e).
Proof. intros s1 s2 Hs. split; [reflexivity | exact Hs]. Qed.

Lemma sim_bind {A B} (RA : A -> A -> Prop) (RB : B -> B -> Prop)
    (c1 c2 : Py A) (k1 k2 : A -> Py B) :
  sim RA c1 c2 ->
  (forall a b, RA a b -> sim RB (k1 a) (k2 b)) ->
  sim RB (bind c1 k1) (bind c2 k2).
Proof.
  intros Hc Hk s1 s2 Hs. unfold bind.
  destruct (Hc s1 s2 Hs) as [Hr Hs'].
  destruct (c1 s1) as [[a|e] s1'], (c2 s2) as [[b|e'] s2']; simpl in *;
    try contradiction.
  - apply (Hk a b Hr s1' s2' Hs').
  - split; [exact Hr | exact Hs'].
Qed.

Lemma skipn_app_le {A} (n : nat) (l l' : list A) :
  (n <= List.length l)%nat -> skipn n (l ++ l') = skipn n l ++ l'.
Proof.
  intros Hn. rewrite skipn_app.
  replace (n - List.length l)%nat with 0%nat by lia. reflexivity.
Qed.

Lemma skipn_update {A} (n k : nat) (x : A) (l : list A) :
  skipn n (update (n + k) x l) = update k x (skipn n l).
Proof.
  revert l. induction n as [|n IH]; intros l; [reflexivity|].
  destruct l as [|a t]; simpl.
  - destruct k; reflexivity.
  - apply IH.
Qed.

Lemma sim_alloc (f : DataFrame) : sim sim_loc (alloc f) (alloc f).
Proof.
  intros s1 s2 (H1 & H2 & Hh & H3 & H4 & Hw). unfold alloc. simpl. split.
  - exists (List.length (skipn n1 (heap s1))). split.
    + rewrite length_skipn. lia.
    + rewrite Hh, length_skipn. lia.
  - unfold sim_state. simpl. rewrite !length_app, !skipn_app_le, Hh by lia.
    repeat split; try lia; assumption.
Qed.

Lemma sim_deref (l1 l2 : loc) : sim_loc l1 l2 -> sim eq (deref l1) (deref l2).
Proof.
  intros [k [-> ->]] s1 s2 Hs. pose proof Hs as (H1 & H2 & Hh & _).
  unfold deref. rewrite <- !nth_error_skipn, Hh.
  destruct (nth_error (skipn n2 (heap s2)) k); simpl; auto.
Qed.

Lemma sim_store (l1 l2 : loc) (f : DataFrame) :
  sim_loc l1 l2 -> sim eq (store l1 f) (store l2 f).
Proof.
  intros [k [-> ->]] s1 s2 (H1 & H2 & Hh & H3 & H4 & Hw). unfold store. simpl.
  split; [reflexivity|]. unfold sim_state. simpl.
  rewrite !length_update, !skipn_update, Hh. repeat split; assumption.
Qed.

Lemma sim_write_file `{Library} (path : string) (t : Table) :
  sim eq (write_file path t) (write_file path t).
Proof.
  intros s1 s2 Hs. unfold write_file.
  destruct (can_write path); [|split; [reflexivity | exact Hs]].
  destruct Hs as (H1 & H2 & Hh & H3 & H4 & Hw). simpl.
  split; [reflexivity|]. unfold sim_state. simpl.
  rewrite !length_app, !skipn_app_le, Hw by lia.
  repeat split; try lia; assumption.
Qed.

(** One step of a simulation proof: split a sequence, or close a leaf. *)
Ltac sim_step :=
  try subst;
  first
    [ apply sim_ret; try reflexivity; try assumption
    | apply sim_raise
    | apply sim_alloc
    | apply sim_deref; assumption
    | apply sim_store; assumption
    | apply sim_write_file
    | eapply sim_bind; [| intros ? ? ?; subst ]
    | match goal with
      | |- sim _ (if ?b then _ else _) (if ?b then _ else _) => destruct b
      | |- sim _ (match ?o with Some _ => _ | None => _ end)
                 (match ?o with Some _ => _ | None => _ end) => destruct o
      end ].

Lemma sim_getitem {A} (c : Column A) (l1 l2 : loc) :
  sim_loc l1 l2 -> sim eq (getitem c l1) (getitem c l2).
Proof. intros Hl. unfold getitem. repeat sim_step. Qed.

Lemma sim_setitem {A} (c : Column A) (l1 l2 : loc) (vals : list A) :
  sim_loc l1 l2 -> sim eq (setitem c l1 vals) (setitem c l2 vals).
Proof. intros Hl. unfold setitem. repeat sim_step. Qed.

Lemma sim_getitem_mask (l1 l2 : loc) (mask : list bool) :
  sim_loc l1 l2 -> sim sim_loc (getitem_mask l1 mask) (getitem_mask l2 mask).
Proof. intros Hl. unfold getitem_mask. repeat sim_step. Qed.

Lemma sim_copy (l1 l2 : loc) : sim_loc l1 l2 -> sim sim_loc (copy l1) (copy l2).
Proof. intros Hl. unfold copy. repeat sim_step. Qed.

Lemma sim_is_numeric (l1 l2 : loc) :
  sim_loc l1 l2 -> sim eq (is_numeric l1) (is_numeric l2).
Proof. intros Hl. unfold is_numeric. repeat sim_step. Qed.

Lemma sim_nlargest `{Library} (b : bool) (n : Z) (l : list (Timestamp * option Q)) :
  sim eq (nlargest b n l) (nlargest b n l).
Proof. unfold nlargest. repeat sim_step. Qed.

Lemma sim_dropna {A} (c : Column (option A)) (l1 l2 : loc) :
  sim_loc l1 l2 -> sim sim_loc (dropna c l1) (dropna c l2).
Proof. intros Hl. unfold dropna. repeat sim_step. Qed.

Lemma sim_read_csv (fs : string -> option DataFrame) (path : string) :
  sim sim_loc (read_csv fs path) (read_csv fs path).
Proof. unfold read_csv. repeat sim_step. Qed.

Lemma sim_getitem_ymd (l1 l2 : loc) :
  sim_loc l1 l2 -> sim eq (getitem_ymd l1) (getitem_ymd l2).
Proof.
  intros Hl. unfold getitem_ymd.
  repeat first [ apply sim_getitem; assumption | sim_step ].
Qed.

Lemma sim_to_datetime `{Library} (ymd : list (Z * Z * Z)) :
  sim eq (to_datetime ymd) (to_datetime ymd).
Proof. unfold to_datetime. repeat sim_step. Qed.

Lemma sim_pivot (l : list (Z * string * option Q)) : sim eq (pivot l) (pivot l).
Proof. unfold pivot. repeat sim_step. Qed.
Ltac sim_auto :=
  repeat (try subst; first
    [ apply sim_getitem; assumption
    | apply sim_setitem; assumption
    | apply sim_getitem_mask; assumption
    | apply sim_copy; assumption
    | apply sim_is_numeric; assumption
    | apply sim_nlargest
    | apply sim_dropna; assumption
    | apply sim_read_csv
    | apply sim_getitem_ymd; assumption
    | apply sim_to_datetime
    | apply sim_pivot
    | sim_step ]).

Lemma sim_load_and_clean_data (fs : string -> option DataFrame) (path : string) :
  sim sim_loc (load_and_clean_data fs path) (load_and_clean_data fs path).
Proof. unfold load_and_clean_data. sim_auto. Qed.

Lemma sim_calculate_daily_means `{Library} (l1 l2 : loc) :
  sim_loc l1 l2 -> sim eq (calculate_daily_means l1) (calculate_daily_means l2).
Proof. intros Hl. unfold calculate_daily_means. sim_auto. Qed.

Lemma sim_calculate_monthly_means (l1 l2 : loc) :
  sim_loc l1 l2 -> sim eq (calculate_monthly_means l1) (calculate_monthly_means l2).
Proof. intros Hl. unfold calculate_monthly_means. sim_auto. Qed.

Lemma sim_find_top_windiest_days `{Library} (l1 l2 : loc) (airport : string)
    (top_n : Z) :
  sim_loc l1 l2 ->
  sim eq (find_top_windiest_days l1 airport top_n)
         (find_top_windiest_days l2 airport top_n).
Proof. intros Hl. unfold find_top_windiest_days. sim_auto. Qed.

Lemma sim_export_for_tableau `{Library} (daily : list DailyRecord)
    (monthly : MonthlyFrame) (top_days : list TopDayRecord) (output_dir : string) :
  sim eq (export_for_tableau daily monthly top_days output_dir)
         (export_for_tableau daily monthly top_days output_dir).
Proof. unfold export_for_tableau. sim_auto. Qed.

Lemma sim_prepare_data_for_tableau `{Library} (fs : string -> option DataFrame)
    (input_file output_dir : string) :
  sim eq (prepare_data_for_tableau fs input_file output_dir)
         (prepare_data_for_tableau fs input_file output_dir).
Proof.
  unfold prepare_data_for_tableau.
  eapply sim_bind; [apply sim_load_and_clean_data|]. intros df1 df2 Hdf.
  eapply sim_bind; [apply sim_calculate_daily_means, Hdf|]. intros ? daily ->.
  eapply sim_bind; [apply sim_calculate_monthly_means, Hdf|]. intros ? monthly ->.
  eapply sim_bind; [apply sim_find_top_windiest_days, Hdf|]. intros ? top_days ->.
  apply sim_export_for_tableau.
Qed.
End Simulation.

Lemma sim_result_eq {A} (r1 r2 : Result A) : sim_result eq r1 r2 -> r1 = r2.
Proof.
  destruct r1, r2; simpl; intros E; try contradiction; congruence.
Qed.

(** The files a run has written: what was added to the list. *)
Definition new_files (before after : State) : list (string * Table) :=
  skipn (List.length (written before)) (written after).

(** C9. The pipeline is deterministic: from any two states, two runs on the
    same files give the same result (both complete, or both raise the same
    exception) and write the same files with the same tables, rows in the
    same order. *)
Theorem prepare_data_for_tableau_deterministic `{Library}
    (fs : string -> option DataFrame) (input_file output_dir : string)
    (s1 s2 : State) :
  fst (prepare_data_for_tableau fs input_file output_dir s1) =
  fst (prepare_data_for_tableau fs input_file output_dir s2) /\
  new_files s1 (snd (prepare_data_for_tableau fs input_file output_dir s1)) =
  new_files s2 (snd (prepare_data_for_tableau fs input_file output_dir s2)).
Proof.
  destruct (sim_prepare_data_for_tableau
              (List.length (heap s1)) (List.length (heap s2))
              (List.length (written s1)) (List.length (written s2))
              fs input_file output_dir s1 s2) as [Hr Hs].
  - unfold sim_state. rewrite !skipn_all. repeat split; auto.
  - split; [apply sim_result_eq, Hr|].
    destruct Hs as (_ & _ & _ & _ & _ & Hw). exact Hw.
Qed.

(** ** What the aggregators do to the cleaned frame *)

(** [calculate_monthly_means] changes nothing in the state. *)
Lemma calculate_monthly_means_frame (df : loc) (s : State) (f : DataFrame) :
  nth_error (heap s) df = Some f ->
  cleaned f = true ->
  snd (calculate_monthly_means df s) = s.
Proof.
  intros Hf Hc. rewrite (calculate_monthly_means_run df s f Hf Hc).
  unfold pivot. destruct (has_duplicates _); reflexivity.
Qed.

(** [find_top_windiest_days] works on a copy: it adds two frames to the
    store and changes none that was there. *)
Lemma find_top_windiest_days_frame `{Library} (df : loc) (airport : string)
    (top_n : Z) (s : State) (f : DataFrame) :
  nth_error (heap s) df = Some f ->
  cleaned f = true ->
  forall (l : loc) (g : DataFrame),
    nth_error (heap s) l = Some g ->
    nth_error (heap (snd (find_top_windiest_days df airport top_n s))) l = Some g.
Proof.
  intros Hf Hc l g Hg.
  rewrite (find_top_windiest_days_run df airport top_n s f Hf Hc).
  pose proof (nth_error_Some_lt _ _ _ Hg) as Hl.
  destruct (parse_dates (selected airport f)); cbn [snd heap];
    rewrite nth_error_app1 by exact Hl; exact Hg.
Qed.

(** [calculate_daily_means] assigns the column [date] in the frame it was
    given: after the call the caller's frame is another frame. *)
Lemma calculate_daily_means_frame `{Library} (df : loc) (s : State) (f : DataFrame) :
  nth_error (heap s) df = Some f ->
  cleaned f = true ->
  dated f = true ->
  nth_error (heap (snd (calculate_daily_means df s))) df =
  Some (mkDataFrame (add_column "date" (columns f)) (map stamp (rows f)) (numeric f)).
Proof.
  intros Hf Hc Hd.
  rewrite (calculate_daily_means_run df s f Hf Hc), (parse_dates_dated f Hd).
  cbn [snd heap]. rewrite nth_error_update_eq by (eapply nth_error_Some_lt, Hf).
  unfold with_dates. rewrite map_map, zip_with_map_l. reflexivity.
Qed.

Definition one_observation : DataFrame :=
  cleaned_frame (mkFrame weather_columns [observation "LGA" 2013 1 1 (Some 10%Q)]).

(** C5 at a cleaned table of one row.  The monthly aggregator and the
    ranker leave the table as it was; the daily aggregator does not: after
    it the table has a column [date], and its row carries the timestamp. *)
Theorem calculate_daily_means_changes_the_table :
  forall L : Library,
    let s := mkState [one_observation] [] in
    cleaned one_observation = true /\
    nth_error (heap (snd (calculate_monthly_means 0%nat s))) 0%nat = Some one_observation /\
    nth_error (heap (snd (@find_top_windiest_days L 0%nat "LGA" 20 s))) 0%nat
      = Some one_observation /\
    nth_error (heap (snd (@calculate_daily_means L 0%nat s))) 0%nat
      = Some (mkFrame (weather_columns ++ ["wind_speed_ms"; "date"])
                [mkRow (Some "LGA") 2013 1 1 (Some 10%Q) (Some (10 * MPH_TO_MS)%Q)
                       (Some 20130101%Z)]) /\
    columns one_observation = weather_columns ++ ["wind_speed_ms"] /\
    rows one_observation =
      [mkRow (Some "LGA") 2013 1 1 (Some 10%Q) (Some (10 * MPH_TO_MS)%Q) None].
Proof.
  intros L s. repeat split.
Qed.

(** * Further properties of the script *)

(** ** What a call leaves alone

    [keeps_frames n Q m]: run from a store of at least [n] frames, [m]
    changes none of the first [n] frames, and a value it returns
    satisfies [Q].  [keeps_files m]: [m] writes no file. *)

Definition keeps_frames {A} (n : nat) (Q : A -> Prop) (m : Py A) : Prop :=
  forall s, (n <= List.length (heap s))%nat ->
    (n <= List.length (heap (snd (m s))))%nat /\
    firstn n (heap (snd (m s))) = firstn n (heap s) /\
    (forall a, fst (m s) = Ok a -> Q a).

Definition keeps_files {A} (m : Py A) : Prop :=
  forall s, written (snd (m s)) = written s.

Definition anything {A} (a : A) : Prop := True.

Definition at_least (n : nat) (l : loc) : Prop := (n <= l)%nat.

Lemma firstn_app_le {A} (n : nat) (l l' : list A) :
  (n <= List.length l)%nat -> firstn n (l ++ l') = firstn n l.
Proof.
  intros Hn. rewrite firstn_app.
  replace (n - List.length l)%nat with 0%nat by lia. apply app_nil_r.
Qed.

Lemma firstn_update {A} (n l : nat) (x : A) (h : list A) :
  (n <= l)%nat -> firstn n (update l x h) = firstn n h.
Proof.
  revert l h. induction n as [|n IH]; intros l h Hl; [reflexivity|].
  destruct l as [|l]; [lia|]. destruct h as [|a t]; [reflexivity|].
  simpl. rewrite IH by lia. reflexivity.
Qed.

Section Frames.
Variable n : nat.

Lemma keeps_frames_ret {A} (Q : A -> Prop) (a : A) :
  Q a -> keeps_frames n Q (ret a).
Proof.
  intros Ha s Hn. simpl. repeat split; auto. intros b [= <-]. exact Ha.
Qed.

Lemma keeps_frames_raise {A} (Q : A -> Prop) (e : Exn) :
  keeps_frames n Q (raise e).
Proof. intros s Hn. simpl. repeat split; auto. discriminate. Qed.

Lemma keeps_frames_bind {A B} (Q : A -> Prop) (Q' : B -> Prop)
    (m : Py A) (k : A -> Py B) :
  keeps_frames n Q m ->
  (forall a, Q a -> keeps_frames n Q' (k a)) ->
  keeps_frames n Q' (bind m k).
Proof.
  intros Hm Hk s Hn. destruct (Hm s Hn) as (H1 & H2 & H3). unfold bind.
  destruct (m s) as [[a|e] s1]; simpl in *.
  - destruct (Hk a (H3 a eq_refl) s1 H1) as (K1 & K2 & K3).
    repeat split; [exact K1 | congruence | exact K3].
  - repeat split; auto. discriminate.
Qed.

Lemma keeps_frames_alloc (f : DataFrame) : keeps_frames n (at_least n) (alloc f).
Proof.
  intros s Hn. unfold alloc. simpl. rewrite length_app. repeat split.
  - lia.
  - apply firstn_app_le, Hn.
  - intros a [= <-]. exact Hn.
Qed.

Lemma keeps_frames_deref (l : loc) : keeps_frames n anything (deref l).
Proof.
  intros s Hn. unfold deref. destruct (nth_error (heap s) l); simpl;
    repeat split; auto.
Qed.

Lemma keeps_frames_store (l : loc) (f : DataFrame) :
  at_least n l -> keeps_frames n anything (store l f).
Proof.
  intros Hl s Hn. unfold store. simpl. rewrite length_update. repeat split.
  - exact Hn.
  - apply firstn_update, Hl.
Qed.

Lemma keeps_frames_write_file `{Library} (path : string) (t : Table) :
  keeps_frames n anything (write_file path t).
Proof.
  intros s Hn. unfold write_file. destruct (can_write path); simpl;
    repeat split; auto.
Qed.

Ltac frames_step :=
  first
    [ apply keeps_frames_ret; first [exact I | assumption]
    | apply keeps_frames_raise
    | apply keeps_frames_alloc
    | apply keeps_frames_deref
    | apply keeps_frames_store; assumption
    | apply keeps_frames_write_file
    | eapply keeps_frames_bind; [| intros ? ? ]
    | match goal with
      | |- keeps_frames _ _ (if ?b then _ else _) => destruct b
      | |- keeps_frames _ _ (match ?o with Some _ => _ | None => _ end) => destruct o
      end ].

Lemma keeps_frames_getitem {A} (c : Column A) (l : loc) :
  keeps_frames n anything (getitem c l).
Proof. unfold getitem. repeat frames_step. Qed.

Lemma keeps_frames_setitem {A} (c : Column A) (l : loc) (vals : list A) :
  at_least n l -> keeps_frames n anything (setitem c l vals).
Proof. intros Hl. unfold setitem. repeat frames_step. Qed.

Lemma keeps_frames_getitem_mask (l : loc) (mask : list bool) :
  keeps_frames n (at_least n) (getitem_mask l mask).
Proof. unfold getitem_mask. repeat frames_step. Qed.

Lemma keeps_frames_copy (l : loc) : keeps_frames n (at_least n) (copy l).
Proof. unfold copy. repeat frames_step. Qed.

Lemma keeps_frames_is_numeric (l : loc) : keeps_frames n anything (is_numeric l).
Proof. unfold is_numeric. repeat frames_step. Qed.

Lemma keeps_frames_nlargest `{Library} (b : bool) (k : Z)
    (l : list (Timestamp * option Q)) :
  keeps_frames n anything (nlargest b k l).
Proof. unfold nlargest. repeat frames_step. Qed.

Lemma keeps_frames_dropna {A} (c : Column (option A)) (l : loc) :
  keeps_frames n (at_least n) (dropna c l).
Proof. unfold dropna. repeat frames_step. Qed.

Lemma keeps_frames_read_csv (fs : string -> option DataFrame) (path : string) :
  keeps_frames n (at_least n) (read_csv fs path).
Proof. unfold read_csv. repeat frames_step. Qed.

Lemma keeps_frames_getitem_ymd (l : loc) : keeps_frames n anything (getitem_ymd l).
Proof.
  unfold getitem_ymd. repeat first [ apply keeps_frames_getitem | frames_step ].
Qed.

Lemma keeps_frames_to_datetime `{Library} (t : list (Z * Z * Z)) :
  keeps_frames n anything (to_datetime t).
Proof. unfold to_datetime. repeat frames_step. Qed.

Lemma keeps_frames_pivot (l : list (Z * string * option Q)) :
  keeps_frames n anything (pivot l).
Proof. unfold pivot. repeat frames_step. Qed.

Ltac frames_auto :=
  repeat first
    [ apply keeps_frames_getitem
    | apply keeps_frames_setitem; assumption
    | apply keeps_frames_getitem_mask
    | apply keeps_frames_copy
    | apply keeps_frames_is_numeric
    | apply keeps_frames_nlargest
    | apply keeps_frames_dropna
    | apply keeps_frames_read_csv
    | apply keeps_frames_getitem_ymd
    | apply keeps_frames_to_datetime
    | apply keeps_frames_pivot
    | frames_step ].

Lemma keeps_frames_load_and_clean_data (fs : string -> option DataFrame)
    (path : string) :
  keeps_frames n (at_least n) (load_and_clean_data fs path).
Proof. unfold load_and_clean_data. frames_auto. Qed.

Lemma keeps_frames_calculate_daily_means `{Library} (df : loc) :
  at_least n df -> keeps_frames n anything (calculate_daily_means df).
Proof. intros Hdf. unfold calculate_daily_means. frames_auto. Qed.

Lemma keeps_frames_calculate_monthly_means (df : loc) :
  keeps_frames n anything (calculate_monthly_means df).
Proof. unfold calculate_monthly_means. frames_auto. Qed.

Lemma keeps_frames_find_top_windiest_days `{Library} (df : loc) (airport : string)
    (top_n : Z) :
  keeps_frames n anything (find_top_windiest_days df airport top_n).
Proof. unfold find_top_windiest_days. frames_auto. Qed.

Lemma keeps_frames_export_for_tableau `{Library} (daily : list DailyRecord)
    (monthly : MonthlyFrame) (top_days : list TopDayRecord) (output_dir : string) :
  keeps_frames n anything (export_for_tableau daily monthly top_days output_dir).
Proof. unfold export_for_tableau. frames_auto. Qed.

Lemma keeps_frames_prepare_data_for_tableau `{Library}
    (fs : string -> option DataFrame) (input_file output_dir : string) :
  keeps_frames n anything (prepare_data_for_tableau fs input_file output_dir).
Proof.
  unfold prepare_data_for_tableau.
  eapply keeps_frames_bind; [apply keeps_frames_load_and_clean_data|].
  intros df Hdf.
  eapply keeps_frames_bind; [apply keeps_frames_calculate_daily_means, Hdf|].
  intros daily _.
  eapply keeps_frames_bind; [apply keeps_frames_calculate_monthly_means|].
  intros monthly _.
  eapply keeps_frames_bind; [apply keeps_frames_find_top_windiest_days|].
  intros top_days _.
  apply keeps_frames_export_for_tableau.
Qed.
End Frames.

(** [respects R m]: the state after [m] is related by [R] to the state
    before.  For a reflexive and transitive [R] this goes through
    sequences, and every operation that only reads the store has it. *)
Definition respects (R : State -> State -> Prop) {A} (m : Py A) : Prop :=
  forall s, R s (snd (m s)).

Section Respects.
Variable R : State -> State -> Prop.
Hypothesis R_refl : forall s, R s s.
Hypothesis R_trans : forall s1 s2 s3, R s1 s2 -> R s2 s3 -> R s1 s3.

Lemma respects_ret {A} (a : A) : respects R (ret a).
Proof. intros s. apply R_refl. Qed.

Lemma respects_raise {A} (e : Exn) : respects R (@raise A e).
Proof. intros s. apply R_refl. Qed.

Lemma respects_bind {A B} (m : Py A) (k : A -> Py B) :
  respects R m -> (forall a, respects R (k a)) -> respects R (bind m k).
Proof.
  intros Hm Hk s. specialize (Hm s). unfold bind.
  destruct (m s) as [[a|e] s1]; simpl in *; [|exact Hm].
  apply (R_trans _ _ _ Hm (Hk a s1)).
Qed.

Lemma respects_deref (l : loc) : respects R (deref l).
Proof.
  intros s. unfold deref. destruct (nth_error (heap s) l); apply R_refl.
Qed.

Ltac respects_step :=
  first
    [ apply respects_ret
    | apply respects_raise
    | apply respects_deref
    | apply respects_bind; [| intros ? ]
    | match goal with
      | |- respects _ (if ?b then _ else _) => destruct b
      | |- respects _ (match ?o with Some _ => _ | None => _ end) => destruct o
      end ].

Lemma respects_getitem {A} (c : Column A) (l : loc) : respects R (getitem c l).
Proof. unfold getitem. repeat respects_step. Qed.

Lemma respects_getitem_ymd (l : loc) : respects R (getitem_ymd l).
Proof. unfold getitem_ymd. repeat first [apply respects_getitem | respects_step]. Qed.

Lemma respects_to_datetime `{Library} (t : list (Z * Z * Z)) :
  respects R (to_datetime t).
Proof. unfold to_datetime. repeat respects_step. Qed.

Lemma respects_pivot (l : list (Z * string * option Q)) : respects R (pivot l).
Proof. unfold pivot. repeat respects_step. Qed.

Lemma respects_is_numeric (l : loc) : respects R (is_numeric l).
Proof. unfold is_numeric. repeat respects_step. Qed.

Lemma respects_nlargest `{Library} (b : bool) (n : Z)
    (l : list (Timestamp * option Q)) :
  respects R (nlargest b n l).
Proof. unfold nlargest. repeat respects_step. Qed.

Lemma respects_calculate_monthly_means (df : loc) :
  respects R (calculate_monthly_means df).
Proof.
  unfold calculate_monthly_means.
  repeat first [apply respects_getitem | apply respects_pivot | respects_step].
Qed.

(** With a relation that allows new frames and stores at [df]. *)
Hypothesis R_alloc : forall s f, R s (mkState (heap s ++ [f]) (written s)).

Lemma respects_alloc (f : DataFrame) : respects R (alloc f).
Proof. intros s. apply R_alloc. Qed.

Lemma respects_getitem_mask (l : loc) (mask : list bool) :
  respects R (getitem_mask l mask).
Proof. unfold getitem_mask. repeat first [apply respects_alloc | respects_step]. Qed.

Lemma respects_copy (l : loc) : respects R (copy l).
Proof. unfold copy. repeat first [apply respects_alloc | respects_step]. Qed.

Lemma respects_dropna {A} (c : Column (option A)) (l : loc) :
  respects R (dropna c l).
Proof. unfold dropna. repeat first [apply respects_alloc | respects_step]. Qed.

Lemma respects_read_csv (fs : string -> option DataFrame) (path : string) :
  respects R (read_csv fs path).
Proof. unfold read_csv. repeat first [apply respects_alloc | respects_step]. Qed.
End Respects.

(** The files written are the same. *)
Definition same_files (s s' : State) : Prop := written s' = written s.

(** Nothing but the frame at [df] differs. *)
Definition differs_at (df : loc) (s s' : State) : Prop :=
  List.length (heap s') = List.length (heap s) /\
  (forall l, l <> df -> nth_error (heap s') l = nth_error (heap s) l) /\
  written s' = written s.

Lemma same_files_trans (s1 s2 s3 : State) :
  same_files s1 s2 -> same_files s2 s3 -> same_files s1 s3.
Proof. unfold same_files. congruence. Qed.

Lemma differs_at_refl (df : loc) (s : State) : differs_at df s s.
Proof. repeat split. Qed.

Lemma differs_at_trans (df : loc) (s1 s2 s3 : State) :
  differs_at df s1 s2 -> differs_at df s2 s3 -> differs_at df s1 s3.
Proof.
  intros (A1 & A2 & A3) (B1 & B2 & B3). repeat split; try congruence.
  intros l Hl. rewrite (B2 l Hl). apply A2, Hl.
Qed.

Lemma nth_error_update_other {A} (n m : nat) (x : A) (l : list A) :
  n <> m -> nth_error (update n x l) m = nth_error l m.
Proof.
  revert n m. induction l as [|a t IH]; intros [|n] [|m] Hnm; simpl;
    try reflexivity; try congruence.
  apply IH. congruence.
Qed.

Lemma respects_store_files (l : loc) (f : DataFrame) :
  respects same_files (store l f).
Proof. intros s. reflexivity. Qed.

Lemma respects_store_at (df : loc) (f : DataFrame) :
  respects (differs_at df) (store df f).
Proof.
  intros s. unfold store. simpl. repeat split.
  - apply length_update.
  - intros l Hl. apply nth_error_update_other. congruence.
Qed.

Lemma respects_setitem_files {A} (c : Column A) (l : loc) (vals : list A) :
  respects same_files (setitem c l vals).
Proof.
  unfold setitem. apply (respects_bind same_files same_files_trans).
  - apply (respects_deref same_files (fun s => eq_refl)).
  - intros f. destruct (Nat.eqb _ _).
    + apply respects_store_files.
    + apply (respects_raise same_files (fun s => eq_refl)).
Qed.

Lemma respects_setitem_at {A} (c : Column A) (df : loc) (vals : list A) :
  respects (differs_at df) (setitem c df vals).
Proof.
  unfold setitem. apply (respects_bind _ (differs_at_trans df)).
  - apply (respects_deref _ (differs_at_refl df)).
  - intros f. destruct (Nat.eqb _ _).
    + apply respects_store_at.
    + apply (respects_raise _ (differs_at_refl df)).
Qed.

Ltac files_auto :=
  repeat first
    [ apply (respects_getitem same_files (fun s => eq_refl) same_files_trans)
    | apply (respects_getitem_ymd same_files (fun s => eq_refl) same_files_trans)
    | apply (respects_to_datetime same_files (fun s => eq_refl))
    | apply (respects_is_numeric same_files (fun s => eq_refl) same_files_trans)
    | apply (respects_nlargest same_files (fun s => eq_refl))
    | apply (respects_getitem_mask same_files (fun s => eq_refl) same_files_trans
               (fun s f => eq_refl))
    | apply (respects_copy same_files (fun s => eq_refl) same_files_trans
               (fun s f => eq_refl))
    | apply (respects_dropna same_files (fun s => eq_refl) same_files_trans
               (fun s f => eq_refl))
    | apply (respects_read_csv same_files (fun s => eq_refl) (fun s f => eq_refl))
    | apply respects_setitem_files
    | apply (respects_ret same_files (fun s => eq_refl))
    | apply (respects_bind same_files same_files_trans); [| intros ? ] ].

Lemma load_and_clean_data_files (fs : string -> option DataFrame) (path : string) :
  respects same_files (load_and_clean_data fs path).
Proof. unfold load_and_clean_data. files_auto. Qed.

Lemma find_top_windiest_days_files `{Library} (df : loc) (airport : string)
    (top_n : Z) :
  respects same_files (find_top_windiest_days df airport top_n).
Proof. unfold find_top_windiest_days. files_auto. Qed.

Lemma calculate_daily_means_differs_at `{Library} (df : loc) :
  respects (differs_at df) (calculate_daily_means df).
Proof.
  unfold calculate_daily_means.
  repeat first
    [ apply (respects_getitem _ (differs_at_refl df) (differs_at_trans df))
    | apply (respects_getitem_ymd _ (differs_at_refl df) (differs_at_trans df))
    | apply (respects_to_datetime _ (differs_at_refl df))
    | apply respects_setitem_at
    | apply (respects_ret _ (differs_at_refl df))
    | apply (respects_bind _ (differs_at_trans df)); [| intros ? ] ].
Qed.

Lemma keeps_frames_prefix {A} (Q : A -> Prop) (m : Py A) (s : State) :
  keeps_frames (List.length (heap s)) Q m ->
  firstn (List.length (heap s)) (heap (snd (m s))) = heap s.
Proof.
  intros Hm. destruct (Hm s (Nat.le_refl _)) as (_ & E & _).
  rewrite E. apply firstn_all.
Qed.

Lemma calculate_monthly_means_state_eq (df : loc) (s : State) :
  snd (calculate_monthly_means df s) = s.
Proof.
  symmetry.
  apply (respects_calculate_monthly_means eq (@eq_refl State) (@eq_trans State) df s).
Qed.

(** X1. [calculate_monthly_means] only reads: whatever the reference and
    the frame, also when a column is missing, the state after the call is
    the state before. *)
Theorem calculate_monthly_means_reads_only (df : loc) (s : State) :
  snd (calculate_monthly_means df s) = s.
Proof.
  symmetry.
  apply (respects_calculate_monthly_means eq (@eq_refl State) (@eq_trans State) df s).
Qed.

(** X2. [calculate_daily_means] changes at most the frame it is given: it
    makes no new frame, every other frame of the store is as before, and no
    file is written; this holds for every input, with or without error. *)
Theorem calculate_daily_means_touches_one_frame `{Library} (df : loc) (s : State) :
  List.length (heap (snd (calculate_daily_means df s))) = List.length (heap s) /\
  (forall l, l <> df ->
     nth_error (heap (snd (calculate_daily_means df s))) l = nth_error (heap s) l) /\
  written (snd (calculate_daily_means df s)) = written s.
Proof. exact (calculate_daily_means_differs_at df s). Qed.

(** X3. [find_top_windiest_days] works on frames of its own: for every
    input and argument, with or without error, the store before the call is
    a prefix of the store after it, and no file is written. *)
Theorem find_top_windiest_days_keeps_store `{Library} (df : loc) (airport : string)
    (top_n : Z) (s : State) :
  firstn (List.length (heap s))
         (heap (snd (find_top_windiest_days df airport top_n s))) = heap s /\
  written (snd (find_top_windiest_days df airport top_n s)) = written s.
Proof.
  split.
  - apply (keeps_frames_prefix anything).
    apply keeps_frames_find_top_windiest_days.
  - apply (find_top_windiest_days_files df airport top_n s).
Qed.

(** X4. The pipeline changes no frame that was in the store before it
    started: for every input, with or without error, the old store is a
    prefix of the new one.  The column [date] that the daily aggregator
    assigns lands in the frame the pipeline has made itself. *)
Theorem prepare_data_for_tableau_keeps_store `{Library}
    (fs : string -> option DataFrame) (input_file output_dir : string) (s : State) :
  firstn (List.length (heap s))
         (heap (snd (prepare_data_for_tableau fs input_file output_dir s))) = heap s.
Proof.
  apply (keeps_frames_prefix anything).
  apply keeps_frames_prepare_data_for_tableau.
Qed.

Lemma skipn_length_app {A} (l l' : list A) : skipn (List.length l) (l ++ l') = l'.
Proof.
  rewrite skipn_app, skipn_all, Nat.sub_diag. reflexivity.
Qed.

(** The paths of the three files, in the order in which they are
    written. *)
Definition output_paths (output_dir : string) : list string :=
  [(output_dir ++ "/daily_wind_speeds.csv")%string;
   (output_dir ++ "/monthly_wind_speeds.csv")%string;
   (output_dir ++ "/top_windiest_days.csv")%string].

Definition output_files (output_dir : string) (daily : list DailyRecord)
    (monthly : MonthlyFrame) (top_days : list TopDayRecord) : list (string * Table) :=
  [((output_dir ++ "/daily_wind_speeds.csv")%string, DailyTable daily);
   ((output_dir ++ "/monthly_wind_speeds.csv")%string, MonthlyTable monthly);
   ((output_dir ++ "/top_windiest_days.csv")%string, TopDaysTable top_days)].

Lemma output_paths_writable `{Library} (output_dir : string) :
  forallb can_write (output_paths output_dir) = true ->
  can_write (output_dir ++ "/daily_wind_speeds.csv") = true /\
  can_write (output_dir ++ "/monthly_wind_speeds.csv") = true /\
  can_write (output_dir ++ "/top_windiest_days.csv") = true.
Proof.
  unfold output_paths. cbn [forallb]. rewrite !andb_true_iff. tauto.
Qed.

(** When the three paths can be written, the export writes the three
    files. *)
Lemma export_for_tableau_run `{Library} (daily : list DailyRecord)
    (monthly : MonthlyFrame) (top_days : list TopDayRecord) (output_dir : string)
    (s : State) :
  forallb can_write (output_paths output_dir) = true ->
  export_for_tableau daily monthly top_days output_dir s =
  (Ok tt,
   mkState (heap s) (written s ++ output_files output_dir daily monthly top_days)).
Proof.
  intros Hw. destruct (output_paths_writable output_dir Hw) as (E1 & E2 & E3).
  unfold export_for_tableau, bind, write_file. rewrite E1, E2, E3. simpl.
  rewrite <- !app_assoc. reflexivity.
Qed.

(** In general the export writes the files that come before the first path
    that cannot be written, and raises there. *)
Lemma export_for_tableau_stops `{Library} (daily : list DailyRecord)
    (monthly : MonthlyFrame) (top_days : list TopDayRecord) (output_dir : string)
    (s : State) :
  exists k : nat,
    snd (export_for_tableau daily monthly top_days output_dir s) =
      mkState (heap s)
        (written s ++ firstn k (output_files output_dir daily monthly top_days)) /\
    (fst (export_for_tableau daily monthly top_days output_dir s) = Ok tt <->
     k = 3%nat) /\
    (k = 1%nat \/ k = 2%nat ->
     exists path, nth_error (output_paths output_dir) k = Some path /\
                  can_write path = false) /\
    (forallb can_write (output_paths output_dir) = true -> k = 3%nat).
Proof.
  unfold export_for_tableau, bind, write_file, output_paths, output_files.
  cbn [forallb].
  destruct (can_write (output_dir ++ "/daily_wind_speeds.csv")) eqn:E1;
    cbn [fst snd].
  2:{ exists 0%nat. cbn [firstn heap written]. rewrite app_nil_r.
      destruct s. repeat split; try discriminate.
      intros [E|E]; discriminate. }
  destruct (can_write (output_dir ++ "/monthly_wind_speeds.csv")) eqn:E2;
    cbn [fst snd].
  2:{ exists 1%nat. cbn [firstn heap written nth_error].
      repeat split; try discriminate.
      intros _. eexists. split; [reflexivity | exact E2]. }
  destruct (can_write (output_dir ++ "/top_windiest_days.csv")) eqn:E3;
    cbn [fst snd].
  2:{ exists 2%nat. cbn [firstn heap written nth_error]. rewrite <- !app_assoc.
      repeat split; try discriminate.
      intros _. eexists. split; [reflexivity | exact E3]. }
  exists 3%nat. cbn [firstn heap written]. rewrite <- !app_assoc.
  repeat split. intros [E|E]; discriminate.
Qed.

(** X5. The three files are written at the end of the run, in a fixed
    order.  For every input, the files a run has written are the first [k]
    of the daily, the monthly and the top-days file under [output_dir]:
    all three exactly when the run completes, and fewer when it raises.  A
    run that raises has written one or two of them only when the path of
    the next one cannot be written; when the three paths can be written, a
    run that raises has written no file. *)
Theorem prepare_data_for_tableau_files_written `{Library}
    (fs : string -> option DataFrame) (input_file output_dir : string) (s : State) :
  exists (daily : list DailyRecord) (monthly : MonthlyFrame)
         (top_days : list TopDayRecord) (k : nat),
    new_files s (snd (prepare_data_for_tableau fs input_file output_dir s)) =
      firstn k (output_files output_dir daily monthly top_days) /\
    (fst (prepare_data_for_tableau fs input_file output_dir s) = Ok tt <-> k = 3%nat) /\
    (k = 1%nat \/ k = 2%nat ->
     exists path, nth_error (output_paths output_dir) k = Some path /\
                  can_write path = false) /\
    (forallb can_write (output_paths output_dir) = true -> k = 0%nat \/ k = 3%nat).
Proof.
  assert (Hnone : forall (r : Result unit) s',
            written s' = written s -> (forall u, r <> Ok u) ->
            exists (daily : list DailyRecord) (monthly : MonthlyFrame)
                   (top_days : list TopDayRecord) (k : nat),
              new_files s s' = firstn k (output_files output_dir daily monthly top_days) /\
              (r = Ok tt <-> k = 3%nat) /\
              (k = 1%nat \/ k = 2%nat ->
               exists path, nth_error (output_paths output_dir) k = Some path /\
                            can_write path = false) /\
              (forallb can_write (output_paths output_dir) = true ->
               k = 0%nat \/ k = 3%nat)).
  { intros r s' E Hr. exists [], (mkMonthly [] []), [], 0%nat.
    split; [|split; [|split]].
    - unfold new_files. rewrite E. apply skipn_all.
    - split; [intros Er; destruct (Hr tt Er) | discriminate].
    - intros [E'|E']; discriminate.
    - intros _. left. reflexivity. }
  unfold prepare_data_for_tableau, bind.
  pose proof (load_and_clean_data_files fs input_file s) as H1.
  destruct (load_and_clean_data fs input_file s) as [[df|e] s1];
    unfold same_files in H1; cbn [fst snd] in *;
    [|apply Hnone; [exact H1 | discriminate]].
  pose proof (calculate_daily_means_differs_at df s1) as (_ & _ & H2).
  destruct (calculate_daily_means df s1) as [[daily|e] s2];
    cbn [fst snd] in *; [|apply Hnone; [congruence | discriminate]].
  pose proof (calculate_monthly_means_state_eq df s2) as H3.
  destruct (calculate_monthly_means df s2) as [[monthly|e] s3];
    cbn [fst snd] in *; subst s3; [|apply Hnone; [congruence | discriminate]].
  pose proof (find_top_windiest_days_files df "LGA" 20%Z s2) as H4.
  destruct (find_top_windiest_days df "LGA" 20 s2) as [[top_days|e] s4];
    unfold same_files in H4; cbn [fst snd] in *;
    [|apply Hnone; [congruence | discriminate]].
  destruct (export_for_tableau_stops daily monthly top_days output_dir s4)
    as [k (Es & Ek & Hk & Hw)].
  exists daily, monthly, top_days, k. split; [|split; [|split]].
  - rewrite Es. unfold new_files. cbn [written].
    replace (written s4) with (written s) by congruence.
    apply skipn_length_app.
  - exact Ek.
  - exact Hk.
  - intros W. right. apply Hw, W.
Qed.

(** A disk on which the monthly file cannot be written. *)
Definition unwritable_monthly : Library :=
  mkLibrary mergesort_desc mergesort_desc_perm mergesort_desc_sorted
    (fun _ _ _ => None)
    (fun path => negb (String.eqb path "out/monthly_wind_speeds.csv")).

(** On that disk the run raises after it has written the daily file. *)
Lemma prepare_data_for_tableau_leaves_the_daily_file :
  fst (@prepare_data_for_tableau unwritable_monthly sample_files
         "nycflights13_weather.csv" "out" empty_state) =
    Raise (OSError "out/monthly_wind_speeds.csv") /\
  map fst (new_files empty_state
             (snd (@prepare_data_for_tableau unwritable_monthly sample_files
                     "nycflights13_weather.csv" "out" empty_state))) =
    ["out/daily_wind_speeds.csv"].
Proof. split; reflexivity. Qed.

Lemma prepare_data_for_tableau_files_written_example :
  new_files empty_state
    (snd (@prepare_data_for_tableau strict_library sample_files
            "nycflights13_weather.csv" "out" empty_state)) =
  output_files "out"
    [(20130101%Z, "LGA", Some ((10 * MPH_TO_MS + (20 * MPH_TO_MS + 0)) / 2)%Q);
     (20130102%Z, "LGA", Some ((15 * MPH_TO_MS + 0) / 1)%Q);
     (20130103%Z, "LGA", Some ((15 * MPH_TO_MS + 0) / 1)%Q);
     (20130201%Z, "EWR", Some ((3 * MPH_TO_MS + 0) / 1)%Q)]
    (mkMonthly ["EWR"; "LGA"]
       [(1%Z, [None;
               Some ((10 * MPH_TO_MS + (20 * MPH_TO_MS + (15 * MPH_TO_MS
                       + (15 * MPH_TO_MS + 0)))) / 4)%Q]);
        (2%Z, [Some ((3 * MPH_TO_MS + 0) / 1)%Q; None])])
    [(20130101%Z, Some ((10 * MPH_TO_MS + (20 * MPH_TO_MS + 0)) / 2)%Q, "LGA");
     (20130102%Z, Some ((15 * MPH_TO_MS + 0) / 1)%Q, "LGA");
     (20130103%Z, Some ((15 * MPH_TO_MS + 0) / 1)%Q, "LGA")].
Proof. reflexivity. Qed.

(** ** The column [date] and the other aggregators *)

(** A row without its date. *)
Definition undated (r : Row) : Row := set date_col None r.

Lemma undated_zip_with (vals : list (option Timestamp)) (l : list Row) :
  List.length vals = List.length l ->
  map undated (zip_with (set date_col) vals l) = map undated l.
Proof.
  revert vals. induction l as [|r t IH]; intros [|v vals] E; simpl in *;
    try reflexivity; try discriminate.
  rewrite IH by congruence. reflexivity.
Qed.

Lemma map_undated {A} (g : Row -> A) (l l' : list Row) :
  (forall r, g r = g (undated r)) ->
  map undated l = map undated l' -> map g l = map g l'.
Proof.
  intros Hg E.
  rewrite (map_ext g (fun r => g (undated r)) Hg l).
  rewrite (map_ext g (fun r => g (undated r)) Hg l').
  rewrite <- !(map_map undated g), E. reflexivity.
Qed.

Lemma cons_inv {A} (a b : A) (l l' : list A) :
  a :: l = b :: l' -> a = b /\ l = l'.
Proof. intros E. injection E as -> ->. auto. Qed.

Lemma filter_undated (p : Row -> bool) (l l' : list Row) :
  (forall r, p r = p (undated r)) ->
  map undated l = map undated l' ->
  map undated (filter p l) = map undated (filter p l').
Proof.
  intros Hp. revert l'. induction l as [|r t IH]; intros [|r' t'] E;
    cbn [map filter] in *; try reflexivity; try discriminate.
  apply cons_inv in E. destruct E as [E1 E2]. rewrite (Hp r), (Hp r'), E1.
  destruct (p (undated r')); cbn [map]; [rewrite E1|]; rewrite (IH t' E2);
    reflexivity.
Qed.

Lemma zip_with_undated (vals : list (option Timestamp)) (l l' : list Row) :
  map undated l = map undated l' ->
  zip_with (set date_col) vals l = zip_with (set date_col) vals l'.
Proof.
  revert vals l'. induction l as [|r t IH]; intros vals [|r' t'] E;
    cbn [map] in *; try discriminate.
  - destruct vals; reflexivity.
  - destruct vals as [|v vals]; [reflexivity|].
    apply cons_inv in E. destruct E as [E1 E2]. cbn [zip_with].
    rewrite (IH vals t' E2). f_equal.
    change (set date_col v (undated r) = set date_col v (undated r')).
    rewrite E1. reflexivity.
Qed.

Lemma forallb_undated (p : Row -> bool) (l l' : list Row) :
  (forall r, p r = p (undated r)) ->
  map undated l = map undated l' -> forallb p l = forallb p l'.
Proof.
  intros Hp E.
  assert (E' : map p l = map p l') by (apply map_undated; assumption).
  clear E. revert l' E'. induction l as [|r t IH]; intros [|r' t'] E'; simpl in *;
    try reflexivity; try discriminate.
  injection E' as -> E2. rewrite (IH t' E2). reflexivity.
Qed.

(** Two frames with the needed columns whose rows agree but for the date. *)
Definition same_but_date (f f' : DataFrame) : Prop :=
  map undated (rows f) = map undated (rows f').

Lemma same_but_date_with_dates `{Library} (f : DataFrame) (ts : list Timestamp) :
  parse_dates f = Some ts -> same_but_date (with_dates ts f) f.
Proof.
  intros E. unfold same_but_date, with_dates. cbn [rows].
  apply undated_zip_with, (parse_dates_length f ts E).
Qed.

Lemma cleaned_with_dates `{Library} (f : DataFrame) (ts : list Timestamp) :
  cleaned f = true -> parse_dates f = Some ts -> cleaned (with_dates ts f) = true.
Proof.
  unfold cleaned. rewrite !andb_true_iff. intros [[Hc Hr] Hn] E.
  split; [split | exact Hn].
  - rewrite forallb_forall in *. intros c Hin.
    apply (has_column_add f c "date"), Hc, Hin.
  - rewrite <- Hr. apply forallb_undated; [reflexivity|].
    apply (same_but_date_with_dates f ts E).
Qed.

Lemma parse_dates_same `{Library} (f f' : DataFrame) :
  same_but_date f f' -> parse_dates f = parse_dates f'.
Proof.
  intros E. unfold parse_dates. f_equal. apply map_undated; [reflexivity | exact E].
Qed.

Lemma monthly_long_same (f f' : DataFrame) :
  same_but_date f f' -> monthly_long f = monthly_long f'.
Proof.
  intros E. unfold monthly_long. f_equal; apply map_undated; try reflexivity; exact E.
Qed.

Lemma selected_same (airport : string) (f f' : DataFrame) :
  same_but_date f f' -> same_but_date (selected airport f) (selected airport f').
Proof.
  intros E. unfold same_but_date, selected. cbn [rows].
  apply filter_undated; [reflexivity | exact E].
Qed.

Lemma with_dates_rows_same (ts : list Timestamp) (f f' : DataFrame) :
  same_but_date f f' -> rows (with_dates ts f) = rows (with_dates ts f').
Proof. intros E. unfold with_dates. cbn [rows]. apply zip_with_undated, E. Qed.

Lemma daily_table_rows (f f' : DataFrame) :
  rows f = rows f' -> daily_table f = daily_table f'.
Proof. intros E. unfold daily_table. rewrite E. reflexivity. Qed.

Lemma top_table_rows `{Library} (airport : string) (top_n : Z) (f f' : DataFrame) :
  rows f = rows f' -> top_table airport top_n f = top_table airport top_n f'.
Proof. intros E. unfold top_table, site_daily. rewrite E. reflexivity. Qed.

(** The results of the three aggregators are read off the frame, and not off
    its dates. *)
Lemma calculate_daily_means_same `{Library} (df df' : loc) (s s' : State)
    (f f' : DataFrame) :
  nth_error (heap s) df = Some f -> cleaned f = true ->
  nth_error (heap s') df' = Some f' -> cleaned f' = true ->
  same_but_date f f' ->
  fst (calculate_daily_means df s) = fst (calculate_daily_means df' s').
Proof.
  intros Hf Hc Hf' Hc' E.
  rewrite (calculate_daily_means_run df s f Hf Hc).
  rewrite (calculate_daily_means_run df' s' f' Hf' Hc').
  rewrite (parse_dates_same f f' E).
  destruct (parse_dates f') as [ts|]; [|reflexivity]. cbn [fst]. f_equal.
  apply daily_table_rows, with_dates_rows_same, E.
Qed.

Lemma pivot_result (l : list (Z * string * option Q)) (s s' : State) :
  fst (pivot l s) = fst (pivot l s').
Proof. unfold pivot. destruct (has_duplicates _); reflexivity. Qed.

Lemma calculate_monthly_means_same (df df' : loc) (s s' : State) (f f' : DataFrame) :
  nth_error (heap s) df = Some f -> cleaned f = true ->
  nth_error (heap s') df' = Some f' -> cleaned f' = true ->
  same_but_date f f' ->
  fst (calculate_monthly_means df s) = fst (calculate_monthly_means df' s').
Proof.
  intros Hf Hc Hf' Hc' E.
  rewrite (calculate_monthly_means_run df s f Hf Hc).
  rewrite (calculate_monthly_means_run df' s' f' Hf' Hc').
  rewrite (monthly_long_same f f' E). apply pivot_result.
Qed.

Lemma find_top_windiest_days_same `{Library} (df df' : loc) (airport : string)
    (top_n : Z) (s s' : State) (f f' : DataFrame) :
  nth_error (heap s) df = Some f -> cleaned f = true ->
  nth_error (heap s') df' = Some f' -> cleaned f' = true ->
  same_but_date f f' ->
  fst (find_top_windiest_days df airport top_n s) =
  fst (find_top_windiest_days df' airport top_n s').
Proof.
  intros Hf Hc Hf' Hc' E.
  rewrite (find_top_windiest_days_run df airport top_n s f Hf Hc).
  rewrite (find_top_windiest_days_run df' airport top_n s' f' Hf' Hc').
  pose proof (selected_same airport f f' E) as Es.
  rewrite (parse_dates_same _ _ Es).
  destruct (parse_dates (selected airport f')) as [ts|]; [|reflexivity].
  cbn [fst]. f_equal. apply top_table_rows, with_dates_rows_same, Es.
Qed.

Lemma update_update {A} (n : nat) (x y : A) (l : list A) :
  update n y (update n x l) = update n y l.
Proof.
  revert n. induction l as [|a t IH]; intros [|n]; simpl; try reflexivity.
  rewrite IH. reflexivity.
Qed.

Lemma add_column_twice (c : string) (cs : list string) :
  add_column c (add_column c cs) = add_column c cs.
Proof.
  unfold add_column at 1. rewrite has_column_added. reflexivity.
Qed.

Lemma with_dates_twice `{Library} (f : DataFrame) (ts : list Timestamp) :
  parse_dates f = Some ts -> with_dates ts (with_dates ts f) = with_dates ts f.
Proof.
  intros E.
  pose proof (with_dates_rows_same ts _ _ (same_but_date_with_dates f ts E)) as Er.
  unfold with_dates in *. cbn [rows columns] in *.
  rewrite Er, add_column_twice. reflexivity.
Qed.

(** X6. Calling [calculate_daily_means] a second time on the same cleaned
    frame returns the same table (or raises the same error) and changes
    nothing more: the column [date] is assigned again with the same
    values. *)
Theorem calculate_daily_means_twice `{Library} (df : loc) (s : State) (f : DataFrame) :
  nth_error (heap s) df = Some f ->
  cleaned f = true ->
  calculate_daily_means df (snd (calculate_daily_means df s)) =
  calculate_daily_means df s.
Proof.
  intros Hf Hc. rewrite (calculate_daily_means_run df s f Hf Hc).
  destruct (parse_dates f) as [ts|] eqn:Ets; cbn [snd].
  - pose proof (cleaned_with_dates f ts Hc Ets) as Hc'.
    rewrite (calculate_daily_means_run df _ (with_dates ts f)).
    + rewrite (parse_dates_same _ _ (same_but_date_with_dates f ts Ets)), Ets.
      rewrite (with_dates_twice f ts Ets). cbn [heap written].
      rewrite update_update. reflexivity.
    + cbn [heap]. apply nth_error_update_eq. eapply nth_error_Some_lt, Hf.
    + exact Hc'.
  - rewrite (calculate_daily_means_run df s f Hf Hc), Ets. reflexivity.
Qed.

Lemma calculate_daily_means_twice_witness :
  @calculate_daily_means strict_library 0%nat
     (snd (@calculate_daily_means strict_library 0%nat sample_state)) =
  @calculate_daily_means strict_library 0%nat sample_state.
Proof.
  apply (@calculate_daily_means_twice strict_library 0%nat sample_state sample_cleaned);
    reflexivity.
Defined.

(** X7. The column [date] that [calculate_daily_means] leaves in the
    cleaned frame changes nothing for the other aggregators: after it,
    [calculate_monthly_means] and [find_top_windiest_days] return what they
    return before it, table or error. *)
Theorem aggregators_ignore_the_date_column `{Library} (df : loc) (airport : string)
    (top_n : Z) (s : State) (f : DataFrame) :
  nth_error (heap s) df = Some f ->
  cleaned f = true ->
  fst (calculate_monthly_means df (snd (calculate_daily_means df s))) =
  fst (calculate_monthly_means df s) /\
  fst (find_top_windiest_days df airport top_n (snd (calculate_daily_means df s))) =
  fst (find_top_windiest_days df airport top_n s).
Proof.
  intros Hf Hc. rewrite (calculate_daily_means_run df s f Hf Hc).
  destruct (parse_dates f) as [ts|] eqn:Ets; cbn [snd]; [|split; reflexivity].
  pose proof (cleaned_with_dates f ts Hc Ets) as Hc'.
  pose proof (same_but_date_with_dates f ts Ets) as E.
  assert (Hf' : nth_error (heap (mkState (update df (with_dates ts f) (heap s))
                                        (written s))) df = Some (with_dates ts f)).
  { cbn [heap]. apply nth_error_update_eq. eapply nth_error_Some_lt, Hf. }
  split.
  - apply (calculate_monthly_means_same df df _ s _ f Hf' Hc' Hf Hc E).
  - apply (find_top_windiest_days_same df df airport top_n _ s _ f Hf' Hc' Hf Hc E).
Qed.

Lemma aggregators_ignore_the_date_column_witness :
  fst (calculate_monthly_means 0%nat
         (snd (@calculate_daily_means strict_library 0%nat sample_state))) =
  fst (calculate_monthly_means 0%nat sample_state) /\
  fst (@find_top_windiest_days strict_library 0%nat "LGA" 2
         (snd (@calculate_daily_means strict_library 0%nat sample_state))) =
  fst (@find_top_windiest_days strict_library 0%nat "LGA" 2 sample_state).
Proof.
  apply (@aggregators_ignore_the_date_column strict_library 0%nat "LGA" 2%Z
           sample_state sample_cleaned); reflexivity.
Defined.

(** ** The pipeline as a whole *)

Lemma bind_fails {A B} (m : Py A) (k : A -> Py B) (s s' : State) (e : Exn) :
  m s = (Raise e, s') -> bind m k s = (Raise e, s').
Proof. unfold bind. intros ->. reflexivity. Qed.

Definition input_columns : list string :=
  ["origin"; "year"; "month"; "day"; "wind_speed"].

(** The file has the columns the script reads. *)
Definition well_formed (raw : DataFrame) : bool :=
  forallb (has_column raw) input_columns.

Lemma well_formed_column (raw : DataFrame) (c : string) :
  well_formed raw = true -> In c input_columns -> has_column raw c = true.
Proof.
  unfold well_formed. intros Hw Hin. rewrite forallb_forall in Hw. apply Hw, Hin.
Qed.

Lemma cleaned_cleaned_frame (raw : DataFrame) :
  well_formed raw = true -> numeric raw = true -> cleaned (cleaned_frame raw) = true.
Proof.
  intros Hw Hn. unfold cleaned. rewrite !andb_true_iff.
  split; [split | exact Hn].
  - apply forallb_forall. intros c Hin. unfold cleaned_frame, has_column.
    cbn [columns]. simpl in Hin.
    destruct Hin as [<-|[<-|[<-|[<-|[<-|[]]]]]];
      try (apply (has_column_add raw), well_formed_column;
           [exact Hw | simpl; tauto]).
    apply has_column_added.
  - apply forallb_forall. intros r' Hin. unfold cleaned_frame, cleaned_rows in Hin.
    cbn [rows] in Hin. apply in_map_iff in Hin. destruct Hin as [r [<- Hr]].
    apply filter_In in Hr. destruct Hr as [_ Hr].
    apply andb_true_iff in Hr. destruct Hr as [Hk Hs].
    unfold cleaned_row. apply andb_true_iff. split; [exact Hk|].
    unfold has_wind_speed in Hs. unfold with_speed_ms. simpl.
    destruct (wind_speed r); [reflexivity | discriminate].
Qed.

Lemma traverse_Some {A B} (g : A -> option B) (l : list A) :
  (exists bs, traverse g l = Some bs) <-> (forall a, In a l -> g a <> None).
Proof.
  induction l as [|a t IH]; simpl.
  - split; [intros _ x [] | intros _; exists []; reflexivity].
  - split.
    + intros [bs E] x [<-|Hx].
      * destruct (g a); [discriminate | discriminate E].
      * destruct (g a); [|discriminate].
        destruct (traverse g t) as [bs'|]; [|discriminate].
        apply (proj1 IH); [exists bs'; reflexivity | exact Hx].
    + intros Hall.
      destruct (proj2 IH (fun x Hx => Hall x (or_intror Hx))) as [bs' ->].
      destruct (g a) as [b|] eqn:E.
      * exists (b :: bs'). reflexivity.
      * exfalso. apply (Hall a (or_introl eq_refl) E).
Qed.

Lemma parse_dates_selected `{Library} (airport : string) (f : DataFrame)
    (ts : list Timestamp) :
  parse_dates f = Some ts -> exists ts', parse_dates (selected airport f) = Some ts'.
Proof.
  intros E. unfold parse_dates in *. apply traverse_Some.
  intros t Ht. apply in_map_iff in Ht. destruct Ht as [r [<- Hr]].
  unfold selected in Hr. cbn [rows] in Hr. apply filter_In in Hr.
  apply (proj1 (traverse_Some _ _) (ex_intro _ ts E)).
  apply in_map. apply Hr.
Qed.

(** X8. For a file with the columns the script reads and at least one data
    row (so that its number columns are numeric), and an [output_dir] in
    which the three files can be written, the pipeline completes exactly
    when [calculate_daily_means] does on the cleaned table, and then the
    three files hold the tables that the three aggregators return on the
    cleaned table, each run alone (the ranker for LGA and 20 days); when
    [calculate_daily_means] raises, the pipeline raises the same error. *)
Theorem prepare_data_for_tableau_tables `{Library} (fs : string -> option DataFrame)
    (input_file output_dir : string) (raw : DataFrame) (s : State) :
  fs input_file = Some raw ->
  well_formed raw = true ->
  rows raw <> [] ->
  numeric raw = true ->
  forallb can_write (output_paths output_dir) = true ->
  match fst (calculate_daily_means 0%nat (mkState [cleaned_frame raw] [])) with
  | Ok daily =>
      exists monthly top_days,
        fst (calculate_monthly_means 0%nat (mkState [cleaned_frame raw] []))
          = Ok monthly /\
        fst (find_top_windiest_days 0%nat "LGA" 20 (mkState [cleaned_frame raw] []))
          = Ok top_days /\
        fst (prepare_data_for_tableau fs input_file output_dir s) = Ok tt /\
        new_files s (snd (prepare_data_for_tableau fs input_file output_dir s)) =
        [((output_dir ++ "/daily_wind_speeds.csv")%string, DailyTable daily);
         ((output_dir ++ "/monthly_wind_speeds.csv")%string, MonthlyTable monthly);
         ((output_dir ++ "/top_windiest_days.csv")%string, TopDaysTable top_days)]
  | Raise e =>
      fst (prepare_data_for_tableau fs input_file output_dir s) = Raise e
  end.
Proof.
  intros Hfs Hw _ Hn Hout.
  pose proof (cleaned_cleaned_frame raw Hw Hn) as Hc.
  set (cf := cleaned_frame raw) in *.
  set (s0 := mkState [cf] []).
  assert (H0 : nth_error (heap s0) 0%nat = Some cf) by reflexivity.
  unfold prepare_data_for_tableau.
  rewrite (bind_run _ _ _ _ _
             (load_and_clean_data_run fs input_file raw s Hfs
                (well_formed_column raw "origin" Hw ltac:(simpl; tauto))
                (well_formed_column raw "wind_speed" Hw ltac:(simpl; tauto)))).
  fold cf. set (s1 := mkState _ _). set (df := (2 + List.length (heap s))%nat).
  assert (H1 : nth_error (heap s1) df = Some cf) by apply nth_error_third.
  rewrite (calculate_daily_means_run 0%nat s0 cf H0 Hc).
  pose proof (calculate_daily_means_run df s1 cf H1 Hc) as Hd.
  destruct (parse_dates cf) as [ts|] eqn:Ets; cbn [fst];
    [|rewrite (bind_fails _ _ _ _ _ Hd); reflexivity].
  rewrite (bind_run _ _ _ _ _ Hd).
  set (f' := with_dates ts cf) in *. set (s2 := mkState _ _).
  pose proof (cleaned_with_dates cf ts Hc Ets) as Hc'. fold f' in Hc'.
  pose proof (same_but_date_with_dates cf ts Ets) as E. fold f' in E.
  assert (H2 : nth_error (heap s2) df = Some f').
  { apply nth_error_update_eq. eapply nth_error_Some_lt, H1. }
  destruct (parse_dates_selected "LGA" f' ts) as [ts' Ets'].
  { rewrite (parse_dates_same f' cf E). exact Ets. }
  pose proof (calculate_monthly_means_same df 0%nat s2 s0 f' cf H2 Hc' H0 Hc E) as Em.
  pose proof (find_top_windiest_days_same df 0%nat "LGA" 20%Z s2 s0 f' cf H2 Hc' H0 Hc E)
    as Et.
  unfold bind.
  rewrite (calculate_monthly_means_run df s2 f' H2 Hc'), pivot_monthly_long in *.
  rewrite (find_top_windiest_days_run df "LGA" 20%Z s2 f' H2 Hc'), Ets' in *.
  cbn [fst] in Em, Et. rewrite (export_for_tableau_run _ _ _ _ _ Hout).
  eexists _, _. split; [symmetry; exact Em|]. split; [symmetry; exact Et|].
  split; [reflexivity|]. cbn [snd]. unfold new_files. cbn [written heap].
  apply skipn_length_app.
Qed.

Lemma prepare_data_for_tableau_tables_witness :
  match fst (@calculate_daily_means strict_library 0%nat
               (mkState [cleaned_frame sample_weather] [])) with
  | Ok daily =>
      exists monthly top_days,
        fst (calculate_monthly_means 0%nat (mkState [cleaned_frame sample_weather] []))
          = Ok monthly /\
        fst (@find_top_windiest_days strict_library 0%nat "LGA" 20
               (mkState [cleaned_frame sample_weather] []))
          = Ok top_days /\
        fst (@prepare_data_for_tableau strict_library sample_files
               "nycflights13_weather.csv" "." empty_state) = Ok tt /\
        new_files empty_state
          (snd (@prepare_data_for_tableau strict_library sample_files
                  "nycflights13_weather.csv" "." empty_state)) =
        [(("." ++ "/daily_wind_speeds.csv")%string, DailyTable daily);
         (("." ++ "/monthly_wind_speeds.csv")%string, MonthlyTable monthly);
         (("." ++ "/top_windiest_days.csv")%string, TopDaysTable top_days)]
  | Raise e =>
      fst (@prepare_data_for_tableau strict_library sample_files
             "nycflights13_weather.csv" "." empty_state) = Raise e
  end.
Proof.
  apply (@prepare_data_for_tableau_tables strict_library sample_files
           "nycflights13_weather.csv" "." sample_weather empty_state);
    first [reflexivity | discriminate].
Defined.

(** ** Row and column order *)

(** The order of the rows of the daily table: by date, and by site code
    within a date. *)
Definition daily_before (x y : DailyRecord) : Prop :=
  (fst (fst x) < fst (fst y))%Z \/
  (fst (fst x) = fst (fst y) /\ String.compare (snd (fst x)) (snd (fst y)) = Lt).

Lemma day_cmp_Lt (k k' : Timestamp * string) :
  day_cmp k k' = Lt ->
  (fst k < fst k')%Z \/ (fst k = fst k' /\ String.compare (snd k) (snd k') = Lt).
Proof.
  unfold day_cmp, cmp_pair, Timestamp in *. intros Hlt.
  destruct (Z.compare (fst k) (fst k')) eqn:E; try discriminate.
  - right. split; [apply Z.compare_eq, E | exact Hlt].
  - left. exact E.
Qed.

Lemma daily_table_sorted (f : DataFrame) : StronglySorted daily_before (daily_table f).
Proof.
  unfold daily_table. apply StronglySorted_map.
  set (g := groupby_mean _ _ _).
  assert (St : StronglySorted (key_lt day_cmp) (map fst g)).
  { unfold g. rewrite (groupby_mean_keys (cmp_pair Z.compare String.compare)).
    apply (group_keys_sorted day_cmp). }
  clearbody g. induction g as [|x t IH]; [constructor|].
  inversion St as [|? ? St' Hx]; subst. constructor; [apply IH, St'|].
  rewrite Forall_forall in *. intros y Hy.
  unfold daily_before. cbn [fst snd]. apply day_cmp_Lt, Hx, in_map, Hy.
Qed.

(** X9. The daily table comes sorted: whenever [calculate_daily_means]
    returns a table for a cleaned frame, its rows are in ascending order of
    date and, within a date, of site code. *)
Theorem calculate_daily_means_sorted `{Library} (df : loc) (s : State) (f : DataFrame) :
  nth_error (heap s) df = Some f ->
  cleaned f = true ->
  match fst (calculate_daily_means df s) with
  | Ok daily => StronglySorted daily_before daily
  | Raise _ => True
  end.
Proof.
  intros Hf Hc. rewrite (calculate_daily_means_run df s f Hf Hc).
  destruct (parse_dates f); cbn [fst]; [apply daily_table_sorted | exact I].
Qed.

Lemma calculate_daily_means_sorted_witness :
  match fst (@calculate_daily_means strict_library 0%nat sample_state) with
  | Ok daily => StronglySorted daily_before daily
  | Raise _ => True
  end.
Proof.
  apply (@calculate_daily_means_sorted strict_library 0%nat sample_state sample_cleaned);
    reflexivity.
Defined.

(** X10. The site columns of the monthly table come in ascending order of
    site code, whatever the order of the rows of the cleaned frame. *)
Theorem calculate_monthly_means_columns_sorted (df : loc) (s : State) (f : DataFrame) :
  nth_error (heap s) df = Some f ->
  cleaned f = true ->
  exists monthly : MonthlyFrame,
    fst (calculate_monthly_means df s) = Ok monthly /\
    StronglySorted (fun a b => String.compare a b = Lt) (airport_columns monthly).
Proof.
  intros Hf Hc.
  rewrite (calculate_monthly_means_run df s f Hf Hc), pivot_monthly_long.
  eexists. split; [reflexivity|]. cbn [airport_columns].
  apply (group_keys_sorted String.compare).
Qed.

Lemma calculate_monthly_means_columns_sorted_witness :
  exists monthly : MonthlyFrame,
    fst (calculate_monthly_means 0%nat sample_state) = Ok monthly /\
    StronglySorted (fun a b => String.compare a b = Lt) (airport_columns monthly).
Proof.
  apply (calculate_monthly_means_columns_sorted 0%nat sample_state sample_cleaned);
    reflexivity.
Defined.

(** ** More on the ranking *)

Lemma dated_selected (airport : string) (f : DataFrame) :
  dated f = true -> dated (selected airport f) = true.
Proof.
  unfold dated, selected. cbn [rows]. rewrite !forallb_forall.
  intros Hd r Hr. apply filter_In in Hr. apply Hd, Hr.
Qed.

(** X11. Asked for no day or for a negative number of days,
    [find_top_windiest_days] returns the empty table and raises nothing,
    provided the dates of the site parse. *)
Theorem find_top_windiest_days_no_days `{Library} (df : loc) (airport : string)
    (top_n : Z) (s : State) (f : DataFrame) :
  nth_error (heap s) df = Some f ->
  cleaned f = true ->
  dated (selected airport f) = true ->
  (top_n <= 0)%Z ->
  fst (find_top_windiest_days df airport top_n s) = Ok [].
Proof.
  intros Hf Hc Hd Hn.
  rewrite (find_top_windiest_days_run df airport top_n s f Hf Hc).
  rewrite (parse_dates_dated _ Hd). cbn [fst]. f_equal.
  unfold top_table, nlargest_rows.
  replace (top_n <=? 0)%Z with true by (symmetry; apply Z.leb_le; exact Hn).
  reflexivity.
Qed.

Lemma find_top_windiest_days_no_days_witness :
  fst (@find_top_windiest_days strict_library 0%nat "LGA" 0 sample_state) = Ok [].
Proof.
  apply (@find_top_windiest_days_no_days strict_library 0%nat "LGA" 0%Z
           sample_state sample_cleaned); first [reflexivity | lia].
Defined.

Lemma StronglySorted_app_inv {A} (R : A -> A -> Prop) (l1 l2 : list A) (a b : A) :
  StronglySorted R (l1 ++ l2) -> In a l1 -> In b l2 -> R a b.
Proof.
  induction l1 as [|x t IH]; simpl; intros St Ha Hb; [contradiction|].
  inversion St as [|? ? St' Hx]; subst. destruct Ha as [->|Ha].
  - rewrite Forall_forall in Hx. apply Hx, in_or_app. right. exact Hb.
  - apply (IH St' Ha Hb).
Qed.

Lemma In_firstn_or_skipn {A} (n : nat) (l : list A) (x : A) :
  In x l -> In x (firstn n l) \/ In x (skipn n l).
Proof.
  intros Hin. rewrite <- (firstn_skipn n l) in Hin. apply in_app_or, Hin.
Qed.

(** X12. The table of [find_top_windiest_days] holds the windiest days:
    a date of the site that is not in the table has a mean speed no greater
    than the speed of any row of the table; and when [top_n] is at least
    the number of dates of the site, every date of the site is in the
    table. *)
Theorem find_top_windiest_days_are_the_windiest `{Library} (df : loc)
    (airport : string) (top_n : Z) (s : State) (f : DataFrame) :
  nth_error (heap s) df = Some f ->
  cleaned f = true ->
  dated (selected airport f) = true ->
  (0 < top_n)%Z ->
  exists top : list TopDayRecord,
    fst (find_top_windiest_days df airport top_n s) = Ok top /\
    (forall r rec,
       In r (rows f) -> origin r = Some airport ->
       ~ In (assemble (ymd r)) (map date_of top) ->
       In rec top ->
       exists v, snd (fst rec) = Some v /\ (site_day_mean airport f r <= v)%Q) /\
    ((Z.of_nat (List.length (distinct_dates airport f)) <= top_n)%Z ->
     forall r, In r (rows f) -> origin r = Some airport ->
               In (assemble (ymd r)) (map date_of top)).
Proof.
  intros Hf Hc Hd Hn.
  rewrite (find_top_windiest_days_dated df airport top_n s f Hf Hc Hd Hn).
  set (L := date_means (selected airport f)).
  set (S := ranking top_n L).
  assert (HP : Permutation S L) by apply ranking_perm.
  assert (HS : StronglySorted by_speed_desc S) by apply ranking_sorted.
  assert (Hdates : map date_of (map (attach airport) (firstn (Z.to_nat top_n) S)) =
                   map fst (firstn (Z.to_nat top_n) S)).
  { rewrite map_map. reflexivity. }
  eexists. split; [reflexivity|]. rewrite Hdates. split.
  - intros r rec Hr Ea Hout Hrec.
    apply in_map_iff in Hrec. destruct Hrec as [q [<- Hq]].
    exists (snd q). split; [reflexivity|].
    pose proof (date_mean_site airport f r Hd Hr Ea) as Hp. fold L in Hp.
    apply (Permutation_in _ (Permutation_sym HP)) in Hp.
    destruct (In_firstn_or_skipn (Z.to_nat top_n) S _ Hp) as [Hp'|Hp'].
    + exfalso. apply Hout. apply (in_map fst) in Hp'. exact Hp'.
    + rewrite <- (firstn_skipn (Z.to_nat top_n) S) in HS.
      apply (StronglySorted_app_inv _ _ _ _ _ HS Hq Hp').
  - intros Hall r Hr Ea.
    pose proof (date_mean_site airport f r Hd Hr Ea) as Hp. fold L in Hp.
    apply (Permutation_in _ (Permutation_sym HP)) in Hp.
    rewrite firstn_all2.
    + apply (in_map fst) in Hp. exact Hp.
    + rewrite (Permutation_length HP). unfold L.
      rewrite (distinct_dates_count airport f Hd). lia.
Qed.

Lemma find_top_windiest_days_are_the_windiest_witness :
  exists top : list TopDayRecord,
    fst (@find_top_windiest_days strict_library 0%nat "LGA" 2 sample_state) = Ok top /\
    (forall r rec,
       In r (rows sample_cleaned) -> origin r = Some "LGA" ->
       ~ In (assemble (ymd r)) (map date_of top) ->
       In rec top ->
       exists v, snd (fst rec) = Some v /\
                 (site_day_mean "LGA" sample_cleaned r <= v)%Q) /\
    ((Z.of_nat (List.length (distinct_dates "LGA" sample_cleaned)) <= 2)%Z ->
     forall r, In r (rows sample_cleaned) -> origin r = Some "LGA" ->
               In (assemble (ymd r)) (map date_of top)).
Proof.
  apply (@find_top_windiest_days_are_the_windiest strict_library 0%nat "LGA" 2%Z
           sample_state sample_cleaned); reflexivity.
Defined.

(** ** The two daily aggregations agree *)

Lemma daily_table_value (f : DataFrame) (r : Row) (a : string) :
  cleaned f = true -> dated f = true ->
  In r (rows f) -> origin r = Some a ->
  In (assemble (ymd r), a, Some (site_day_mean a f r))
     (daily_table (with_dates (map (fun r => assemble (ymd r)) (rows f)) f)).
Proof.
  intros Hc Hd Hr Ea. rewrite daily_table_stamped.
  apply in_map_iff. exists (assemble (ymd r), a). split.
  - cbn [fst snd]. f_equal.
    rewrite (filter_ext_in _ (fun r' => same_day r r' && same_site a r')).
    + destruct (all_present wind_speed_ms
                  (filter (fun r' => same_day r r' && same_site a r') (rows f)))
        as [vs Evs].
      { intros r' Hr'. apply filter_In in Hr'. destruct Hr' as [Hr' _].
        destruct (cleaned_rows_In f r' Hc Hr') as [a' [v' [_ [_ Ev']]]].
        exists v'. exact Ev'. }
      unfold site_day_mean. rewrite Evs, present_map_Some. apply mean_values.
      intros ->.
      assert (Hin : In r (filter (fun r' => same_day r r' && same_site a r') (rows f))).
      { apply filter_In. split; [exact Hr|]. apply andb_true_iff. split.
        - apply same_day_ymd. reflexivity.
        - unfold same_site. rewrite Ea. apply String.eqb_refl. }
      apply (in_map wind_speed_ms) in Hin. rewrite Evs in Hin. exact Hin.
    + intros r' Hr'. apply (in_day_group_same f r r' a Hd Hr Hr').
  - apply In_day_keys. exists r. cbn [fst snd]. auto.
Qed.

(** X13. The two aggregations by day agree: for a cleaned frame whose
    rows carry dates of the calendar, every row (date, speed) of the table
    of [find_top_windiest_days] for a site is the row (date, site, speed)
    of the table of [calculate_daily_means]. *)
Theorem top_days_are_daily_rows `{Library} (df : loc) (airport : string) (top_n : Z)
    (s : State) (f : DataFrame) :
  nth_error (heap s) df = Some f ->
  cleaned f = true ->
  dated f = true ->
  (0 < top_n)%Z ->
  exists (daily : list DailyRecord) (top : list TopDayRecord),
    fst (calculate_daily_means df s) = Ok daily /\
    fst (find_top_windiest_days df airport top_n s) = Ok top /\
    forall d v a, In (d, v, a) top -> In (d, a, v) daily.
Proof.
  intros Hf Hc Hd Hn.
  pose proof (dated_selected airport f Hd) as Hds.
  rewrite (find_top_windiest_days_dated df airport top_n s f Hf Hc Hds Hn).
  rewrite (calculate_daily_means_run df s f Hf Hc), (parse_dates_dated f Hd).
  eexists _, _. split; [reflexivity|]. split; [reflexivity|].
  intros d v a Hin. apply in_map_iff in Hin. destruct Hin as [p [Ep Hp]].
  unfold attach in Ep. injection Ep as <- <- <-.
  apply In_firstn in Hp. apply (Permutation_in _ (ranking_perm _ _)) in Hp.
  apply In_date_means in Hp. destruct Hp as [[r [Hr Ed]] Ev].
  apply In_selected in Hr. destruct Hr as [Hr Ea].
  pose proof (date_mean_site airport f r Hds Hr Ea) as Hq.
  apply In_date_means in Hq. destruct Hq as [_ Eq]. cbn [fst snd] in Eq.
  rewrite Ev, Ed, <- Eq. apply (daily_table_value f r airport Hc Hd Hr Ea).
Qed.

Lemma top_days_are_daily_rows_witness :
  exists (daily : list DailyRecord) (top : list TopDayRecord),
    fst (@calculate_daily_means strict_library 0%nat sample_state) = Ok daily /\
    fst (@find_top_windiest_days strict_library 0%nat "LGA" 2 sample_state) = Ok top /\
    forall d v a, In (d, v, a) top -> In (d, a, v) daily.
Proof.
  apply (@top_days_are_daily_rows strict_library 0%nat "LGA" 2%Z
           sample_state sample_cleaned); reflexivity.
Defined.

(** ** Cleaning twice, and cleaning what cannot be cleaned *)

Lemma filter_all {A} (p : A -> bool) (l : list A) :
  forallb p l = true -> filter p l = l.
Proof.
  induction l as [|a t IH]; simpl; [reflexivity|].
  destruct (p a); simpl; [intros E; rewrite (IH E); reflexivity | discriminate].
Qed.

Lemma cleaned_rows_twice (rs : list Row) :
  cleaned_rows (cleaned_rows rs) = cleaned_rows rs.
Proof.
  unfold cleaned_rows at 1. rewrite filter_all.
  - unfold cleaned_rows. rewrite map_map. apply map_ext. intros r.
    unfold with_speed_ms. reflexivity.
  - apply forallb_forall. intros r' Hin. unfold cleaned_rows in Hin.
    apply in_map_iff in Hin. destruct Hin as [r [<- Hr]].
    apply filter_In in Hr. apply Hr.
Qed.

Lemma cleaned_frame_twice (raw : DataFrame) :
  cleaned_frame (cleaned_frame raw) = cleaned_frame raw.
Proof.
  unfold cleaned_frame. cbn [columns rows].
  rewrite add_column_twice, cleaned_rows_twice. reflexivity.
Qed.

(** X16. Cleaning is idempotent: [load_and_clean_data] on a file that holds
    a table it has cleaned returns that table, row for row, with no row
    dropped and no speed changed. *)
Theorem load_and_clean_data_idempotent (fs : string -> option DataFrame)
    (path : string) (raw : DataFrame) (s : State) :
  fs path = Some (cleaned_frame raw) ->
  well_formed raw = true ->
  exists (df : loc) (s' : State),
    load_and_clean_data fs path s = (Ok df, s') /\
    nth_error (heap s') df = Some (cleaned_frame raw).
Proof.
  intros Hfs Hw. eexists _, _. split.
  - apply (load_and_clean_data_run fs path (cleaned_frame raw) s Hfs).
    + apply (has_column_add raw), well_formed_column; [exact Hw | simpl; tauto].
    + apply (has_column_add raw), well_formed_column; [exact Hw | simpl; tauto].
  - cbn [heap]. rewrite cleaned_frame_twice. apply nth_error_third.
Qed.

Lemma load_and_clean_data_idempotent_witness :
  exists (df : loc) (s' : State),
    load_and_clean_data (fun _ => Some (cleaned_frame sample_weather))
      "cleaned.csv" empty_state = (Ok df, s') /\
    nth_error (heap s') df = Some (cleaned_frame sample_weather).
Proof.
  apply (load_and_clean_data_idempotent (fun _ => Some (cleaned_frame sample_weather))
           "cleaned.csv" sample_weather empty_state); reflexivity.
Defined.

Lemma getitem_fails {A} (c : Column A) (df : loc) (s : State) (f : DataFrame) :
  nth_error (heap s) df = Some f ->
  has_column f (label c) = false ->
  getitem c df s = (Raise (KeyError (label c)), s).
Proof.
  intros Hf Hc. unfold getitem, bind, deref. rewrite Hf, Hc. reflexivity.
Qed.

Lemma dropna_fails {A} (c : Column (option A)) (df : loc) (s : State) (f : DataFrame) :
  nth_error (heap s) df = Some f ->
  has_column f (label c) = false ->
  dropna c df s = (Raise (KeyError (label c)), s).
Proof.
  intros Hf Hc. unfold dropna, bind, deref. rewrite Hf, Hc. reflexivity.
Qed.

(** X17. A file without the column [origin], or with it but without the
    column [wind_speed], makes [load_and_clean_data] raise [KeyError] for
    the first of the two that is missing; the pipeline then raises the
    same error and writes no file. *)
Theorem load_and_clean_data_missing_column `{Library}
    (fs : string -> option DataFrame) (path output_dir : string)
    (raw : DataFrame) (s : State) :
  fs path = Some raw ->
  has_column raw "origin" && has_column raw "wind_speed" = false ->
  let e := KeyError (if has_column raw "origin" then "wind_speed" else "origin") in
  fst (load_and_clean_data fs path s) = Raise e /\
  fst (prepare_data_for_tableau fs path output_dir s) = Raise e /\
  written (snd (prepare_data_for_tableau fs path output_dir s)) = written s.
Proof.
  intros Hfs Hmiss e.
  assert (Hl : exists s', load_and_clean_data fs path s = (Raise e, s')
                          /\ written s' = written s).
  { unfold load_and_clean_data, read_csv. rewrite Hfs.
    set (s1 := mkState (heap s ++ [raw]) (written s)).
    assert (H1 : nth_error (heap s1) (List.length (heap s)) = Some raw)
      by apply nth_error_app_last.
    rewrite (bind_run _ _ s s1 (List.length (heap s)) eq_refl).
    subst e. destruct (has_column raw "origin") eqn:Eo.
    - simpl in Hmiss.
      rewrite (bind_run _ _ _ _ _ (getitem_run origin_col _ _ _ H1 Eo)).
      rewrite (bind_run _ _ _ _ _ (getitem_mask_run _ _ _ _ H1)).
      set (f1 := mkDataFrame _ _ _). set (s2 := mkState _ _).
      assert (H2 : nth_error (heap s2) (List.length (heap s1)) = Some f1)
        by apply nth_error_app_last.
      rewrite (bind_fails _ _ _ _ _ (dropna_fails wind_speed_col _ s2 f1 H2 Hmiss)).
      exists s2. split; reflexivity.
    - rewrite (bind_fails _ _ _ _ _ (getitem_fails origin_col _ s1 raw H1 Eo)).
      exists s1. split; reflexivity. }
  destruct Hl as [s' [El Ew]]. rewrite El. split; [reflexivity|].
  unfold prepare_data_for_tableau. rewrite (bind_fails _ _ _ _ _ El).
  split; [reflexivity | exact Ew].
Qed.

Definition no_wind_speed : DataFrame :=
  mkFrame ["origin"; "year"; "month"; "day"]
    [observation "LGA" 2013 1 1 None].

Lemma load_and_clean_data_missing_column_witness :
  let e := KeyError (if has_column no_wind_speed "origin" then "wind_speed" else "origin") in
  fst (load_and_clean_data (fun _ => Some no_wind_speed) "w.csv" empty_state) = Raise e /\
  fst (@prepare_data_for_tableau strict_library (fun _ => Some no_wind_speed)
         "w.csv" "." empty_state) = Raise e /\
  written (snd (@prepare_data_for_tableau strict_library (fun _ => Some no_wind_speed)
                  "w.csv" "." empty_state)) = written empty_state.
Proof.
  apply (@load_and_clean_data_missing_column strict_library
           (fun _ => Some no_wind_speed) "w.csv" "." no_wind_speed empty_state);
    reflexivity.
Defined.
